(** * The match supervisor of the AI World Cup simulator

    A shallow embedding of [controllers/supervisor/supervisor.py]: the RPC
    framer and command dispatcher ([GameSupervisor.callback]), the role
    registry ([get_role]), the geometric predicates, the ownership rules,
    the frame publisher ([generate_frame]) and the body of the referee
    loop ([GameSupervisor.run]).

    Conventions.
    - Python [int] is [Z]; Python [float] is modelled by the rationals [Q]
      (every finite double is a rational); rounding is not modelled.
    - The simulation engine (Webots nodes, fields, receiver, cameras) is
      the interface [Backend]; nothing is assumed about how a write to a
      field shows up in a later read.
    - The modules [constants], [player] and [image_frame_buffer] are not
      part of the sources at hand: their values are the record
      [Constants] and the vision operations of [Backend].
    - A Python exception that would leave [callback] or the loop is an
      explicit result ([CmdRaise], [CbRaise], [Crash]). *)

From Stdlib Require Import ZArith QArith Qabs Qround Lqa String Ascii List Lia Bool.
From stdpp Require Import base option list gmap strings.
Import ListNotations.

Open Scope string_scope.
Open Scope list_scope.
Open Scope Z_scope.

(** ** Python string primitives *)

Module Py.

(** [s.startswith(p)] *)
Definition startswith (p s : string) : bool := String.prefix p s.

Fixpoint last_char (s : string) : option ascii :=
  match s with
  | EmptyString => None
  | String ch EmptyString => Some ch
  | String _ t => last_char t
  end.

(** [s.endswith(')')] *)
Definition ends_rparen (s : string) : bool :=
  match last_char s with
  | Some ch => Ascii.eqb ch ")"
  | None => false
  end.

(** [s.find(sub, start)]: index of the first occurrence at or after
    [start], or [-1]. *)
Definition find (sub s : string) (start : Z) : Z :=
  match String.index (Z.to_nat start) sub s with
  | Some i => Z.of_nat i
  | None => -1
  end.

(** Normalisation of one slice bound: negative bounds count from the
    end, and the result is clamped to [0, len]. *)
Definition clamp (len i : Z) : Z :=
  Z.max 0 (Z.min len (if i <? 0 then i + len else i)).

(** [s[a:b]] *)
Definition slice (s : string) (a b : Z) : string :=
  let len := Z.of_nat (String.length s) in
  let a' := clamp len a in
  let b' := clamp len b in
  String.substring (Z.to_nat a') (Z.to_nat (b' - a')) s.

(** [s[a:]] *)
Definition slice_from (s : string) (a : Z) : string :=
  slice s a (Z.of_nat (String.length s)).

(** [s.split(sep)] for a one-character separator. *)
Fixpoint split_char (sep : ascii) (s : string) : list string :=
  match s with
  | EmptyString => [EmptyString]
  | String ch t =>
      if Ascii.eqb ch sep then EmptyString :: split_char sep t
      else match split_char sep t with
           | [] => [String ch EmptyString]
           | h :: r => String ch h :: r
           end
  end.

(** Index normalisation of [l[i]] and [l[i] = v]: a negative index
    counts from the end; [None] is [IndexError]. *)
Definition index (len : nat) (i : Z) : option nat :=
  let j := if i <? 0 then i + Z.of_nat len else i in
  if (0 <=? j) && (j <? Z.of_nat len) then Some (Z.to_nat j) else None.

Definition nth {A} (l : list A) (i : Z) : option A :=
  match index (List.length l) i with
  | Some n => l !! n
  | None => None
  end.

Definition set_nth {A} (l : list A) (i : Z) (v : A) : option (list A) :=
  match index (List.length l) i with
  | Some n => Some (<[n := v]> l)
  | None => None
  end.

(** [collections.deque(maxlen=n).append(x)] *)
Definition deque_append (maxlen : nat) (d : list string) (x : string) : list string :=
  match maxlen with
  | O => d
  | S _ => if (List.length d <? maxlen)%nat then d ++ [x] else List.tl d ++ [x]
  end.

End Py.

(** The double-quote character, as a one-character string. *)
Definition dquote : string := String "034"%char EmptyString.

(** ** Roles, teams and enumerations of [constants] and [player.Game] *)

(** The source indexes [score], [ready], [robot] and [coordinates] by these
    values and hard-codes them ([team == 0], the comment on [self.ready],
    [role > TEAM_BLUE]). *)
Definition TEAM_RED : Z := 0.
Definition TEAM_BLUE : Z := 1.
Definition COMMENTATOR : Z := 2.
Definition REPORTER : Z := 3.
Definition TEAMS : list Z := [TEAM_RED; TEAM_BLUE].
Definition ROLES : list Z := [TEAM_RED; TEAM_BLUE; COMMENTATOR; REPORTER].

(** [stop_robots] passes ten wheel speeds and the loop unlocks robot 4. *)
Definition NUMBER_OF_ROBOTS : nat := 5.

(** [Game.STATE_*] *)
Inductive GameState :=
| STATE_DEFAULT | STATE_KICKOFF | STATE_GOALKICK | STATE_CORNERKICK | STATE_PENALTYKICK.

(** [constants.FORMATION_*], the row index of [ROBOT_FORMATION]. *)
Inductive Formation :=
| FORMATION_DEFAULT | FORMATION_KICKOFF
| FORMATION_GOALKICK_A | FORMATION_GOALKICK_D
| FORMATION_CAD_AD | FORMATION_CAD_DA | FORMATION_CBC_AD | FORMATION_CBC_DA
| FORMATION_CAD_AA | FORMATION_CAD_DD | FORMATION_CBC_AA | FORMATION_CBC_DD
| FORMATION_PENALTYKICK_A | FORMATION_PENALTYKICK_D.

(** [constants.BALL_*], the row index of [BALL_POSTURE]. *)
Inductive BallSpot :=
| BALL_DEFAULT | BALL_GOALKICK | BALL_CORNERKICK | BALL_PENALTYKICK
| BALL_RELOCATION_A | BALL_RELOCATION_B | BALL_RELOCATION_C | BALL_RELOCATION_D.

(** The values of [constants] (and of [player.Game] for the reset
    reasons). Tables indexed by a robot id are functions of the id. *)
Record Constants := {
  FIELD_LENGTH : Q; FIELD_WIDTH : Q;
  GOAL_DEPTH : Q; GOAL_WIDTH : Q;
  PENALTY_AREA_DEPTH : Q; PENALTY_AREA_WIDTH : Q;
  WALL_THICKNESS : Q; CORNER_LENGTH : Q;
  GOAL_AREA_DEPTH : Q; GOAL_AREA_WIDTH : Q;
  BALL_RADIUS : Q; BALL_MASS : Q; KICKOFF_BORDER : Q; DEADLOCK_THRESHOLD : Q;
  PI : Q;
  ROBOT_SIZE : nat -> Q; ROBOT_HEIGHT : nat -> Q; WHEEL_RADIUS : nat -> Q;
  AXLE_LENGTH : nat -> Q; ROBOT_BODY_MASS : nat -> Q; WHEEL_MASS : nat -> Q;
  MAX_LINEAR_VELOCITY : nat -> Q; MAX_TORQUE : nat -> Q;
  RESOLUTION_X : Z; RESOLUTION_Y : Z; CODEWORDS : list Z;
  ROBOT_FORMATION : Formation -> nat -> Q * Q * Q;
  ROBOT_FOUL_POSTURE : nat -> Q * Q * Q;
  BALL_POSTURE : BallSpot -> Q * Q;
  PA_THRESHOLD_A : Z; PA_THRESHOLD_D : Z;
  NUM_COMMENTS : nat;
  PERIOD_MS : Z;
  FALL_TIME_MS : Z; SENTOUT_DURATION_MS : Z;
  IOPA_TIME_LIMIT_MS : Z; GK_NIPA_TIME_LIMIT_MS : Z;
  KICKOFF_TIME_LIMIT_MS : Z; GOALKICK_TIME_LIMIT_MS : Z;
  CORNERKICK_TIME_LIMIT_MS : Z; PENALTYKICK_TIME_LIMIT_MS : Z;
  DEADLOCK_DURATION_MS : Z;
  WAIT_STABLE_MS : Z; WAIT_GOAL_MS : Z; WAIT_END_MS : Z;
  (* reset reasons of [constants] *)
  NONE : Z; SCORE_RED_TEAM : Z; SCORE_BLUE_TEAM : Z;
  GOALKICK : Z; CORNERKICK : Z; PENALTYKICK : Z; DEADLOCK : Z;
  (* reset reasons of [player.Game] *)
  Game_NONE : Z; Game_GAME_START : Z; Game_SCORE_MYTEAM : Z; Game_SCORE_OPPONENT : Z;
  Game_GAME_END : Z; Game_HALFTIME : Z; Game_EPISODE_END : Z
}.

(** ** The simulation backend *)

Inductive NodeRef :=
| RobotNode (team : Z) (id : nat)   (* DEF_ROBOT_PREFIX + 'R'/'B' + id *)
| BallNode
| CameraANode
| CameraBNode.

Inductive Camera := CamA | CamB.

Class Backend (World SubImage : Type) := {
  getPosition : World -> NodeRef -> Q * Q * Q;
  (** entry [k] of the 3x3 rotation matrix returned by [getOrientation] *)
  getOrientation : World -> NodeRef -> nat -> Q;
  getVelocity : World -> NodeRef -> Q * Q * Q;
  getSFFloat : World -> NodeRef -> string -> Q;
  setSFVec3f : NodeRef -> string -> Q * Q * Q -> World -> World;
  setSFRotation : NodeRef -> string -> Q * Q * Q * Q -> World -> World;
  setSFString : NodeRef -> string -> string -> World -> World;
  resetPhysics : NodeRef -> World -> World;
  (** the packets queued in the receiver, oldest first; a packet is the
      list of its bytes *)
  receiver_queue : World -> list (list Z);
  receiver_nextPacket : World -> World;
  (** [Supervisor.step(ms)]; [None] when it returns [-1] *)
  sim_step : Z -> World -> option World;
  getTime : World -> Q;
  (** [ImageFrameBuffer.update_image(t)] and [.reset()] of one camera *)
  update_image : Camera -> Q -> World -> list SubImage * World;
  reset_image : Camera -> World -> World
}.

(** Floating-point library functions used by the supervisor. *)
Class PyFloat := {
  float_of_string : string -> option Q;       (* float(s); None is ValueError *)
  fmt_speeds : Q -> Q -> string;              (* "%f %f" % (a, b) *)
  fmt_comment : Q -> string -> string;        (* '[{:.2f}] {}'.format(t, s) *)
  sqrt : Q -> Q;                              (* math.sqrt *)
  atan2 : Q -> Q -> Q                         (* math.atan2 *)
}.

(** ** The supervisor's state *)

Record Robot := mkRobot {
  active : bool;
  touch : bool;
  fall_time : Z;
  sentout_time : Z;
  niopa_time : Z;
  ipa_time : Z
}.

#[global] Instance Robot_inhabited : Inhabited Robot :=
  populate (mkRobot false false 0 0 0 0).

(** JSON-able values of the info dictionaries. *)
#[local] Set Warnings "-register-all".
Inductive Json :=
| JNum (q : Q)
| JInt (z : Z)
| JStr (s : string)
| JList (l : list Json).

(** A Python [dict] with string keys, in insertion order. *)
Definition Info := list (string * Json).

Fixpoint dict_get (k : string) (d : Info) : option Json :=
  match d with
  | [] => None
  | (k', v) :: r => if String.eqb k k' then Some v else dict_get k r
  end.

(** One robot in a frame: [x, y, th, active, touch]. *)
Definition RobotCoord := (Q * Q * Q * bool * bool)%type.

Record Frame {SubImage : Type} := mkFrame {
  f_time : Q;
  f_score : Z * Z;
  f_reset_reason : Z;
  f_game_state : GameState;
  f_ball_ownership : bool;
  f_half_passed : bool;
  f_subimages : list SubImage;
  f_coord_my : list RobotCoord;      (* coordinates[0] *)
  f_coord_op : list RobotCoord;      (* coordinates[1] *)
  f_coord_ball : Q * Q;              (* coordinates[2] *)
  f_EOF : bool
}.
Arguments Frame : clear implicits.
Arguments mkFrame {SubImage}.

(** What is handed to [json.dumps] and sent. *)
Inductive Payload {SubImage : Type} :=
| PInfo (i : Info)
| PFrame (f : Frame SubImage).
Arguments Payload : clear implicits.

Definition Client := nat.

Record State {World SubImage : Type} := mkState {
  report : option string;
  comments_ : list string;
  role_info : gmap Z Info;
  role_client : gmap Z Client;
  unprocessedData : gmap Client string;     (* TcpServer.unprocessedData *)
  ready : list bool;
  sent : list (Client * Payload SubImage);   (* messages written to sockets, oldest first *)
  stderr : list string;
  stdout : list string;
  time : Z;
  game_time : Q;
  kickoff_time : Z;
  goalkick_time : Z;
  cornerkick_time : Z;
  penaltykick_time : Z;
  deadlock_time : Z;
  score : list Z;
  half_passed : bool;
  reset_reason : Z;
  game_state : GameState;
  ball_ownership : Z;
  robot : list (list Robot);
  recent_touch : list (list bool);
  started : bool;
  ball_position : Q * Q;
  world : World
}.
Arguments State : clear implicits.
Arguments mkState {World SubImage}.

(** Field updates ([self.f = v]). *)
Section Setters.
Context {World SubImage : Type}.
#[local] Abbreviation State := (State World SubImage).

Definition set_report v (st : State) : State :=
  mkState v (comments_ st) (role_info st) (role_client st) (unprocessedData st) (ready st) (sent st) (stderr st) (stdout st) (time st) (game_time st) (kickoff_time st) (goalkick_time st) (cornerkick_time st) (penaltykick_time st) (deadlock_time st) (score st) (half_passed st) (reset_reason st) (game_state st) (ball_ownership st) (robot st) (recent_touch st) (started st) (ball_position st) (world st).
Definition set_comments_ v (st : State) : State :=
  mkState (report st) v (role_info st) (role_client st) (unprocessedData st) (ready st) (sent st) (stderr st) (stdout st) (time st) (game_time st) (kickoff_time st) (goalkick_time st) (cornerkick_time st) (penaltykick_time st) (deadlock_time st) (score st) (half_passed st) (reset_reason st) (game_state st) (ball_ownership st) (robot st) (recent_touch st) (started st) (ball_position st) (world st).
Definition set_role_client v (st : State) : State :=
  mkState (report st) (comments_ st) (role_info st) v (unprocessedData st) (ready st) (sent st) (stderr st) (stdout st) (time st) (game_time st) (kickoff_time st) (goalkick_time st) (cornerkick_time st) (penaltykick_time st) (deadlock_time st) (score st) (half_passed st) (reset_reason st) (game_state st) (ball_ownership st) (robot st) (recent_touch st) (started st) (ball_position st) (world st).
Definition set_unprocessedData v (st : State) : State :=
  mkState (report st) (comments_ st) (role_info st) (role_client st) v (ready st) (sent st) (stderr st) (stdout st) (time st) (game_time st) (kickoff_time st) (goalkick_time st) (cornerkick_time st) (penaltykick_time st) (deadlock_time st) (score st) (half_passed st) (reset_reason st) (game_state st) (ball_ownership st) (robot st) (recent_touch st) (started st) (ball_position st) (world st).
Definition set_ready v (st : State) : State :=
  mkState (report st) (comments_ st) (role_info st) (role_client st) (unprocessedData st) v (sent st) (stderr st) (stdout st) (time st) (game_time st) (kickoff_time st) (goalkick_time st) (cornerkick_time st) (penaltykick_time st) (deadlock_time st) (score st) (half_passed st) (reset_reason st) (game_state st) (ball_ownership st) (robot st) (recent_touch st) (started st) (ball_position st) (world st).
Definition set_sent v (st : State) : State :=
  mkState (report st) (comments_ st) (role_info st) (role_client st) (unprocessedData st) (ready st) v (stderr st) (stdout st) (time st) (game_time st) (kickoff_time st) (goalkick_time st) (cornerkick_time st) (penaltykick_time st) (deadlock_time st) (score st) (half_passed st) (reset_reason st) (game_state st) (ball_ownership st) (robot st) (recent_touch st) (started st) (ball_position st) (world st).
Definition set_stderr v (st : State) : State :=
  mkState (report st) (comments_ st) (role_info st) (role_client st) (unprocessedData st) (ready st) (sent st) v (stdout st) (time st) (game_time st) (kickoff_time st) (goalkick_time st) (cornerkick_time st) (penaltykick_time st) (deadlock_time st) (score st) (half_passed st) (reset_reason st) (game_state st) (ball_ownership st) (robot st) (recent_touch st) (started st) (ball_position st) (world st).
Definition set_stdout v (st : State) : State :=
  mkState (report st) (comments_ st) (role_info st) (role_client st) (unprocessedData st) (ready st) (sent st) (stderr st) v (time st) (game_time st) (kickoff_time st) (goalkick_time st) (cornerkick_time st) (penaltykick_time st) (deadlock_time st) (score st) (half_passed st) (reset_reason st) (game_state st) (ball_ownership st) (robot st) (recent_touch st) (started st) (ball_position st) (world st).
Definition set_time v (st : State) : State :=
  mkState (report st) (comments_ st) (role_info st) (role_client st) (unprocessedData st) (ready st) (sent st) (stderr st) (stdout st) v (game_time st) (kickoff_time st) (goalkick_time st) (cornerkick_time st) (penaltykick_time st) (deadlock_time st) (score st) (half_passed st) (reset_reason st) (game_state st) (ball_ownership st) (robot st) (recent_touch st) (started st) (ball_position st) (world st).
Definition set_kickoff_time v (st : State) : State :=
  mkState (report st) (comments_ st) (role_info st) (role_client st) (unprocessedData st) (ready st) (sent st) (stderr st) (stdout st) (time st) (game_time st) v (goalkick_time st) (cornerkick_time st) (penaltykick_time st) (deadlock_time st) (score st) (half_passed st) (reset_reason st) (game_state st) (ball_ownership st) (robot st) (recent_touch st) (started st) (ball_position st) (world st).
Definition set_goalkick_time v (st : State) : State :=
  mkState (report st) (comments_ st) (role_info st) (role_client st) (unprocessedData st) (ready st) (sent st) (stderr st) (stdout st) (time st) (game_time st) (kickoff_time st) v (cornerkick_time st) (penaltykick_time st) (deadlock_time st) (score st) (half_passed st) (reset_reason st) (game_state st) (ball_ownership st) (robot st) (recent_touch st) (started st) (ball_position st) (world st).
Definition set_cornerkick_time v (st : State) : State :=
  mkState (report st) (comments_ st) (role_info st) (role_client st) (unprocessedData st) (ready st) (sent st) (stderr st) (stdout st) (time st) (game_time st) (kickoff_time st) (goalkick_time st) v (penaltykick_time st) (deadlock_time st) (score st) (half_passed st) (reset_reason st) (game_state st) (ball_ownership st) (robot st) (recent_touch st) (started st) (ball_position st) (world st).
Definition set_penaltykick_time v (st : State) : State :=
  mkState (report st) (comments_ st) (role_info st) (role_client st) (unprocessedData st) (ready st) (sent st) (stderr st) (stdout st) (time st) (game_time st) (kickoff_time st) (goalkick_time st) (cornerkick_time st) v (deadlock_time st) (score st) (half_passed st) (reset_reason st) (game_state st) (ball_ownership st) (robot st) (recent_touch st) (started st) (ball_position st) (world st).
Definition set_deadlock_time v (st : State) : State :=
  mkState (report st) (comments_ st) (role_info st) (role_client st) (unprocessedData st) (ready st) (sent st) (stderr st) (stdout st) (time st) (game_time st) (kickoff_time st) (goalkick_time st) (cornerkick_time st) (penaltykick_time st) v (score st) (half_passed st) (reset_reason st) (game_state st) (ball_ownership st) (robot st) (recent_touch st) (started st) (ball_position st) (world st).
Definition set_score v (st : State) : State :=
  mkState (report st) (comments_ st) (role_info st) (role_client st) (unprocessedData st) (ready st) (sent st) (stderr st) (stdout st) (time st) (game_time st) (kickoff_time st) (goalkick_time st) (cornerkick_time st) (penaltykick_time st) (deadlock_time st) v (half_passed st) (reset_reason st) (game_state st) (ball_ownership st) (robot st) (recent_touch st) (started st) (ball_position st) (world st).
Definition set_half_passed v (st : State) : State :=
  mkState (report st) (comments_ st) (role_info st) (role_client st) (unprocessedData st) (ready st) (sent st) (stderr st) (stdout st) (time st) (game_time st) (kickoff_time st) (goalkick_time st) (cornerkick_time st) (penaltykick_time st) (deadlock_time st) (score st) v (reset_reason st) (game_state st) (ball_ownership st) (robot st) (recent_touch st) (started st) (ball_position st) (world st).
Definition set_reset_reason v (st : State) : State :=
  mkState (report st) (comments_ st) (role_info st) (role_client st) (unprocessedData st) (ready st) (sent st) (stderr st) (stdout st) (time st) (game_time st) (kickoff_time st) (goalkick_time st) (cornerkick_time st) (penaltykick_time st) (deadlock_time st) (score st) (half_passed st) v (game_state st) (ball_ownership st) (robot st) (recent_touch st) (started st) (ball_position st) (world st).
Definition set_game_state v (st : State) : State :=
  mkState (report st) (comments_ st) (role_info st) (role_client st) (unprocessedData st) (ready st) (sent st) (stderr st) (stdout st) (time st) (game_time st) (kickoff_time st) (goalkick_time st) (cornerkick_time st) (penaltykick_time st) (deadlock_time st) (score st) (half_passed st) (reset_reason st) v (ball_ownership st) (robot st) (recent_touch st) (started st) (ball_position st) (world st).
Definition set_ball_ownership v (st : State) : State :=
  mkState (report st) (comments_ st) (role_info st) (role_client st) (unprocessedData st) (ready st) (sent st) (stderr st) (stdout st) (time st) (game_time st) (kickoff_time st) (goalkick_time st) (cornerkick_time st) (penaltykick_time st) (deadlock_time st) (score st) (half_passed st) (reset_reason st) (game_state st) v (robot st) (recent_touch st) (started st) (ball_position st) (world st).
Definition set_robot v (st : State) : State :=
  mkState (report st) (comments_ st) (role_info st) (role_client st) (unprocessedData st) (ready st) (sent st) (stderr st) (stdout st) (time st) (game_time st) (kickoff_time st) (goalkick_time st) (cornerkick_time st) (penaltykick_time st) (deadlock_time st) (score st) (half_passed st) (reset_reason st) (game_state st) (ball_ownership st) v (recent_touch st) (started st) (ball_position st) (world st).
Definition set_recent_touch v (st : State) : State :=
  mkState (report st) (comments_ st) (role_info st) (role_client st) (unprocessedData st) (ready st) (sent st) (stderr st) (stdout st) (time st) (game_time st) (kickoff_time st) (goalkick_time st) (cornerkick_time st) (penaltykick_time st) (deadlock_time st) (score st) (half_passed st) (reset_reason st) (game_state st) (ball_ownership st) (robot st) v (started st) (ball_position st) (world st).
Definition set_started v (st : State) : State :=
  mkState (report st) (comments_ st) (role_info st) (role_client st) (unprocessedData st) (ready st) (sent st) (stderr st) (stdout st) (time st) (game_time st) (kickoff_time st) (goalkick_time st) (cornerkick_time st) (penaltykick_time st) (deadlock_time st) (score st) (half_passed st) (reset_reason st) (game_state st) (ball_ownership st) (robot st) (recent_touch st) v (ball_position st) (world st).
Definition set_ball_position v (st : State) : State :=
  mkState (report st) (comments_ st) (role_info st) (role_client st) (unprocessedData st) (ready st) (sent st) (stderr st) (stdout st) (time st) (game_time st) (kickoff_time st) (goalkick_time st) (cornerkick_time st) (penaltykick_time st) (deadlock_time st) (score st) (half_passed st) (reset_reason st) (game_state st) (ball_ownership st) (robot st) (recent_touch st) (started st) v (world st).
Definition set_world v (st : State) : State :=
  mkState (report st) (comments_ st) (role_info st) (role_client st) (unprocessedData st) (ready st) (sent st) (stderr st) (stdout st) (time st) (game_time st) (kickoff_time st) (goalkick_time st) (cornerkick_time st) (penaltykick_time st) (deadlock_time st) (score st) (half_passed st) (reset_reason st) (game_state st) (ball_ownership st) (robot st) (recent_touch st) (started st) (ball_position st) v.

End Setters.

(** ** The role registry and the command dispatcher *)

(** The key is the first argument of the RPC. *)
Definition get_key (rpc : string) : string :=
  let first := Py.find dquote rpc 0 + 1 in
  Py.slice rpc first (Py.find dquote rpc first).

(** The fixed marker that opens every command. *)
Definition marker : string := "aiwc.".

(** [message.split('aiwc.')]: the occurrences of the marker are found
    from the left and do not overlap. [skip] counts the characters of an
    occurrence that are still to be consumed. *)
Fixpoint split_from (skip : nat) (s : string) : list string :=
  match s with
  | EmptyString => [EmptyString]
  | String ch t =>
      match skip with
      | S k => split_from k t
      | O =>
          if String.prefix marker s then EmptyString :: split_from 4 t
          else match split_from 0 t with
               | [] => [String ch EmptyString]
               | h :: r => String ch h :: r
               end
      end
  end.

Definition split_marker (s : string) : list string := split_from 0 s.

Section Dispatcher.
Context {World SubImage : Type} `{!Backend World SubImage} `{!PyFloat}.
Variable c : Constants.
#[local] Abbreviation State := (State World SubImage).

Definition write_stderr (msg : string) (st : State) : State :=
  set_stderr (stderr st ++ [msg]) st.

Definition print (msg : string) (st : State) : State :=
  set_stdout (stdout st ++ [msg]) st.

(** [TcpServer.send(client, json.dumps(obj))]: the payload is appended to
    the trace of messages written to the sockets. *)
Definition tcp_send (client : Client) (p : Payload SubImage) (st : State) : State :=
  set_sent (sent st ++ [(client, p)]) st.

Definition get_role_name (role : Z) (st : State) : string * State :=
  if role =? TEAM_RED then ("team red", st)
  else if role =? TEAM_BLUE then ("team blue", st)
  else if role =? COMMENTATOR then ("commentator", st)
  else if role =? REPORTER then ("reporter", st)
  else ("", write_stderr "Error: get_role_name: Invalid role." st).

(** [role in self.role_info and 'key' in self.role_info[role]
     and self.role_info[role]['key'] == key] *)
Definition key_matches (st : State) (key : string) (role : Z) : bool :=
  match role_info st !! role with
  | Some info =>
      match dict_get "key" info with
      | Some (JStr k) => String.eqb k key
      | _ => false
      end
  | None => false
  end.

Definition get_role (rpc : string) (st : State) : Z * State :=
  match List.find (key_matches st (get_key rpc)) ROLES with
  | Some role => (role, st)
  | None => (-1, write_stderr "Error: get_role: invalid key." st)
  end.

(** [set_speeds(team, speeds)]; [None] is an [IndexError]. The node is
    found by name ('R' for team red, 'B' otherwise) and the activity flag
    by [self.robot[team][id]]. *)
Definition set_speeds (team : Z) (speeds : list Q) (st : State) : option State :=
  let letter := if team =? TEAM_RED then TEAM_RED else TEAM_BLUE in
  foldl (fun acc id =>
           st ← acc;
           row ← Py.nth (robot st) team;
           r ← row !! id;
           if active r then
             a ← speeds !! (id * 2)%nat;
             b ← speeds !! (id * 2 + 1)%nat;
             Some (set_world
                     (setSFString (RobotNode letter id) "customData"
                        (fmt_speeds (a / WHEEL_RADIUS c id) (b / WHEEL_RADIUS c id))
                        (world st)) st)
           else Some st)
        (Some st) (seq 0 NUMBER_OF_ROBOTS).

(** [[float(i) for i in l]] *)
Fixpoint parse_floats (l : list string) : option (list Q) :=
  match l with
  | [] => Some []
  | s :: r =>
      x ← float_of_string s;
      xs ← parse_floats r;
      Some (x :: xs)
  end.

(** How the body of the [for command in data] loop ends for a complete
    command: it falls through to the next command, returns from
    [callback] at once, or raises. *)
Inductive CmdResult :=
| CmdNext (st : State)
| CmdReturn (st : State)
| CmdRaise (st : State).

Definition process_command (client : Client) (message command : string)
    (st : State) : CmdResult :=
  let '(role, st) := get_role command st in
  let st := set_role_client (<[role := client]> (role_client st)) st in
  if Py.startswith "get_info(" command then
    let '(name, st) := get_role_name role st in
    let st := print ("Server receive aiwc.get_info from " +:+ name) st in
    match role_info st !! TEAM_RED with
    | Some info => CmdNext (tcp_send client (PInfo info) st)
    | None => CmdRaise st
    end
  else if Py.startswith "ready(" command then
    match Py.set_nth (ready st) role true with
    | None => CmdRaise st
    | Some flags =>
        let st := set_ready flags st in
        let st :=
          if role =? TEAM_RED then set_world (reset_image CamA (world st)) st
          else if role =? TEAM_BLUE then set_world (reset_image CamB (world st)) st
          else st in
        let '(name, st) := get_role_name role st in
        CmdNext (print ("Server receive aiwc.ready from " +:+ name) st)
    end
  else if Py.startswith "set_speeds(" command then
    if TEAM_BLUE <? role then
      CmdReturn (write_stderr "Error, commentator and reporter cannot change robot speed." st)
    else
      let start := Py.find (dquote +:+ ",") command 0 + 2 in
      let stop := Py.find ")" command start in
      match parse_floats (Py.split_char "," (Py.slice command start stop)) with
      | None => CmdRaise st
      | Some speeds =>
          match set_speeds role speeds st with
          | Some st' => CmdNext st'
          | None => CmdRaise st
          end
      end
  else if Py.startswith "commentate(" command then
    if negb (role =? COMMENTATOR) then
      CmdReturn (write_stderr "Error, only commentator can commentate." st)
    else
      let start := Py.find (dquote +:+ ",") command 0 + 4 in
      let comment := fmt_comment (inject_Z (time st) / 1000) (Py.slice command start (-2)) in
      CmdNext (set_comments_ (Py.deque_append (NUM_COMMENTS c) (comments_ st) comment) st)
  else if Py.startswith "report(" command then
    if negb (role =? REPORTER) then
      CmdReturn (write_stderr "Error, only reporter can report." st)
    else
      let start := Py.find (dquote +:+ ",") command 0 + 2 in
      CmdNext (set_report (Some (Py.slice command start (-1))) st)
  else
    CmdNext (print ("Server received unknown message " +:+ message) st).

(** The result of [callback]: the state and the returned leftover, or an
    exception. *)
Inductive CbResult :=
| CbOk (st : State) (unprocessed : string)
| CbRaise (st : State).

(** The [for command in data] loop. *)
Fixpoint callback_loop (client : Client) (message : string) (data : list string)
    (st : State) (unprocessed : string) : CbResult :=
  match data with
  | [] => CbOk st unprocessed
  | command :: rest =>
      if String.eqb command "" then
        callback_loop client message rest st unprocessed
      else if negb (Py.ends_rparen command) then
        callback_loop client message rest st (unprocessed +:+ marker +:+ command)
      else
        match process_command client message command st with
        | CmdNext st' => callback_loop client message rest st' unprocessed
        | CmdReturn st' => CbOk st' unprocessed
        | CmdRaise st' => CbRaise st'
        end
  end.

Definition callback (client : Client) (message : string) (st : State) : CbResult :=
  if negb (Py.startswith marker message) then
    CbOk (print ("Error, AIWC RPC messages should start with "
                 +:+ dquote +:+ "aiwc." +:+ dquote +:+ ".") st) ""
  else
    callback_loop client message (split_marker message) st "".

(** One read of [TcpServer.spin] on a connection: the new bytes are
    appended to the connection's leftover and handed to [callback], whose
    result is the new leftover. *)
Definition feed (client : Client) (data : string) (s : State * string) : CbResult :=
  callback client (snd s +:+ data) (fst s).

(** Successive reads on one connection; an exception ends the program. *)
Fixpoint feed_all (client : Client) (reads : list string) (s : State * string) : CbResult :=
  match reads with
  | [] => CbOk (fst s) (snd s)
  | d :: rest =>
      match feed client d s with
      | CbOk st u => feed_all client rest (st, u)
      | CbRaise st => CbRaise st
      end
  end.

End Dispatcher.

(** ** Rational comparisons and robot records *)

Definition Qlt_bool (a b : Q) : bool := negb (Qle_bool b a).

Definition set_active (v : bool) (r : Robot) : Robot :=
  mkRobot v (touch r) (fall_time r) (sentout_time r) (niopa_time r) (ipa_time r).
Definition set_touch (v : bool) (r : Robot) : Robot :=
  mkRobot (active r) v (fall_time r) (sentout_time r) (niopa_time r) (ipa_time r).
Definition set_fall_time (v : Z) (r : Robot) : Robot :=
  mkRobot (active r) (touch r) v (sentout_time r) (niopa_time r) (ipa_time r).
Definition set_sentout_time (v : Z) (r : Robot) : Robot :=
  mkRobot (active r) (touch r) (fall_time r) v (niopa_time r) (ipa_time r).
Definition set_niopa_time (v : Z) (r : Robot) : Robot :=
  mkRobot (active r) (touch r) (fall_time r) (sentout_time r) v (ipa_time r).
Definition set_ipa_time (v : Z) (r : Robot) : Robot :=
  mkRobot (active r) (touch r) (fall_time r) (sentout_time r) (niopa_time r) v.

(** [for team in TEAMS: for id in range(NUMBER_OF_ROBOTS)] *)
Definition all_robots : list (Z * nat) :=
  flat_map (fun t => List.map (fun id => (t, id)) (seq 0 NUMBER_OF_ROBOTS)) TEAMS.

(** The place of a robot in that order, and the robots visited before
    and after it. *)
Definition turn (team : Z) (id : nat) : nat := (Z.to_nat team * NUMBER_OF_ROBOTS + id)%nat.
Definition visited_before (team : Z) (id : nat) : list (Z * nat) :=
  take (turn team id) all_robots.
Definition visited_after (team : Z) (id : nat) : list (Z * nat) :=
  drop (S (turn team id)) all_robots.

(** ** Geometry, ownership rules and frames *)

Section Referee.
Context {World SubImage : Type} `{!Backend World SubImage} `{!PyFloat}.
Variable c : Constants.
#[local] Abbreviation State := (State World SubImage).
#[local] Open Scope Q_scope.

(** [self.robot[team][id]]; the table has one row of
    [NUMBER_OF_ROBOTS] records per team. *)
Definition robot_at (st : State) (team : Z) (id : nat) : Robot :=
  (robot st !!! Z.to_nat team) !!! id.

(** The shape [run] gives the table: one row per team, one record per
    robot. *)
Definition robots_ok (st : State) : bool :=
  (List.length (robot st) =? List.length TEAMS)%nat
  && forallb (fun row : list Robot => (List.length row =? NUMBER_OF_ROBOTS)%nat) (robot st).

Definition upd_robot (team : Z) (id : nat) (f : Robot -> Robot) (st : State) : State :=
  set_robot (alter (alter f id) (Z.to_nat team) (robot st)) st.

Definition upd_world (f : World -> World) (st : State) : State :=
  set_world (f (world st)) st.

(** The two [while] loops that squeeze a heading into [-PI, PI]. *)
Fixpoint squeeze_down (fuel : nat) (th : Q) : Q :=
  match fuel with
  | O => th
  | S k => if Qlt_bool (PI c) th then squeeze_down k (th - 2 * PI c) else th
  end.

Fixpoint squeeze_up (fuel : nat) (th : Q) : Q :=
  match fuel with
  | O => th
  | S k => if Qlt_bool th (- PI c) then squeeze_up k (th + 2 * PI c) else th
  end.

(** Enough iterations for either loop when [PI] is positive. *)
Definition squeeze_fuel (th : Q) : nat :=
  S (Z.to_nat (Qceiling (Qabs th / (2 * PI c)))).

(** [[f * x, f * y, th, stand]] *)
Definition get_robot_posture (st : State) (team : Z) (id : nat) : Q * Q * Q * bool :=
  let node := RobotNode team id in
  let '(px, _, pz) := getPosition (world st) node in
  let o := getOrientation (world st) node in
  let f : Q := if half_passed st then -1 else 1 in
  let x := px in
  let y := - pz in
  let th := (if half_passed st then PI c else 0) + atan2 (o 2%nat) (o 8%nat) + PI c / 2 in
  let th := squeeze_down (squeeze_fuel th) th in
  let th := squeeze_up (squeeze_fuel th) th in
  let stand := Qlt_bool (8 # 10) (o 4%nat) in
  (f * x, f * y, th, stand).

Definition get_ball_position (st : State) : Q * Q :=
  let f : Q := if half_passed st then -1 else 1 in
  let '(px, _, pz) := getPosition (world st) BallNode in
  (f * px, f * - pz).

Definition get_ball_velocity (st : State) : Q :=
  let '(v0, v1, v2) := getVelocity (world st) BallNode in
  sqrt (v0 * v0 + v1 * v1 + v2 * v2).

(** [robot_count[team] += 1] on a two-entry list. *)
Definition bump {A} (f : A -> A) (team : Z) (p : A * A) : A * A :=
  if team =? 0 then (f (fst p), snd p) else (fst p, f (snd p)).

Definition get_corner_ownership (st : State) : Z :=
  let '(ball_x, ball_y) := get_ball_position st in
  let s_x : Q := if Qlt_bool 0 ball_x then 1 else -1 in
  let s_y : Q := if Qlt_bool 0 ball_y then 1 else -1 in
  let '(robot_count, robot_distance) :=
    foldl (fun acc '(team, id) =>
             if negb (active (robot_at st team id)) then acc
             else
               let '(x, y, _, _) := get_robot_posture st team id in
               if Qlt_bool (FIELD_LENGTH c / 2 - PENALTY_AREA_DEPTH c) (s_x * x)
                  && Qlt_bool (PENALTY_AREA_WIDTH c / 2) (s_y * y)
               then
                 let distance_squared := (x - ball_x) * (x - ball_x) + (y - ball_y) * (y - ball_y) in
                 (bump Z.succ team (fst acc),
                  bump (fun d => d + sqrt distance_squared) team (snd acc))
               else acc)
          ((0%Z, 0%Z), (0, 0)) all_robots in
  if (fst robot_count >? snd robot_count)%Z then 0%Z
  else if (snd robot_count >? fst robot_count)%Z then 1%Z
  else if Qlt_bool (fst robot_distance) (snd robot_distance) then 0%Z
  else if Qlt_bool (snd robot_distance) (fst robot_distance) then 1%Z
  else if Qlt_bool 0 ball_x then 0%Z else 1%Z.

Definition get_pa_ownership (st : State) : Z :=
  let '(ball_x, ball_y) := get_ball_position st in
  let s_x : Q := if Qlt_bool 0 ball_x then 1 else -1 in
  let '(robot_count, robot_distance) :=
    foldl (fun acc '(team, id) =>
             if negb (active (robot_at st team id)) then acc
             else
               let '(x, y, _, _) := get_robot_posture st team id in
               if Qlt_bool (FIELD_LENGTH c / 2 - PENALTY_AREA_DEPTH c) (s_x * x)
                  && Qlt_bool (Qabs y) (PENALTY_AREA_WIDTH c / 2)
               then
                 let distance_squared := (x - ball_x) * (x - ball_x) + (y - ball_y) * (y - ball_y) in
                 (bump Z.succ team (fst acc),
                  bump (fun d => d + sqrt distance_squared) team (snd acc))
               else acc)
          ((0%Z, 0%Z), (0, 0)) all_robots in
  if (fst robot_count >? snd robot_count)%Z then 0%Z
  else if (snd robot_count >? fst robot_count)%Z then 1%Z
  else if Qlt_bool (fst robot_distance) (snd robot_distance) then 0%Z
  else if Qlt_bool (snd robot_distance) (fst robot_distance) then 1%Z
  else if Qlt_bool 0 ball_x then 0%Z else 1%Z.

(** Returns whether the penalty-area reset applies; when it does the ball
    ownership has been set. *)
Definition check_penalty_area (st : State) : bool * State :=
  let '(ball_x, ball_y) := get_ball_position st in
  if Qlt_bool (Qabs ball_x) (FIELD_LENGTH c / 2 - PENALTY_AREA_DEPTH c)
     || Qlt_bool (PENALTY_AREA_WIDTH c / 2) (Qabs ball_y)
  then (false, st)
  else
    let s_x : Q := if Qlt_bool 0 ball_x then 1 else -1 in
    let robot_count :=
      foldl (fun acc '(team, id) =>
               if negb (active (robot_at st team id)) then acc
               else
                 let '(x, y, _, _) := get_robot_posture st team id in
                 if Qlt_bool (FIELD_LENGTH c / 2 - PENALTY_AREA_DEPTH c) (s_x * x)
                    && Qlt_bool (Qabs y) (PENALTY_AREA_WIDTH c / 2)
                 then bump Z.succ team acc
                 else acc)
            (0%Z, 0%Z) all_robots in
    if Qlt_bool ball_x 0 then
      if (fst robot_count >? PA_THRESHOLD_D c)%Z then (true, set_ball_ownership TEAM_BLUE st)
      else if (snd robot_count >? PA_THRESHOLD_A c)%Z then (true, set_ball_ownership TEAM_RED st)
      else (false, st)
    else
      if (snd robot_count >? PA_THRESHOLD_D c)%Z then (true, set_ball_ownership TEAM_RED st)
      else if (fst robot_count >? PA_THRESHOLD_A c)%Z then (true, set_ball_ownership TEAM_BLUE st)
      else (false, st).

Definition robot_in_field (st : State) (team : Z) (id : nat) : bool :=
  let '(x, y, _, _) := get_robot_posture st team id in
  if Qlt_bool (Qabs y) (GOAL_WIDTH c / 2) then
    if Qlt_bool (FIELD_LENGTH c / 2 + GOAL_DEPTH c) (Qabs x) then false else true
  else if Qlt_bool (FIELD_LENGTH c / 2) (Qabs x) then false
  else true.

Definition ball_in_field (st : State) : bool :=
  let '(px, py) := get_ball_position st in
  let abs_x := Qabs px in
  let abs_y := Qabs py in
  if Qlt_bool (FIELD_LENGTH c / 2 + WALL_THICKNESS c) abs_x
     && Qlt_bool (GOAL_WIDTH c / 2 + WALL_THICKNESS c) abs_y
  then false
  else if Qlt_bool (FIELD_WIDTH c / 2 + WALL_THICKNESS c) abs_y then false
  else
    let cs_x := FIELD_LENGTH c / 2 - CORNER_LENGTH c in
    let cs_y := FIELD_WIDTH c / 2 + WALL_THICKNESS c in
    let ce_x := FIELD_LENGTH c / 2 + WALL_THICKNESS c in
    let ce_y := FIELD_WIDTH c / 2 - CORNER_LENGTH c in
    if Qlt_bool cs_x abs_x && Qlt_bool abs_x ce_x then
      let border_y := ce_y + (abs_x - ce_x) * (ce_y - cs_y) / (ce_x - cs_x) in
      if Qlt_bool border_y abs_y then false else true
    else true.

(** [True] when the ball or a robot is strictly within [target_r] of the
    target; otherwise the function falls off its end ([None], falsy). *)
Definition any_object_nearby (st : State) (target_x target_y target_r : Q) : bool :=
  let '(x, y) := get_ball_position st in
  let dist_sq := (target_x - x) * (target_x - x) + (target_y - y) * (target_y - y) in
  if Qlt_bool dist_sq (target_r * target_r) then true
  else
    existsb (fun '(team, id) =>
               let '(x, y, _, _) := get_robot_posture st team id in
               let dist_sq := (target_x - x) * (target_x - x) + (target_y - y) * (target_y - y) in
               Qlt_bool dist_sq (target_r * target_r))
            all_robots.

(** *** The frame publisher *)

Definition score_at (st : State) (team : Z) : Z := score st !!! Z.to_nat team.

(** Python truthiness of the optional [reset_reason] argument. *)
Definition truthy (r : option Z) : bool :=
  match r with
  | Some v => negb (v =? 0)
  | None => false
  end.

Definition generate_frame (team : Z) (reset_reason_arg : option Z) (st : State)
  : Frame SubImage * State :=
  let opponent := if team =? TEAM_RED then TEAM_BLUE else TEAM_RED in
  let rr := if truthy reset_reason_arg then default 0%Z reset_reason_arg else reset_reason st in
  let rr :=
    if team =? TEAM_BLUE then
      if rr =? SCORE_RED_TEAM c then Game_SCORE_OPPONENT c
      else if rr =? SCORE_BLUE_TEAM c then Game_SCORE_MYTEAM c
      else rr
    else rr in
  let '(subimages, w) :=
    update_image (if team =? TEAM_RED then CamA else CamB) (getTime (world st)) (world st) in
  (* the postures are read after the image buffer has been updated *)
  let st' := set_world w st in
  let block (t : Z) : list RobotCoord :=
    let cteam := if t =? TEAM_RED then team else opponent in
    List.map (fun id =>
                let '(x, y, th, _) := get_robot_posture st' cteam id in
                (if team =? TEAM_RED then x else - x,
                 if team =? TEAM_RED then y else - y,
                 if team =? TEAM_RED then th else th + PI c,
                 active (robot_at st cteam id),
                 touch (robot_at st cteam id)))
             (seq 0 NUMBER_OF_ROBOTS) in
  let ball :=
    (if team =? TEAM_RED then fst (ball_position st) else - fst (ball_position st),
     if team =? TEAM_RED then snd (ball_position st) else - snd (ball_position st)) in
  (mkFrame (getTime (world st))
           (score_at st team, score_at st opponent)
           rr
           (game_state st)
           (ball_ownership st =? team)
           (half_passed st)
           subimages
           (block TEAM_RED)
           (block TEAM_BLUE)
           ball
           true,
   st').

Definition publish_current_frame (reset_reason_arg : option Z) (st : State) : State :=
  let '(frame_team_red, st) := generate_frame TEAM_RED reset_reason_arg st in
  let '(frame_team_blue, st) := generate_frame TEAM_BLUE reset_reason_arg st in
  foldl (fun st role =>
           match role_client st !! role with
           | Some client =>
               tcp_send client
                 (PFrame (if role =? TEAM_BLUE then frame_team_blue else frame_team_red)) st
           | None => st
           end)
        st ROLES.

End Referee.

(** ** The referee loop *)

Section Loop.
Context {World SubImage : Type} `{!Backend World SubImage} `{!PyFloat}.
Variable c : Constants.
(** [int(self.getBasicTimeStep())], positive. *)
Variable basicTimeStep : Z.
(** The [repeat] tool option and the [deadlock] rule option of
    [config.json]. *)
Variable repeat : bool.
Variable deadlock_flag : bool.
#[local] Abbreviation State := (State World SubImage).

(** How a piece of the loop body ends: control goes on, the [while] loop
    is left by [break], [run] returns, or an exception escapes. *)
Inductive Flow :=
| Next (st : State)
| Break (st : State)
| Return (st : State)
| Crash (st : State).

Definition flow_state (f : Flow) : State :=
  match f with
  | Next st | Break st | Return st | Crash st => st
  end.

Definition andthen (m k : State -> Flow) : State -> Flow :=
  fun st => match m st with
            | Next st' => k st'
            | other => other
            end.

Definition lift (f : State -> State) : State -> Flow := fun st => Next (f st).

Definition lift_opt (f : State -> option State) : State -> Flow :=
  fun st => match f st with
            | Some st' => Next st'
            | None => Crash st
            end.

Notation "m ;> k" := (andthen m k) (at level 62, right associativity).

(** [len(range(0, timeStep, basicTimeStep))] *)
Definition range_len (timeStep : Z) : nat :=
  if 0 <? basicTimeStep then Z.to_nat ((timeStep + basicTimeStep - 1) / basicTimeStep)
  else O.

(** [self.step(timeStep, runTimer)] followed by the caller's
    [if ... == -1: break]. The label refresh only draws on the display. *)
Fixpoint step_loop (n : nat) (runTimer : bool) (st : State) : Flow :=
  match n with
  | O => Next st
  | S k =>
      match sim_step basicTimeStep (world st) with
      | None => Break st
      | Some w =>
          let st := set_world w st in
          let st := if runTimer then set_time (time st + basicTimeStep) st else st in
          step_loop k runTimer st
      end
  end.

Definition step (timeStep : Z) (runTimer : bool) : State -> Flow :=
  step_loop (range_len timeStep) runTimer.

Definition zero_speeds : list Q := List.repeat 0%Q 10.

Definition stop_robots (st : State) : option State :=
  foldl (fun acc t => st ← acc; set_speeds c t zero_speeds st) (Some st) TEAMS.

Fixpoint flush_loop (fuel : nat) (w : World) : World :=
  match fuel with
  | O => w
  | S k =>
      match receiver_queue w with
      | [] => w
      | _ :: _ => flush_loop k (receiver_nextPacket w)
      end
  end.

Definition flush_touch_ball (st : State) : State :=
  upd_world (fun w => flush_loop (List.length (receiver_queue w)) w) st.

Definition no_touch : list (list bool) :=
  [List.repeat false NUMBER_OF_ROBOTS; List.repeat false NUMBER_OF_ROBOTS].

(** One packet of [get_robot_touch_ball]; [None] is an [IndexError]. *)
Definition touch_of_packet (message : list Z) (rc : list (list bool))
  : option (list (list bool)) :=
  foldl (fun acc '(team, id) =>
           rc ← acc;
           b ← message !! (2 * id + Z.to_nat team)%nat;
           if b =? 1 then Some (alter (fun row => <[id := true]> row) (Z.to_nat team) rc)
           else Some rc)
        (Some rc) all_robots.

Fixpoint touch_loop (fuel : nat) (rc : list (list bool)) (w : World)
  : option (list (list bool) * World) :=
  match fuel with
  | O => Some (rc, w)
  | S k =>
      match receiver_queue w with
      | [] => Some (rc, w)
      | message :: _ =>
          rc' ← touch_of_packet message rc;
          touch_loop k rc' (receiver_nextPacket w)
      end
  end.

Definition get_robot_touch_ball (st : State) : option (list (list bool) * State) :=
  r ← touch_loop (List.length (receiver_queue (world st))) no_touch (world st);
  Some (fst r, set_world (snd r) st).

Definition reset_ball (x z : Q) (st : State) : State :=
  let f : Q := if half_passed st then (-1)%Q else 1%Q in
  upd_world (fun w =>
               resetPhysics BallNode
                 (setSFRotation BallNode "rotation" (0%Q, 1%Q, 0%Q, 0%Q)
                    (setSFVec3f BallNode "translation"
                       ((f * x)%Q, ((15 # 10) * BALL_RADIUS c)%Q, (- f * z)%Q) w))) st.

Definition reset_robot (team : Z) (id : nat) (x y z th : Q) (st : State) : option State :=
  let node := RobotNode team id in
  let f : Q := if half_passed st then (-1)%Q else 1%Q in
  let translation := ((f * x)%Q, y, (f * - z)%Q) in
  let rotation := (0%Q, 1%Q, 0%Q, (th + (if half_passed st then PI c else 0))%Q) in
  let st :=
    upd_world (fun w =>
                 let al := getSFFloat w node "axleLength" in
                 let h := getSFFloat w node "height" in
                 let wr := getSFFloat w node "wheelRadius" in
                 let lwTranslation := ((- al / 2)%Q, ((- h + 2 * wr) / 2)%Q, 0%Q) in
                 let rwTranslation := ((al / 2)%Q, ((- h + 2 * wr) / 2)%Q, 0%Q) in
                 let wheelRotation := (1%Q, 0%Q, 0%Q, (PI c / 2)%Q) in
                 resetPhysics node
                   (setSFRotation node "rwRotation" wheelRotation
                      (setSFVec3f node "rwTranslation" rwTranslation
                         (setSFRotation node "lwRotation" wheelRotation
                            (setSFVec3f node "lwTranslation" lwTranslation
                               (setSFRotation node "rotation" rotation
                                  (setSFVec3f node "translation" translation w))))))) st in
  let st :=
    upd_robot team id
      (fun _ => mkRobot true false (time st) 0 (time st) (time st)) st in
  stop_robots st.

Definition ball_spot_of_formation (red_formation : Formation) : option (Q * Q) :=
  let bp := BALL_POSTURE c in
  match red_formation with
  | FORMATION_DEFAULT | FORMATION_KICKOFF =>
      Some (fst (bp BALL_DEFAULT), snd (bp BALL_DEFAULT))
  | FORMATION_GOALKICK_A => Some (fst (bp BALL_GOALKICK), snd (bp BALL_GOALKICK))
  | FORMATION_GOALKICK_D => Some ((- fst (bp BALL_GOALKICK))%Q, snd (bp BALL_GOALKICK))
  | FORMATION_CAD_AD | FORMATION_CAD_DA =>
      Some (fst (bp BALL_CORNERKICK), snd (bp BALL_CORNERKICK))
  | FORMATION_CBC_AD | FORMATION_CBC_DA =>
      Some (fst (bp BALL_CORNERKICK), (- snd (bp BALL_CORNERKICK))%Q)
  | FORMATION_CAD_AA | FORMATION_CAD_DD =>
      Some ((- fst (bp BALL_CORNERKICK))%Q, (- snd (bp BALL_CORNERKICK))%Q)
  | FORMATION_CBC_AA | FORMATION_CBC_DD =>
      Some ((- fst (bp BALL_CORNERKICK))%Q, snd (bp BALL_CORNERKICK))
  | FORMATION_PENALTYKICK_A =>
      Some (fst (bp BALL_PENALTYKICK), snd (bp BALL_PENALTYKICK))
  | FORMATION_PENALTYKICK_D =>
      Some ((- fst (bp BALL_PENALTYKICK))%Q, snd (bp BALL_PENALTYKICK))
  end.

Definition reset (red_formation blue_formation : Formation) (st : State) : option State :=
  let st :=
    match ball_spot_of_formation red_formation with
    | Some (x, z) => reset_ball x z st
    | None => st
    end in
  st ← foldl (fun acc '(team, id) =>
                st ← acc;
                let s : Q := if team =? TEAM_RED then 1%Q else (-1)%Q in
                let a : Q := if team =? TEAM_RED then 0%Q else PI c in
                let formation := if team =? TEAM_RED then red_formation else blue_formation in
                let '(fx, fy, fth) := ROBOT_FORMATION c formation id in
                reset_robot team id (fx * s)%Q (ROBOT_HEIGHT c id / 2)%Q (fy * s)%Q
                  (fth + a - PI c / 2)%Q st)
             (Some st) all_robots;
  let st := set_recent_touch no_touch st in
  let st := set_deadlock_time (time st) st in
  Some (flush_touch_ball st).

Definition lock_all_robots (locked : bool) (st : State) : State :=
  foldl (fun st '(t, id) => upd_robot t id (set_active (negb locked)) st) st all_robots.

Definition mark_half_passed (st : State) : State :=
  upd_world (fun w =>
               setSFRotation CameraBNode "rotation" (0%Q, 0%Q, 1%Q, 0%Q)
                 (setSFRotation CameraANode "rotation" (0%Q, 0%Q, 1%Q, PI c) w)) st.

Definition episode_restart (st : State) : State :=
  upd_world (fun w =>
               setSFRotation CameraBNode "rotation" (0%Q, 0%Q, 1%Q, PI c)
                 (setSFRotation CameraANode "rotation" (0%Q, 0%Q, 1%Q, 0%Q) w)) st.

(** The pose shared by [send_to_foulzone] and [return_to_field]: the
    posture [(px, pz, pth)] of the table, mirrored for team blue and for
    the second half. *)
Definition teleport (team : Z) (id : nat) (posture : Q * Q * Q) (st : State) : State :=
  let node := RobotNode team id in
  let '(px, pz, pth) := posture in
  let f : Q := if half_passed st then (-1)%Q else 1%Q in
  let s : Q := if team =? 0 then 1%Q else (-1)%Q in
  let translation := ((f * px * s)%Q, (ROBOT_HEIGHT c id / 2)%Q, (f * - pz * s)%Q) in
  let angle := (((if half_passed st then PI c else 0) + pth
                 + (if team =? 0 then 0 else PI c)) - PI c / 2)%Q in
  let rotation := (0%Q, 1%Q, 0%Q, angle) in
  upd_world (fun w =>
               let al := getSFFloat w node "axleLength" in
               let h := getSFFloat w node "height" in
               let wr := getSFFloat w node "wheelRadius" in
               let lwTranslation := ((- al / 2)%Q, ((- h + 2 * wr) / 2)%Q, 0%Q) in
               let rwTranslation := ((al / 2)%Q, ((- h + 2 * wr) / 2)%Q, 0%Q) in
               let wheelRotation := (1%Q, 0%Q, 0%Q, (PI c / 2)%Q) in
               resetPhysics node
                 (setSFRotation node "rwRotation" wheelRotation
                    (setSFVec3f node "rwTranslation" rwTranslation
                       (setSFRotation node "lwRotation" wheelRotation
                          (setSFVec3f node "lwTranslation" lwTranslation
                             (setSFString node "customData" "0 0"
                                (setSFRotation node "rotation" rotation
                                   (setSFVec3f node "translation" translation w)))))))) st.

Definition send_to_foulzone (team : Z) (id : nat) (st : State) : State :=
  teleport team id (ROBOT_FOUL_POSTURE c id) st.

Definition return_to_field (team : Z) (id : nat) (st : State) : State :=
  teleport team id (ROBOT_FORMATION c FORMATION_DEFAULT id) st.

Definition relocate_ball (pos : BallSpot) (st : State) : State :=
  let '(x, z) := BALL_POSTURE c pos in
  let f : Q := if half_passed st then (-1)%Q else 1%Q in
  upd_world (fun w =>
               resetPhysics BallNode
                 (setSFRotation BallNode "rotation" (0%Q, 1%Q, 0%Q, 0%Q)
                    (setSFVec3f BallNode "translation"
                       ((f * x)%Q, (2 # 10)%Q, (f * - z)%Q) w))) st.

(** *** The per-tick checks of the loop body *)

(** Update of the touch statuses. *)
Definition update_touch (st : State) : option State :=
  r ← get_robot_touch_ball st;
  let touched := fst r in
  Some (foldl (fun st '(team, id) =>
                 let v := (touched !!! Z.to_nat team) !!! id in
                 let st := upd_robot team id (set_touch v) st in
                 if v then set_recent_touch touched st else st)
              (snd r) all_robots).

(** A robot that has fallen and could not recover for [FALL_TIME_MS] is
    sent to the foul zone. *)
Definition fall_check_robot (team : Z) (id : nat) (st : State) : State :=
  if active (robot_at st team id)
     && (FALL_TIME_MS c <=? time st - fall_time (robot_at st team id))
  then
    let st := upd_robot team id (set_active false) st in
    let st := send_to_foulzone team id st in
    upd_robot team id (set_sentout_time (time st)) st
  else if snd (get_robot_posture c st team id) then
    upd_robot team id (set_fall_time (time st)) st
  else st.

Definition check_fallen (st : State) : State :=
  foldl (fun st '(team, id) => fall_check_robot team id st) st all_robots.

(** An active robot that has left the field is sent out. *)
Definition field_check_robot (team : Z) (id : nat) (st : State) : State :=
  if active (robot_at st team id) && negb (robot_in_field c st team id) then
    let st := upd_robot team id (set_active false) st in
    let st := send_to_foulzone team id st in
    upd_robot team id (set_sentout_time (time st)) st
  else st.

Definition check_left_field (st : State) : State :=
  foldl (fun st '(team, id) => field_check_robot team id st) st all_robots.

Definition is_in_opponent_goal (x y : Q) : bool :=
  Qlt_bool (FIELD_LENGTH c / 2) x && Qlt_bool (Qabs y) (GOAL_WIDTH c / 2).

Definition is_in_opponent_penalty_area (x y : Q) : bool :=
  Qle_bool x (FIELD_LENGTH c / 2)
  && Qlt_bool (FIELD_LENGTH c / 2 - PENALTY_AREA_DEPTH c) x
  && Qlt_bool (Qabs y) (PENALTY_AREA_WIDTH c / 2).

(** A robot that stays in the opponent's goal or penalty area for
    [IOPA_TIME_LIMIT_MS] is relocated to its initial position, unless an
    object is within 1.5 robot sizes of it. *)
Definition iopa_check_robot (team : Z) (id : nat) (st : State) : State :=
  let '(px, py, _, _) := get_robot_posture c st team id in
  let sign : Q := if team =? TEAM_RED then 1%Q else (-1)%Q in
  let x := (sign * px)%Q in
  let y := (sign * py)%Q in
  if is_in_opponent_goal x y || is_in_opponent_penalty_area x y then
    if IOPA_TIME_LIMIT_MS c <=? time st - niopa_time (robot_at st team id) then
      let '(fx, fy, _) := ROBOT_FORMATION c FORMATION_DEFAULT id in
      let ix := (sign * fx)%Q in
      let iy := (sign * fy)%Q in
      let r := ((15 # 10) * ROBOT_SIZE c id)%Q in
      if negb (any_object_nearby c st ix iy r) then
        let st := return_to_field team id st in
        upd_robot team id (set_niopa_time (time st)) st
      else st
    else st
  else upd_robot team id (set_niopa_time (time st)) st.

Definition check_opponent_area (st : State) : State :=
  foldl (fun st '(team, id) => iopa_check_robot team id st) st all_robots.

Definition is_in_goal (x y : Q) : bool :=
  Qlt_bool x (- FIELD_LENGTH c / 2) && Qlt_bool (Qabs y) (GOAL_WIDTH c / 2).

Definition is_in_penalty_area (x y : Q) : bool :=
  Qle_bool (- FIELD_LENGTH c / 2) x
  && Qlt_bool x (- FIELD_LENGTH c / 2 + PENALTY_AREA_DEPTH c)
  && Qlt_bool (Qabs y) (PENALTY_AREA_WIDTH c / 2).

(** A goalkeeper that stays out of its own penalty area for
    [GK_NIPA_TIME_LIMIT_MS] is returned to its initial position. *)
Definition gk_check_team (team : Z) (st : State) : State :=
  let '(px, py, _, _) := get_robot_posture c st team 0 in
  let sign : Q := if team =? TEAM_RED then 1%Q else (-1)%Q in
  let x := (sign * px)%Q in
  let y := (sign * py)%Q in
  if is_in_goal x y || is_in_penalty_area x y then
    upd_robot team 0 (set_ipa_time (time st)) st
  else if GK_NIPA_TIME_LIMIT_MS c <=? time st - ipa_time (robot_at st team 0) then
    let '(fx, fy, _) := ROBOT_FORMATION c FORMATION_DEFAULT 0 in
    let ix := (sign * fx)%Q in
    let iy := (sign * fy)%Q in
    let r := ((15 # 10) * ROBOT_SIZE c 0)%Q in
    if negb (any_object_nearby c st ix iy r) then
      let st := return_to_field team 0 st in
      upd_robot team 0 (set_ipa_time (time st)) st
    else st
  else st.

Definition check_goalkeepers (st : State) : State :=
  foldl (fun st team => gk_check_team team st) st TEAMS.

(** A robot that was sent out [SENTOUT_DURATION_MS] ago returns to the
    field, unless an object is within 1.5 robot sizes of its place. *)
Definition sentout_check_robot (team : Z) (id : nat) (st : State) : State :=
  if sentout_time (robot_at st team id) =? 0 then st
  else if SENTOUT_DURATION_MS c <=? time st - sentout_time (robot_at st team id) then
    let s : Q := if team =? TEAM_RED then 1%Q else (-1)%Q in
    let '(fx, fy, _) := ROBOT_FORMATION c FORMATION_DEFAULT id in
    let x := (fx * s)%Q in
    let y := (fy * s)%Q in
    let r := ((15 # 10) * ROBOT_SIZE c id)%Q in
    if negb (any_object_nearby c st x y r) then
      let st := upd_robot team id (set_active true) st in
      let st := return_to_field team id st in
      upd_robot team id (set_sentout_time 0) st
    else st
  else st.

Definition check_sentout (st : State) : State :=
  foldl (fun st '(team, id) => sentout_check_robot team id st) st all_robots.

(** [self.reset(...); self.lock_all_robots(True);
     self.robot[self.ball_ownership][id]['active'] = True] *)
Definition restart_with (red_formation blue_formation : Formation) (kicker : nat)
  : State -> Flow :=
  lift_opt (reset red_formation blue_formation)
  ;> lift (lock_all_robots true)
  ;> lift (fun st => upd_robot (ball_ownership st) kicker (set_active true) st).

(** *** The DEFAULT phase *)

(** The ball is in a goal mouth. *)
Definition goal_branch (ball_x : Q) : State -> Flow :=
  lift (fun st =>
          let goaler := if Qlt_bool 0 ball_x then TEAM_RED else TEAM_BLUE in
          set_score (alter Z.succ (Z.to_nat goaler) (score st)) st)
  ;> lift_opt stop_robots
  ;> step (WAIT_GOAL_MS c) false
  ;> lift (set_game_state STATE_KICKOFF)
  ;> lift (set_ball_ownership (if Qlt_bool 0 ball_x then TEAM_BLUE else TEAM_RED))
  ;> lift (fun st => set_kickoff_time (time st) st)
  ;> (fun st =>
        if ball_ownership st =? TEAM_RED
        then restart_with FORMATION_KICKOFF FORMATION_DEFAULT 4 st
        else restart_with FORMATION_DEFAULT FORMATION_KICKOFF 4 st)
  ;> step (WAIT_STABLE_MS c) false
  ;> lift (set_reset_reason
             (if Qlt_bool 0 ball_x then SCORE_RED_TEAM c else SCORE_BLUE_TEAM c)).

(** [touch_count[team]]: the number of true entries of
    [recent_touch[team]]. *)
Definition touch_count (st : State) (team : Z) : Z :=
  Z.of_nat (List.length (List.filter (fun b : bool => b)
                           (firstn NUMBER_OF_ROBOTS (recent_touch st !!! Z.to_nat team)))).

(** The ball has left the field. *)
Definition out_branch (ball_x ball_y : Q) : State -> Flow :=
  lift_opt stop_robots
  ;> step (WAIT_STABLE_MS c) false
  ;> lift (fun st =>
             if touch_count st TEAM_RED >? touch_count st TEAM_BLUE
             then set_ball_ownership TEAM_BLUE st
             else if touch_count st TEAM_BLUE >? touch_count st TEAM_RED
             then set_ball_ownership TEAM_RED st
             else set_ball_ownership (if Qlt_bool ball_x 0 then TEAM_BLUE else TEAM_RED) st)
  ;> (fun st =>
        if Qlt_bool ball_x 0 then
          if ball_ownership st =? TEAM_RED then
            (lift (set_game_state STATE_GOALKICK)
             ;> lift (fun st => set_goalkick_time (time st) st)
             ;> restart_with FORMATION_GOALKICK_A FORMATION_GOALKICK_D 0
             ;> lift (set_reset_reason (GOALKICK c))) st
          else
            (lift (set_game_state STATE_CORNERKICK)
             ;> lift (fun st => set_cornerkick_time (time st) st)
             ;> (if Qlt_bool 0 ball_y
                 then restart_with FORMATION_CAD_AD FORMATION_CAD_AA 4
                 else restart_with FORMATION_CBC_AD FORMATION_CBC_AA 4)
             ;> lift (set_reset_reason (CORNERKICK c))) st
        else
          if ball_ownership st =? TEAM_BLUE then
            (lift (set_game_state STATE_GOALKICK)
             ;> lift (fun st => set_goalkick_time (time st) st)
             ;> restart_with FORMATION_GOALKICK_D FORMATION_GOALKICK_A 0
             ;> lift (set_reset_reason (GOALKICK c))) st
          else
            (lift (set_game_state STATE_CORNERKICK)
             ;> lift (fun st => set_cornerkick_time (time st) st)
             ;> (if Qlt_bool 0 ball_y
                 then restart_with FORMATION_CBC_AA FORMATION_CBC_AD 4
                 else restart_with FORMATION_CAD_AA FORMATION_CAD_AD 4)
             ;> lift (set_reset_reason (CORNERKICK c))) st)
  ;> step (WAIT_STABLE_MS c) false.

(** Goal kick or penalty kick after a decision in a penalty area (the
    same four cases follow [check_penalty_area] and a deadlock there). *)
Definition penalty_area_restart (ball_x : Q) : State -> Flow :=
  fun st =>
    if Qlt_bool ball_x 0 && (ball_ownership st =? TEAM_RED) then
      (lift (set_game_state STATE_GOALKICK)
       ;> lift (set_reset_reason (GOALKICK c))
       ;> lift (fun st => set_goalkick_time (time st) st)
       ;> restart_with FORMATION_GOALKICK_A FORMATION_GOALKICK_D 0) st
    else if Qlt_bool 0 ball_x && (ball_ownership st =? TEAM_BLUE) then
      (lift (set_game_state STATE_GOALKICK)
       ;> lift (set_reset_reason (GOALKICK c))
       ;> lift (fun st => set_goalkick_time (time st) st)
       ;> restart_with FORMATION_GOALKICK_D FORMATION_GOALKICK_A 0) st
    else if Qlt_bool ball_x 0 && (ball_ownership st =? TEAM_BLUE) then
      (lift (set_game_state STATE_PENALTYKICK)
       ;> lift (set_reset_reason (PENALTYKICK c))
       ;> lift (fun st => set_penaltykick_time (time st) st)
       ;> restart_with FORMATION_PENALTYKICK_D FORMATION_PENALTYKICK_A 4) st
    else
      (lift (set_game_state STATE_PENALTYKICK)
       ;> lift (set_reset_reason (PENALTYKICK c))
       ;> lift (fun st => set_penaltykick_time (time st) st)
       ;> restart_with FORMATION_PENALTYKICK_A FORMATION_PENALTYKICK_D 4) st.

Definition penalty_phase : State -> Flow :=
  fun st =>
    let ball_x := fst (get_ball_position st) in
    let '(hit, st) := check_penalty_area c st in
    if hit then
      (lift_opt stop_robots
       ;> step (WAIT_STABLE_MS c) false
       ;> penalty_area_restart ball_x
       ;> step (WAIT_STABLE_MS c) false) st
    else Next st.

Definition corner_deadlock (ball_x ball_y : Q) : State -> Flow :=
  lift (fun st => set_ball_ownership (get_corner_ownership c st) st)
  ;> lift_opt stop_robots
  ;> step (WAIT_STABLE_MS c) false
  ;> lift (set_game_state STATE_CORNERKICK)
  ;> lift (fun st => set_cornerkick_time (time st) st)
  ;> (fun st =>
        let red := ball_ownership st =? TEAM_RED in
        if Qlt_bool ball_x 0 then
          if Qlt_bool 0 ball_y then
            if red then lift_opt (reset FORMATION_CAD_DA FORMATION_CAD_DD) st
            else lift_opt (reset FORMATION_CAD_AD FORMATION_CAD_AA) st
          else
            if red then lift_opt (reset FORMATION_CBC_DA FORMATION_CBC_DD) st
            else lift_opt (reset FORMATION_CBC_AD FORMATION_CBC_AA) st
        else
          if Qlt_bool 0 ball_y then
            if red then lift_opt (reset FORMATION_CBC_AA FORMATION_CBC_AD) st
            else lift_opt (reset FORMATION_CBC_DD FORMATION_CBC_DA) st
          else
            if red then lift_opt (reset FORMATION_CAD_AA FORMATION_CAD_AD) st
            else lift_opt (reset FORMATION_CAD_DD FORMATION_CAD_DA) st)
  ;> lift (lock_all_robots true)
  ;> lift (fun st => upd_robot (ball_ownership st) 4 (set_active true) st)
  ;> step (WAIT_STABLE_MS c) false
  ;> lift (set_reset_reason (CORNERKICK c))
  ;> lift (fun st => set_deadlock_time (time st) st).

Definition general_deadlock (ball_x ball_y : Q) : State -> Flow :=
  lift_opt stop_robots
  ;> step (WAIT_STABLE_MS c) false
  ;> lift (relocate_ball
             (if Qlt_bool ball_x 0
              then (if Qlt_bool 0 ball_y then BALL_RELOCATION_A else BALL_RELOCATION_B)
              else (if Qlt_bool 0 ball_y then BALL_RELOCATION_C else BALL_RELOCATION_D)))
  ;> lift flush_touch_ball
  ;> step (WAIT_STABLE_MS c) false
  ;> lift (set_reset_reason (DEADLOCK c))
  ;> lift (fun st => set_deadlock_time (time st) st).

Definition deadlock_phase : State -> Flow :=
  fun st =>
    if (reset_reason st =? NONE c) && deadlock_flag then
      if Qle_bool (DEADLOCK_THRESHOLD c) (get_ball_velocity st) then
        Next (set_deadlock_time (time st) st)
      else if DEADLOCK_DURATION_MS c <=? time st - deadlock_time st then
        let '(ball_x, ball_y) := get_ball_position st in
        if Qlt_bool (FIELD_LENGTH c / 2 - PENALTY_AREA_DEPTH c) (Qabs ball_x) then
          if Qlt_bool (Qabs ball_y) (PENALTY_AREA_WIDTH c / 2) then
            (lift (fun st => set_ball_ownership (get_pa_ownership c st) st)
             ;> lift_opt stop_robots
             ;> step (WAIT_STABLE_MS c) false
             ;> penalty_area_restart ball_x
             ;> step (WAIT_STABLE_MS c) false
             ;> lift (fun st => set_deadlock_time (time st) st)) st
          else corner_deadlock ball_x ball_y st
        else general_deadlock ball_x ball_y st
      else Next st
    else Next st.

Definition default_phase : State -> Flow :=
  fun st =>
    let '(ball_x, ball_y) := ball_position st in
    ((if Qlt_bool (FIELD_LENGTH c / 2) (Qabs ball_x)
         && Qlt_bool (Qabs ball_y) (GOAL_WIDTH c / 2)
      then goal_branch ball_x
      else if negb (ball_in_field c st) then out_branch ball_x ball_y
      else lift (fun st => st))
     ;> lift check_sentout
     ;> penalty_phase
     ;> deadlock_phase) st.

(** *** The set-piece phases *)

Definition unlock (st : State) : State :=
  lock_all_robots false (set_game_state STATE_DEFAULT st).

Definition kickoff_phase (st : State) : State :=
  let st :=
    if KICKOFF_TIME_LIMIT_MS c <=? time st - kickoff_time st then unlock st
    else
      let '(ball_x, ball_y) := ball_position st in
      if Qlt_bool (KICKOFF_BORDER c * KICKOFF_BORDER c) (ball_x * ball_x + ball_y * ball_y)
      then unlock st
      else st in
  set_deadlock_time (time st) st.

Definition goalkick_phase (st : State) : State :=
  let st :=
    if GOALKICK_TIME_LIMIT_MS c <=? time st - goalkick_time st then unlock st
    else if touch (robot_at st (ball_ownership st) 0) then unlock st
    else st in
  set_deadlock_time (time st) st.

Definition cornerkick_phase (st : State) : State :=
  let st :=
    if CORNERKICK_TIME_LIMIT_MS c <=? time st - cornerkick_time st then unlock st
    else
      foldl (fun st id => if touch (robot_at st (ball_ownership st) id) then unlock st else st)
            st (seq 0 NUMBER_OF_ROBOTS) in
  set_deadlock_time (time st) st.

Definition penaltykick_phase (st : State) : State :=
  let st :=
    if PENALTYKICK_TIME_LIMIT_MS c <=? time st - penaltykick_time st then unlock st
    else if touch (robot_at st (ball_ownership st) 4) then unlock st
    else st in
  set_deadlock_time (time st) st.

(** The [if ... elif ...] chain over [self.game_state]. *)
Definition phase_handler : State -> Flow :=
  fun st =>
    match game_state st with
    | STATE_DEFAULT => default_phase st
    | STATE_KICKOFF => Next (kickoff_phase st)
    | STATE_GOALKICK => Next (goalkick_phase st)
    | STATE_CORNERKICK => Next (cornerkick_phase st)
    | STATE_PENALTYKICK => Next (penaltykick_phase st)
    end.

(** The part of an iteration that follows the half-time test: the frame
    is published, the checks run, the phase is handled and the clock
    advances by one period. *)
Definition referee_tick : State -> Flow :=
  lift (publish_current_frame c None)
  ;> lift (fun st => set_reset_reason (Game_NONE c) st)
  ;> lift_opt update_touch
  ;> lift check_fallen
  ;> lift check_left_field
  ;> lift check_opponent_area
  ;> lift check_goalkeepers
  ;> phase_handler
  ;> step (PERIOD_MS c) true.

(** *** Reading the sockets *)

(** [TcpServer.spin]: every read that is ready is handed to [callback]
    together with the leftover of its connection. *)
Fixpoint spin (reads : list (Client * string)) (st : State) : Flow :=
  match reads with
  | [] => Next st
  | (client, data) :: rest =>
      match callback c client (default "" (unprocessedData st !! client) +:+ data) st with
      | CbOk st' u => spin rest (set_unprocessedData (<[client := u]> (unprocessedData st')) st')
      | CbRaise st' => Crash st'
      end
  end.

(** *** One iteration of [while True] *)

(** Both halves are over. [late_reads] are the reads of the second
    [spin], which leaves time to receive the report. *)
Definition game_over (late_reads : list (Client * string)) : State -> Flow :=
  (fun st =>
     if repeat then
       Next (set_half_passed false
               (episode_restart
                  (set_reset_reason (Game_EPISODE_END c)
                     (publish_current_frame c (Some (Game_EPISODE_END c)) st))))
     else Next (publish_current_frame c (Some (Game_GAME_END c)) st))
  ;> lift_opt stop_robots
  ;> step (WAIT_END_MS c) false
  ;> spin late_reads
  ;> (fun st => if repeat then Next st else Return st).

(** The second half starts with a kickoff by team blue. *)
Definition half_time : State -> Flow :=
  lift (publish_current_frame c (Some (Game_HALFTIME c)))
  ;> lift_opt stop_robots
  ;> step (WAIT_END_MS c) false
  ;> lift (set_half_passed true)
  ;> lift mark_half_passed
  ;> lift (set_ball_ownership TEAM_BLUE)
  ;> lift (set_game_state STATE_KICKOFF)
  ;> lift (set_time 0)
  ;> lift (fun st => set_kickoff_time (time st) st)
  ;> lift_opt (reset FORMATION_DEFAULT FORMATION_KICKOFF)
  ;> lift (lock_all_robots true)
  ;> lift (upd_robot TEAM_BLUE 4 (set_active true))
  ;> step (WAIT_STABLE_MS c) false
  ;> lift (publish_current_frame c (Some (Game_GAME_START c))).

(** Before the match has started: wait until every role is ready. *)
Definition waiting : State -> Flow :=
  fun st =>
    if forallb (fun b : bool => b) (ready st) then
      (lift (set_started true)
       ;> lift (fun st => set_ball_position (get_ball_position st) st)
       ;> lift (publish_current_frame c (Some (Game_GAME_START c)))
       ;> step (WAIT_STABLE_MS c) false) st
    else step (PERIOD_MS c) false st.

Definition loop_iteration (reads late_reads : list (Client * string)) : State -> Flow :=
  spin reads
  ;> (fun st =>
        if negb (started st) then waiting st
        else
          let st := set_ball_position (get_ball_position st) st in
          if Qle_bool (game_time st) (inject_Z (time st)) then
            if half_passed st then game_over late_reads st else half_time st
          else referee_tick st).

(** The loop, driven by the reads that arrive before each iteration. *)
Fixpoint run_loop (inputs : list (list (Client * string) * list (Client * string)))
    (st : State) : Flow :=
  match inputs with
  | [] => Next st
  | (reads, late_reads) :: rest =>
      match loop_iteration reads late_reads st with
      | Next st' => run_loop rest st'
      | other => other
      end
  end.

End Loop.

(** ** A small concrete backend, for evaluating the model on examples *)

Module Toy.

Definition node_eqb (a b : NodeRef) : bool :=
  match a, b with
  | RobotNode t i, RobotNode t' i' => (t =? t') && (i =? i')%nat
  | BallNode, BallNode => true
  | CameraANode, CameraANode => true
  | CameraBNode, CameraBNode => true
  | _, _ => false
  end.

(** Positions are kept per node (the origin when absent); every robot
    stands upright unless listed in [fallen]; a write to [translation]
    moves the node at once; a simulation step changes nothing. *)
Record World := mkWorld {
  positions : list (NodeRef * (Q * Q * Q));
  fallen : list NodeRef;
  custom : list (NodeRef * string);
  queue : list (list Z)
}.

Fixpoint lookup_pos (n : NodeRef) (l : list (NodeRef * (Q * Q * Q))) : Q * Q * Q :=
  match l with
  | [] => (0%Q, 0%Q, 0%Q)
  | (m, p) :: r => if node_eqb n m then p else lookup_pos n r
  end.

#[global] Instance backend : Backend World unit := {|
  getPosition w n := lookup_pos n (positions w);
  getOrientation w n k :=
    if (k =? 8)%nat then 1%Q
    else if (k =? 4)%nat then (if existsb (node_eqb n) (fallen w) then 0%Q else 1%Q)
    else 0%Q;
  getVelocity _ _ := (0%Q, 0%Q, 0%Q);
  getSFFloat _ _ _ := 0%Q;
  setSFVec3f n field v w :=
    if String.eqb field "translation"
    then mkWorld ((n, v) :: positions w) (fallen w) (custom w) (queue w)
    else w;
  setSFRotation _ _ _ w := w;
  setSFString n field s w :=
    if String.eqb field "customData"
    then mkWorld (positions w) (fallen w) ((n, s) :: custom w) (queue w)
    else w;
  resetPhysics _ w := w;
  receiver_queue w := queue w;
  receiver_nextPacket w := mkWorld (positions w) (fallen w) (custom w) (List.tl (queue w));
  sim_step _ w := Some w;
  getTime _ := 0%Q;
  update_image _ _ w := ([], w);
  reset_image _ w := w
|}.

(** [float] on unsigned decimal integers; the other functions are
    stand-ins with the right types. *)
Fixpoint digits (s : string) (acc : Z) : option Z :=
  match s with
  | EmptyString => Some acc
  | String ch t =>
      let n := Z.of_nat (nat_of_ascii ch) in
      if (48 <=? n) && (n <=? 57) then digits t (10 * acc + (n - 48)) else None
  end.

#[global] Instance pyfloat : PyFloat := {|
  float_of_string s :=
    match s with
    | EmptyString => None
    | _ => option_map inject_Z (digits s 0)
    end;
  fmt_speeds a b := if Qeq_bool a 0 && Qeq_bool b 0 then "0 0" else "moving";
  fmt_comment _ s := s;
  sqrt q := q;
  atan2 _ _ := 0%Q
|}.

(** Sample values of the constants (the dimensions of the AI World Cup
    field, in metres; times in milliseconds). *)
Definition consts : Constants := {|
  FIELD_LENGTH := 78 # 10; FIELD_WIDTH := 465 # 100;
  GOAL_DEPTH := 45 # 100; GOAL_WIDTH := 1;
  PENALTY_AREA_DEPTH := 9 # 10; PENALTY_AREA_WIDTH := 18 # 10;
  WALL_THICKNESS := 25 # 1000; CORNER_LENGTH := 1 # 10;
  GOAL_AREA_DEPTH := 4 # 10; GOAL_AREA_WIDTH := 13 # 10;
  BALL_RADIUS := 4 # 100; BALL_MASS := 18 # 1000;
  KICKOFF_BORDER := 5 # 10; DEADLOCK_THRESHOLD := 4 # 10;
  PI := 355 # 113;
  AXLE_LENGTH := fun _ => 14 # 100;
  ROBOT_BODY_MASS := fun _ => 2%Q;
  WHEEL_MASS := fun _ => 1 # 10;
  MAX_LINEAR_VELOCITY := fun _ => 2%Q;
  MAX_TORQUE := fun _ => 1%Q;
  RESOLUTION_X := 640; RESOLUTION_Y := 480; CODEWORDS := [0; 1; 2; 3; 4];
  ROBOT_SIZE := fun _ => 15 # 100;
  ROBOT_HEIGHT := fun _ => 20 # 100;
  WHEEL_RADIUS := fun _ => 3 # 100;
  ROBOT_FORMATION := fun _ id => ((- (inject_Z (Z.of_nat id) + 1) * (5 # 10))%Q, 0%Q, 0%Q);
  ROBOT_FOUL_POSTURE := fun id => ((- (inject_Z (Z.of_nat id) + 1) * (5 # 10))%Q, (- (3))%Q, 0%Q);
  BALL_POSTURE := fun _ => (0%Q, 0%Q);
  PA_THRESHOLD_A := 2; PA_THRESHOLD_D := 3;
  NUM_COMMENTS := 3;
  PERIOD_MS := 50;
  FALL_TIME_MS := 3000; SENTOUT_DURATION_MS := 5000;
  IOPA_TIME_LIMIT_MS := 1000; GK_NIPA_TIME_LIMIT_MS := 1000;
  KICKOFF_TIME_LIMIT_MS := 3000; GOALKICK_TIME_LIMIT_MS := 3000;
  CORNERKICK_TIME_LIMIT_MS := 3000; PENALTYKICK_TIME_LIMIT_MS := 3000;
  DEADLOCK_DURATION_MS := 4000;
  WAIT_STABLE_MS := 100; WAIT_GOAL_MS := 100; WAIT_END_MS := 100;
  NONE := 0; SCORE_RED_TEAM := 2; SCORE_BLUE_TEAM := 3;
  GOALKICK := 6; CORNERKICK := 7; PENALTYKICK := 8; DEADLOCK := 5;
  Game_NONE := 0; Game_GAME_START := 1; Game_SCORE_MYTEAM := 2; Game_SCORE_OPPONENT := 3;
  Game_GAME_END := 4; Game_HALFTIME := 9; Game_EPISODE_END := 10
|}.

Definition empty_world : World := mkWorld [] [] [] [].

(** A robot on the field whose timers were all set at time [t]. *)
Definition fresh_robot (t : Z) : Robot := mkRobot true false t 0 t t.

(** The basic time step of the examples, in milliseconds. *)
Definition bts : Z := 10.

(** Keys of the four roles in the examples. *)
Definition keys : gmap Z Info :=
  <[REPORTER := [("key", JStr "KEYREP")]]>
    (<[COMMENTATOR := [("key", JStr "KEYCOM")]]>
       (<[TEAM_BLUE := [("key", JStr "KEYBLUE")]]>
          (<[TEAM_RED := [("key", JStr "KEYRED")]]> ∅))).

(** A state in open play, nobody ready yet, clock at [t]. *)
Definition state0 (t : Z) : State World unit := {|
  report := None;
  comments_ := ["" ; "" ; ""];
  role_info := keys;
  role_client := ∅;
  unprocessedData := ∅;
  ready := [false; false; false; false];
  sent := [];
  stderr := [];
  stdout := [];
  time := t;
  game_time := 300000;
  kickoff_time := 0;
  goalkick_time := 0;
  cornerkick_time := 0;
  penaltykick_time := 0;
  deadlock_time := t;
  score := [0; 0];
  half_passed := false;
  reset_reason := 0;
  game_state := STATE_DEFAULT;
  ball_ownership := TEAM_RED;
  robot := [List.repeat (fresh_robot t) 5; List.repeat (fresh_robot t) 5];
  recent_touch := [List.repeat false 5; List.repeat false 5];
  started := true;
  ball_position := (0%Q, 0%Q);
  world := empty_world
|}.

(** [name("key"rest] *)
Definition rpc (name key rest : string) : string :=
  marker +:+ name +:+ "(" +:+ dquote +:+ key +:+ dquote +:+ rest.

(** Two commands in three reads; the second boundary falls inside the
    name of the second command. *)
Definition three_reads : list string :=
  [rpc "ready" "KEYRED" ")"; marker +:+ "get_";
   "info(" +:+ dquote +:+ "KEYBLUE" +:+ dquote +:+ ")"].

(** The frame published to team red at the start. *)
Definition frame0 : Frame unit :=
  fst (generate_frame consts TEAM_RED None (state0 0)).

(** Kickoff phase at 5100 ms; robot 1 of team red was sent out at 100 ms. *)
Definition sent_out_in_kickoff : State World unit :=
  upd_robot TEAM_RED 1 (fun _ => mkRobot false false 5100 100 5100 5100)
    (set_game_state STATE_KICKOFF (set_kickoff_time 5000 (state0 5100))).

(** The same robot in open play. *)
Definition sent_out_in_default : State World unit :=
  upd_robot TEAM_RED 1 (fun _ => mkRobot false false 5100 100 5100 5100) (state0 5100).

(** Open play; the ball is one metre behind team blue's goal line,
    inside the goal mouth, and team red touched it last. *)
Definition ball_in_goal_mouth : State World unit :=
  set_recent_touch [[true; false; false; false; false]; List.repeat false 5]
    (set_ball_position ((49 # 10)%Q, 0%Q) (state0 1000)).

(** Robot 2 of team red last stood 3000 ms ago. *)
Definition fallen_for_the_limit : State World unit :=
  upd_robot TEAM_RED 2 (fun _ => mkRobot true false 2100 0 5100 5100) (state0 5100).

End Toy.

(** ** The info dictionaries built by [run] *)

Section InfoBuilder.
Variable c : Constants.

Definition table (f : nat -> Q) : Json :=
  JList (List.map (fun id => JNum (f id)) (seq 0 NUMBER_OF_ROBOTS)).

(** The dictionary created "for aiwc.get_info() in advance" for one
    team; [key] is the random string drawn for it. *)
Definition team_info (name name_op key : string) (game_time : Q) : Info :=
  [ ("field", JList [JNum (FIELD_LENGTH c); JNum (FIELD_WIDTH c)]);
    ("goal", JList [JNum (GOAL_DEPTH c); JNum (GOAL_WIDTH c)]);
    ("penalty_area", JList [JNum (PENALTY_AREA_DEPTH c); JNum (PENALTY_AREA_WIDTH c)]);
    ("goal_area", JList [JNum (GOAL_AREA_DEPTH c); JNum (GOAL_AREA_WIDTH c)]);
    ("ball_radius", JNum (BALL_RADIUS c));
    ("ball_mass", JNum (BALL_MASS c));
    ("robot_size", table (ROBOT_SIZE c));
    ("robot_height", table (ROBOT_HEIGHT c));
    ("axle_length", table (AXLE_LENGTH c));
    ("robot_body_mass", table (ROBOT_BODY_MASS c));
    ("wheel_radius", table (WHEEL_RADIUS c));
    ("wheel_mass", table (WHEEL_MASS c));
    ("max_linear_velocity", table (MAX_LINEAR_VELOCITY c));
    ("max_torque", table (MAX_TORQUE c));
    ("resolution", JList [JInt (RESOLUTION_X c); JInt (RESOLUTION_Y c)]);
    ("number_of_robots", JInt (Z.of_nat NUMBER_OF_ROBOTS));
    ("codewords", JList (List.map JInt (CODEWORDS c)));
    ("game_time", JNum (game_time / 1000)%Q);
    ("team_info", JList [JList [JList [JStr "name"; JStr name];
                                JList [JStr "rating"; JInt 0]];
                         JList [JList [JStr "name"; JStr name_op];
                                JList [JStr "rating"; JInt 0]]]);
    ("key", JStr key) ].

(** [self.role_info] after the configuration has been read: one entry
    per team, and the entries of the optional roles when their sections
    are present. *)
Definition initial_role_info (name_a name_b key_red key_blue : string) (game_time : Q)
    (commentator reporter : option Info) : gmap Z Info :=
  let m := <[TEAM_BLUE := team_info name_b name_a key_blue game_time]>
             (<[TEAM_RED := team_info name_a name_b key_red game_time]> ∅) in
  let m := match commentator with Some i => <[COMMENTATOR := i]> m | None => m end in
  match reporter with Some i => <[REPORTER := i]> m | None => m end.

End InfoBuilder.

(** The state of one [callback] result. *)
Definition cb_state {World SubImage : Type} (r : @CbResult World SubImage)
  : State World SubImage :=
  match r with
  | CbOk st _ => st
  | CbRaise st => st
  end.

(** A string as the list of its one-character pieces. *)
Fixpoint bytes_of (s : string) : list string :=
  match s with
  | EmptyString => []
  | String ch t => String ch EmptyString :: bytes_of t
  end.

(** ** Well-formed command streams *)

(** No occurrence of the marker starts anywhere in [s]. *)
Fixpoint marker_free (s : string) : bool :=
  match s with
  | EmptyString => true
  | String _ t => negb (String.prefix marker s) && marker_free t
  end.

(** The five command kinds that [callback] dispatches on. *)
Definition known_kind (command : string) : bool :=
  Py.startswith "get_info(" command
  || Py.startswith "ready(" command
  || Py.startswith "set_speeds(" command
  || Py.startswith "commentate(" command
  || Py.startswith "report(" command.

(** A fragment on which [callback] prints nothing that depends on the
    whole message: it is empty, incomplete, or of a known kind. *)
Definition quiet (fragment : string) : bool :=
  String.eqb fragment "" || negb (Py.ends_rparen fragment) || known_kind fragment.

(** The commands [b1; ...; bn] as they travel: [aiwc.b1aiwc.b2...]. *)
Fixpoint stream (bodies : list string) : string :=
  match bodies with
  | [] => ""
  | b :: r => marker +:+ b +:+ stream r
  end.

Fixpoint concat_reads (reads : list string) : string :=
  match reads with
  | [] => ""
  | d :: r => d +:+ concat_reads r
  end.

(** The role that [get_role] resolves for a key, from the registry
    alone. *)
Definition resolve (info : gmap Z Info) (key : string) : Z :=
  match List.find (fun role =>
                     match info !! role with
                     | Some i =>
                         match dict_get "key" i with
                         | Some (JStr k) => String.eqb k key
                         | _ => false
                         end
                     | None => false
                     end) ROLES with
  | Some role => role
  | None => -1
  end.

(** The three authorization tests of [callback]: none of them rejects
    the command. *)
Definition authorized (info : gmap Z Info) (command : string) : bool :=
  let role := resolve info (get_key command) in
  if Py.startswith "get_info(" command then true
  else if Py.startswith "ready(" command then true
  else if Py.startswith "set_speeds(" command then negb (TEAM_BLUE <? role)
  else if Py.startswith "commentate(" command then role =? COMMENTATOR
  else if Py.startswith "report(" command then role =? REPORTER
  else true.

(** A complete command that is processed and lets the loop go on:
    closed by [)], free of the marker, of a known kind, and authorized. *)
Definition good (info : gmap Z Info) (body : string) : bool :=
  Py.ends_rparen body && marker_free body && known_kind body && authorized info body.

(** The received part of a command whose end has not arrived: some
    characters of the body, not ending in [)], without a whole marker. *)
Definition partial_body (l : string) : bool :=
  negb (String.eqb l "") && negb (Py.ends_rparen l) && marker_free l.

(** A boundary between two reads that the framer bridges: what has
    been received so far is a run of good commands, followed either by
    nothing (and then the next read opens with the marker) or by the
    marker and the received part of one more body. Something has been
    received in either case. *)
Inductive safe_cut (info : gmap Z Info) (received next : string) : Prop :=
| cut_between (pre : list string) :
    pre <> [] ->
    forallb (good info) pre = true ->
    received = stream pre ->
    Py.startswith marker next = true ->
    safe_cut info received next
| cut_inside (pre : list string) (l : string) :
    forallb (good info) pre = true ->
    partial_body l = true ->
    received = stream pre +:+ marker +:+ l ->
    safe_cut info received next.

(** ** The ownership rule, in the words of the specification *)

Section OwnershipRule.
Context {World SubImage : Type} `{!Backend World SubImage} `{!PyFloat}.
Variable c : Constants.
#[local] Abbreviation State := (State World SubImage).

(** The region of concern of a corner decision: the corner strip on the
    ball's side. *)
Definition in_corner_region (st : State) (x y : Q) : bool :=
  let '(ball_x, ball_y) := get_ball_position st in
  let s_x : Q := if Qlt_bool 0 ball_x then 1%Q else (-1)%Q in
  let s_y : Q := if Qlt_bool 0 ball_y then 1%Q else (-1)%Q in
  Qlt_bool (FIELD_LENGTH c / 2 - PENALTY_AREA_DEPTH c) (s_x * x)
  && Qlt_bool (PENALTY_AREA_WIDTH c / 2) (s_y * y).

(** The region of concern of a penalty-area decision. *)
Definition in_pa_region (st : State) (x y : Q) : bool :=
  let '(ball_x, _) := get_ball_position st in
  let s_x : Q := if Qlt_bool 0 ball_x then 1%Q else (-1)%Q in
  Qlt_bool (FIELD_LENGTH c / 2 - PENALTY_AREA_DEPTH c) (s_x * x)
  && Qlt_bool (Qabs y) (PENALTY_AREA_WIDTH c / 2).

(** The active robots of a team inside a region, by id. *)
Definition members (region : State -> Q -> Q -> bool) (st : State) (team : Z) : list nat :=
  List.filter (fun id =>
                 active (robot_at st team id)
                 && let '(x, y, _, _) := get_robot_posture c st team id in region st x y)
              (seq 0 NUMBER_OF_ROBOTS).

(** Euclidean distance of a robot to the ball. *)
Definition distance_to_ball (st : State) (team : Z) (id : nat) : Q :=
  let '(ball_x, ball_y) := get_ball_position st in
  let '(x, y, _, _) := get_robot_posture c st team id in
  sqrt ((x - ball_x) * (x - ball_x) + (y - ball_y) * (y - ball_y))%Q.

Definition total_distance (region : State -> Q -> Q -> bool) (st : State) (team : Z) : Q :=
  foldl (fun acc id => (acc + distance_to_ball st team id)%Q) 0%Q (members region st team).

Definition robot_count (region : State -> Q -> Q -> bool) (st : State) (team : Z) : Z :=
  Z.of_nat (List.length (members region st team)).

(** Average distance to the ball among the robots counted. *)
Definition average_distance (region : State -> Q -> Q -> bool) (st : State) (team : Z) : Q :=
  (total_distance region st team / inject_Z (robot_count region st team))%Q.

(** More robots in the region: that team; equal counts: the team with
    the smaller average distance; exact tie: red when the ball's x is
    positive, blue otherwise. *)
Definition ownership_rule (count_red count_blue : Z) (avg_red avg_blue : Q) (ball_x : Q) : Z :=
  if count_red >? count_blue then TEAM_RED
  else if count_blue >? count_red then TEAM_BLUE
  else if Qlt_bool avg_red avg_blue then TEAM_RED
  else if Qlt_bool avg_blue avg_red then TEAM_BLUE
  else if Qlt_bool 0 ball_x then TEAM_RED else TEAM_BLUE.

End OwnershipRule.

(** ** Frame mirroring, in the words of the specification *)

Section Mirror.
Context {SubImage : Type}.
Variable c : Constants.

(** Remapping of the scored-by reset reasons for team blue. *)
Definition remap_reason (rr : Z) : Z :=
  if rr =? SCORE_RED_TEAM c then Game_SCORE_OPPONENT c
  else if rr =? SCORE_BLUE_TEAM c then Game_SCORE_MYTEAM c
  else rr.

(** Negate x and y, add [PI] to the heading. *)
Definition mirror_coord (rc : RobotCoord) : RobotCoord :=
  let '(x, y, th, a, t) := rc in ((- x)%Q, (- y)%Q, (th + PI c)%Q, a, t).

(** The team-blue view of a frame: the score pair and the two robot
    blocks are swapped, every coordinate is negated, every heading is
    turned by [PI], the scored-by reasons are remapped and the ownership
    flag is flipped. The subimages and the end marker are kept. *)
Definition mirror_frame (f : Frame SubImage) : Frame SubImage :=
  mkFrame (f_time f)
          (snd (f_score f), fst (f_score f))
          (remap_reason (f_reset_reason f))
          (f_game_state f)
          (negb (f_ball_ownership f))
          (f_half_passed f)
          (f_subimages f)
          (List.map mirror_coord (f_coord_op f))
          (List.map mirror_coord (f_coord_my f))
          ((- fst (f_coord_ball f))%Q, (- snd (f_coord_ball f))%Q)
          (f_EOF f).

(** Equality of two robot entries up to a constant added to the
    heading. *)
Definition coord_shifted (d : Q) (a b : RobotCoord) : Prop :=
  let '(x, y, th, act, tch) := a in
  let '(x', y', th', act', tch') := b in
  x' = x /\ y' = y /\ (th' == th + d)%Q /\ act' = act /\ tch' = tch.

End Mirror.


(** ** Vocabulary of the statements *)

(** Entry by entry, with [0] past the end of the list. *)
Definition score_le (l l' : list Z) : Prop := forall n : nat, l !!! n <= l' !!! n.


Section Vocabulary.
Context {World SubImage : Type} `{!Backend World SubImage} `{!PyFloat}.
#[local] Abbreviation State := (State World SubImage).

(** What follows a [callback] result. *)
Definition cb_bind (r : @CbResult World SubImage) (k : State -> string -> @CbResult World SubImage)
  : @CbResult World SubImage :=
  match r with
  | CbOk st u => k st u
  | CbRaise st => CbRaise st
  end.

(** The state in which the handling of one command ends. *)
Definition cmd_state (r : @CmdResult World SubImage) : State :=
  match r with
  | CmdNext st | CmdReturn st | CmdRaise st => st
  end.

(** A pass of the loop visits the robots one by one. *)
Definition pass (body : Z -> nat -> State -> State) (l : list (Z * nat)) (st : State) : State :=
  foldl (fun st '(team, id) => body team id st) st l.

(** A body that only writes the record of the robot it visits, and
    leaves the clock and the shape of the table alone. *)
Definition local_body (body : Z -> nat -> State -> State) : Prop :=
  forall team' id' (st : State),
    In (team', id') all_robots ->
    time (body team' id' st) = time st
    /\ robots_ok (body team' id' st) = robots_ok st
    /\ forall team id, In (team, id) all_robots -> (team', id') <> (team, id) ->
                       robot_at (body team' id' st) team id = robot_at st team id.

(** Updating an image buffer does not move a robot. *)
Definition images_keep_poses : Prop :=
  forall cam t (w : World) n,
    getPosition (snd (update_image cam t w)) n = getPosition w n
    /\ (forall k, getOrientation (snd (update_image cam t w)) n k = getOrientation w n k).

(** The simulation does not end during the waits. *)
Definition sim_alive : Prop := forall ms (w : World), is_Some (sim_step ms w).

(** What the referee has decided; teleports, wheel commands and waits
    leave it alone. *)
Definition decisions (st : State) : list Z * GameState * Z * Z * Z * bool :=
  (score st, game_state st, ball_ownership st, reset_reason st, time st, half_passed st).

(** An operation that succeeds on a well-shaped robot table, keeps the
    shape and changes no decision. *)
Definition runs (f : State -> option State) : Prop :=
  forall st, robots_ok st = true ->
             exists st', f st = Some st' /\ decisions st' = decisions st
                         /\ robots_ok st' = true.

(** A piece of the loop body that never lowers the score, however it
    ends. *)
Definition mono (m : State -> @Flow World SubImage) : Prop :=
  forall st, score_le (score st) (score (flow_state (m st))).

Definition keeps (f : State -> State) : Prop := forall st, score (f st) = score st.

Definition keeps_opt (f : State -> option State) : Prop :=
  forall st st', f st = Some st' -> score st' = score st.

End Vocabulary.

Arguments images_keep_poses World SubImage {_}.
Arguments sim_alive World SubImage {_}.

(** One step of the robot tally of an ownership decision: [P] says
    whether a robot counts, [D] is its distance to the ball. *)
Definition tally_step (P : Z -> nat -> bool) (D : Z -> nat -> Q)
    (acc : (Z * Z) * (Q * Q)) (p : Z * nat) : (Z * Z) * (Q * Q) :=
  let '(team, id) := p in
  if P team id
  then (bump Z.succ team (fst acc), bump (fun d => (d + D team id)%Q) team (snd acc))
  else acc.

(** * Properties of the framer *)

Lemma sapp_cons ch s t : String ch s +:+ t = String ch (s +:+ t).
Proof. reflexivity. Qed.

Lemma sapp_nil_l t : "" +:+ t = t.
Proof. reflexivity. Qed.

Lemma sapp_nil_r s : s +:+ "" = s.
Proof. induction s as [|ch s IH]; [reflexivity|]. now rewrite sapp_cons, IH. Qed.

Lemma sapp_assoc s t u : (s +:+ t) +:+ u = s +:+ t +:+ u.
Proof. induction s as [|ch s IH]; [reflexivity|]. now rewrite !sapp_cons, IH. Qed.

Lemma marker_unfold r :
  marker +:+ r = String "a" (String "i" (String "w" (String "c" (String "." r)))).
Proof. reflexivity. Qed.

Lemma split_from_0_cons ch t :
  split_from 0 (String ch t) =
  if String.prefix marker (String ch t) then "" :: split_from 4 t
  else match split_from 0 t with
       | [] => [String ch ""]
       | h :: r => String ch h :: r
       end.
Proof. reflexivity. Qed.

Lemma prefix_nil r : String.prefix "" r = true.
Proof. destruct r; reflexivity. Qed.

Lemma prefix_cons a s1 b s2 :
  String.prefix (String a s1) (String b s2) =
  if ascii_dec a b then String.prefix s1 s2 else false.
Proof. reflexivity. Qed.

Lemma prefix_marker_unfold c1 c2 c3 c4 c5 r :
  String.prefix marker (String c1 (String c2 (String c3 (String c4 (String c5 r))))) =
  String.prefix marker (String c1 (String c2 (String c3 (String c4 (String c5 ""))))).
Proof.
  unfold marker.
  repeat (rewrite !prefix_cons; destruct (ascii_dec _ _); [|reflexivity]).
  now rewrite !prefix_nil.
Qed.

Lemma startswith_marker_inv s :
  Py.startswith marker s = true -> exists r, s = marker +:+ r.
Proof.
  unfold Py.startswith, marker. intros H.
  destruct s as [|c1 [|c2 [|c3 [|c4 [|c5 r]]]]];
    repeat (try discriminate H; rewrite prefix_cons in H;
            destruct (ascii_dec _ _) as [E|E]; [subst | discriminate H]);
    try discriminate H.
  exists r. reflexivity.
Qed.

Lemma split_marker_cons r : split_from 0 (marker +:+ r) = "" :: split_from 0 r.
Proof.
  rewrite marker_unfold, split_from_0_cons, prefix_marker_unfold. reflexivity.
Qed.

Lemma startswith_marker_app r : Py.startswith marker (marker +:+ r) = true.
Proof. unfold Py.startswith. rewrite marker_unfold, prefix_marker_unfold. reflexivity. Qed.

Lemma ends_rparen_cons ch c2 t :
  Py.ends_rparen (String ch (String c2 t)) = Py.ends_rparen (String c2 t).
Proof. reflexivity. Qed.

Lemma ends_rparen_single ch : Py.ends_rparen (String ch "") = true -> ch = ")"%char.
Proof. unfold Py.ends_rparen. simpl. apply Ascii.eqb_eq. Qed.

(** An occurrence of the marker cannot start inside a body that ends in
    a closing parenthesis and run into what follows. *)
Lemma no_straddle b x :
  Py.ends_rparen b = true ->
  String.prefix marker b = false ->
  String.prefix marker (b +:+ x) = false.
Proof.
  intros He Hp.
  destruct b as [|c1 [|c2 [|c3 [|c4 [|c5 b]]]]];
    try discriminate;
    [ repeat rewrite ends_rparen_cons in He;
      apply ends_rparen_single in He; subst;
      rewrite ?sapp_cons, ?sapp_nil_l; unfold marker;
      repeat (rewrite prefix_cons;
              destruct (ascii_dec _ _) as [E|E];
              [try discriminate E; subst | reflexivity]) .. | ].
  rewrite !sapp_cons, prefix_marker_unfold.
  rewrite prefix_marker_unfold in Hp. exact Hp.
Qed.

Lemma split_free b : marker_free b = true -> split_from 0 b = [b].
Proof.
  induction b as [|ch t IH]; [reflexivity|].
  intros H. change (marker_free (String ch t)) with
    (negb (String.prefix marker (String ch t)) && marker_free t) in H.
  apply andb_true_iff in H as [Hp Ht]. apply negb_true_iff in Hp.
  rewrite split_from_0_cons, Hp, (IH Ht). reflexivity.
Qed.

Lemma split_body_then_marker b z :
  marker_free b = true -> Py.ends_rparen b = true ->
  split_from 0 (b +:+ marker +:+ z) = b :: split_from 0 z.
Proof.
  induction b as [|ch t IH]; intros Hf He; [discriminate|].
  pose proof Hf as Hf'.
  change (marker_free (String ch t)) with
    (negb (String.prefix marker (String ch t)) && marker_free t) in Hf'.
  apply andb_true_iff in Hf' as [Hp Ht]. apply negb_true_iff in Hp.
  rewrite sapp_cons, split_from_0_cons.
  rewrite <- sapp_cons, (no_straddle _ _ He Hp).
  destruct t as [|c2 t'].
  - rewrite sapp_nil_l, split_marker_cons. reflexivity.
  - rewrite ends_rparen_cons in He. rewrite (IH Ht He). reflexivity.
Qed.

Lemma good_parts info b :
  good info b = true ->
  Py.ends_rparen b = true /\ marker_free b = true /\ known_kind b = true
  /\ authorized info b = true.
Proof.
  unfold good. rewrite !andb_true_iff. tauto.
Qed.

Lemma split_stream_marker info pre rest :
  forallb (good info) pre = true ->
  split_from 0 (stream pre +:+ marker +:+ rest) = "" :: pre ++ split_from 0 rest.
Proof.
  induction pre as [|b r IH]; intros Hg.
  - simpl. rewrite sapp_nil_l. apply split_marker_cons.
  - simpl in Hg. apply andb_true_iff in Hg as [Hb Hr].
    apply good_parts in Hb as (He & Hf & _).
    specialize (IH Hr).
    simpl stream. rewrite !sapp_assoc, split_marker_cons.
    destruct r as [|b' r'].
    + simpl stream. rewrite sapp_nil_l.
      rewrite (split_body_then_marker _ _ Hf He). reflexivity.
    + simpl stream in *. rewrite !sapp_assoc in *.
      rewrite (split_body_then_marker _ _ Hf He).
      rewrite split_marker_cons in IH. injection IH as IH. rewrite IH. reflexivity.
Qed.

Lemma split_stream info pre :
  forallb (good info) pre = true ->
  split_from 0 (stream pre) = "" :: pre.
Proof.
  induction pre as [|b r IH]; intros Hg; [reflexivity|].
  simpl in Hg. apply andb_true_iff in Hg as [Hb Hr].
  apply good_parts in Hb as (He & Hf & _).
  specialize (IH Hr).
  simpl stream. rewrite split_marker_cons.
  destruct r as [|b' r'].
  - simpl stream. rewrite sapp_nil_r, (split_free _ Hf). reflexivity.
  - simpl stream in *.
    rewrite (split_body_then_marker _ _ Hf He).
    rewrite split_marker_cons in IH. injection IH as IH. rewrite IH. reflexivity.
Qed.


Section CallbackFacts.
Context {World SubImage : Type} `{!Backend World SubImage} `{!PyFloat}.
Variable c : Constants.
Variable client : Client.
#[local] Abbreviation State := (State World SubImage).

Lemma get_role_resolve rpc (st : State) :
  fst (get_role rpc st) = resolve (role_info st) (get_key rpc).
Proof.
  unfold get_role, resolve, key_matches.
  destruct (List.find _ ROLES); reflexivity.
Qed.

Lemma get_role_info rpc (st : State) :
  role_info (snd (get_role rpc st)) = role_info st.
Proof.
  unfold get_role. destruct (List.find _ ROLES); reflexivity.
Qed.

Lemma get_role_name_info role (st : State) :
  role_info (snd (get_role_name role st)) = role_info st.
Proof.
  unfold get_role_name. repeat (destruct (_ =? _); [reflexivity|]). reflexivity.
Qed.

Lemma set_speeds_info team speeds (st st' : State) :
  set_speeds c team speeds st = Some st' -> role_info st' = role_info st.
Proof.
  unfold set_speeds.
  generalize (seq 0 NUMBER_OF_ROBOTS) as l.
  assert (G : forall l (acc : option State),
             (forall s, acc = Some s -> role_info s = role_info st) ->
             forall r,
             foldl (fun acc id =>
               st ← acc;
               row ← Py.nth (robot st) team;
               r ← row !! id;
               if active r then
                 a ← speeds !! (id * 2)%nat;
                 b ← speeds !! (id * 2 + 1)%nat;
                 Some (set_world
                         (setSFString (RobotNode (if team =? TEAM_RED then TEAM_RED else TEAM_BLUE) id) "customData"
                            (fmt_speeds (a / WHEEL_RADIUS c id) (b / WHEEL_RADIUS c id))
                            (world st)) st)
               else Some st) acc l = Some r -> role_info r = role_info st).
  { induction l as [|id l IH]; intros acc Hacc r; simpl.
    - apply Hacc.
    - apply IH. intros s Hs.
      destruct acc as [s0|]; simpl in Hs; [|discriminate].
      destruct (Py.nth (robot s0) team) as [row|]; simpl in Hs; [|discriminate].
      destruct (row !! id) as [rb|]; simpl in Hs; [|discriminate].
      destruct (active rb).
      + destruct (speeds !! (id * 2)%nat); simpl in Hs; [|discriminate].
        destruct (speeds !! (id * 2 + 1)%nat); simpl in Hs; [|discriminate].
        injection Hs as <-. simpl. now apply Hacc.
      + injection Hs as <-. now apply Hacc. }
  intros l. apply G. now intros s [= <-].
Qed.

(** The whole message only matters for a command of unknown kind. *)
Lemma process_command_known m1 m2 command (st : State) :
  known_kind command = true ->
  process_command c client m1 command st = process_command c client m2 command st.
Proof.
  intros Hk. unfold process_command.
  destruct (get_role command st) as [role st1].
  unfold known_kind in Hk.
  repeat (destruct (Py.startswith _ command); [reflexivity|]).
  discriminate.
Qed.

(** A good command is processed and the loop goes on, unless it raises;
    the registry is left as it was. *)
Lemma process_command_good message command (st : State) :
  good (role_info st) command = true ->
  (exists st', process_command c client message command st = CmdNext st'
               /\ role_info st' = role_info st)
  \/ (exists st', process_command c client message command st = CmdRaise st').
Proof.
  intros Hg. apply good_parts in Hg as (_ & _ & Hk & Ha).
  unfold process_command, authorized, known_kind in *.
  pose proof (get_role_resolve command st) as Hr.
  pose proof (get_role_info command st) as Hi.
  destruct (get_role command st) as [role st1]. simpl in Hr, Hi. rewrite <- Hr in Ha.
  clear Hr.
  destruct (Py.startswith "get_info(" command).
  { pose proof (get_role_name_info role
                  (set_role_client (<[role:=client]> (role_client st1)) st1)) as Hn.
    destruct (get_role_name role _) as [name st2]. simpl in Hn |- *.
    destruct (role_info st2 !! TEAM_RED) eqn:E; [left|right]; eexists; split; eauto.
    simpl. congruence. }
  destruct (Py.startswith "ready(" command).
  { destruct (Py.set_nth (ready _) role true) as [flags|]; [|right; eexists; eauto].
    match goal with |- context [get_role_name role ?s] =>
      pose proof (get_role_name_info role s) as Hn;
      destruct (get_role_name role s) as [name st2] end.
    left. eexists. split; [reflexivity|]. simpl in Hn |- *. rewrite Hn.
    destruct (role =? TEAM_RED); [exact Hi|]. destruct (role =? TEAM_BLUE); exact Hi. }
  destruct (Py.startswith "set_speeds(" command).
  { apply negb_true_iff in Ha. rewrite Ha.
    destruct (parse_floats _) as [speeds|]; [|right; eexists; eauto].
    destruct (set_speeds c role speeds _) as [st2|] eqn:E; [|right; eexists; eauto].
    left. eexists. split; [reflexivity|].
    apply set_speeds_info in E. rewrite E. exact Hi. }
  destruct (Py.startswith "commentate(" command).
  { rewrite Ha. left. eexists. split; [reflexivity|]. exact Hi. }
  destruct (Py.startswith "report(" command).
  { rewrite Ha. left. eexists. split; [reflexivity|]. exact Hi. }
  discriminate.
Qed.

Lemma callback_loop_quiet m1 m2 frs :
  forallb quiet frs = true ->
  forall (st : State) u,
    callback_loop c client m1 frs st u = callback_loop c client m2 frs st u.
Proof.
  induction frs as [|f frs IH]; intros Hq st u; [reflexivity|].
  simpl in Hq. apply andb_true_iff in Hq as [Hf Hq]. specialize (IH Hq).
  simpl. destruct (String.eqb f "") eqn:E1; [apply IH|].
  destruct (Py.ends_rparen f) eqn:E2; simpl; [|apply IH].
  unfold quiet in Hf. rewrite E1, E2 in Hf. simpl in Hf.
  rewrite (process_command_known m1 m2 f st Hf).
  destruct (process_command c client m2 f st); auto.
Qed.

Lemma ends_rparen_nonempty s : Py.ends_rparen s = true -> String.eqb s "" = false.
Proof. destruct s; [discriminate|reflexivity]. Qed.

(** A run of good commands is processed command by command; nothing is
    added to the leftover and the loop then goes on with the rest. *)
Lemma callback_loop_good message pre frs :
  forall (st : State) u,
    forallb (good (role_info st)) pre = true ->
    callback_loop c client message (pre ++ frs) st u =
    cb_bind (callback_loop c client message pre st u)
            (fun st1 u1 => callback_loop c client message frs st1 u1)
    /\ (forall st1 u1, callback_loop c client message pre st u = CbOk st1 u1 ->
                       u1 = u /\ role_info st1 = role_info st).
Proof.
  induction pre as [|b r IH]; intros st u Hg.
  - simpl. split; [reflexivity|]. now intros st1 u1 [= <- <-].
  - simpl in Hg. apply andb_true_iff in Hg as [Hb Hr].
    pose proof (good_parts _ _ Hb) as (He & _).
    simpl. rewrite (ends_rparen_nonempty _ He), He. simpl.
    destruct (process_command_good message b st Hb) as [(st' & -> & Hi)|(st' & ->)].
    + rewrite <- Hi in Hr. destruct (IH st' u Hr) as [IH1 IH2].
      split; [exact IH1|]. intros st1 u1 E. destruct (IH2 _ _ E). split; congruence.
    + split; [reflexivity|]. discriminate.
Qed.


Lemma good_quiet info pre :
  forallb (good info) pre = true -> forallb quiet pre = true.
Proof.
  induction pre as [|b r IH]; [reflexivity|]. simpl.
  rewrite !andb_true_iff. intros [Hb Hr]. split; [|auto].
  apply good_parts in Hb as (_ & _ & Hk & _). unfold quiet. rewrite Hk.
  now rewrite orb_true_r.
Qed.

Lemma forallb_app_r {A} (f : A -> bool) l1 l2 :
  forallb f (l1 ++ l2) = true -> forallb f l2 = true.
Proof. rewrite forallb_app, andb_true_iff. tauto. Qed.

Lemma startswith_stream pre rest :
  Py.startswith marker (stream pre +:+ marker +:+ rest) = true.
Proof.
  destruct pre as [|b r]; simpl stream.
  - rewrite sapp_nil_l. apply startswith_marker_app.
  - rewrite sapp_assoc. apply startswith_marker_app.
Qed.

Lemma callback_unfold message (st : State) :
  Py.startswith marker message = true ->
  callback c client message st =
  callback_loop c client message (split_marker message) st "".
Proof. intros E. unfold callback. now rewrite E. Qed.

Lemma callback_loop_skip message frs (st : State) u :
  callback_loop c client message ("" :: frs) st u = callback_loop c client message frs st u.
Proof. reflexivity. Qed.

Lemma callback_loop_partial message l (st : State) u :
  partial_body l = true ->
  callback_loop c client message [l] st u = CbOk st (u +:+ marker +:+ l).
Proof.
  unfold partial_body. rewrite !andb_true_iff, !negb_true_iff.
  intros [[E1 E2] _]. simpl. now rewrite E1, E2.
Qed.

(** The remainder of a message that opens with good commands. *)
Lemma callback_good_prefix (st : State) pre rest :
  forallb (good (role_info st)) pre = true ->
  forallb quiet (split_from 0 rest) = true ->
  forall message,
    callback c client (stream pre +:+ marker +:+ rest) st =
    cb_bind (callback_loop c client message pre st "")
            (fun st1 _ => callback_loop c client message (split_from 0 rest) st1 "").
Proof.
  intros Hg Hq message.
  rewrite (callback_unfold _ _ (startswith_stream pre rest)).
  unfold split_marker. rewrite (split_stream_marker _ _ _ Hg), callback_loop_skip.
  rewrite (callback_loop_quiet _ message).
  2:{ rewrite forallb_app, (good_quiet _ _ Hg), Hq. reflexivity. }
  destruct (callback_loop_good message pre (split_from 0 rest) st "" Hg) as [E1 E2].
  rewrite E1. destruct (callback_loop c client message pre st "") as [st1 u1|]; [|reflexivity].
  simpl. destruct (E2 st1 u1 eq_refl) as [-> _]. reflexivity.
Qed.

(** Two reads against one: when the boundary is a safe cut, handing the
    leftover of the first read back with the second read gives what the
    two reads give when they arrive together. *)
Lemma feed_two (st : State) x p :
  safe_cut (role_info st) x p ->
  forallb quiet (split_marker (x +:+ p)) = true ->
  cb_bind (callback c client x st) (fun st1 u => callback c client (u +:+ p) st1)
  = callback c client (x +:+ p) st.
Proof.
  intros [pre Hne Hg -> Hp | pre l Hg Hl ->] Hq.
  - destruct (startswith_marker_inv _ Hp) as [r ->].
    unfold split_marker in Hq.
    rewrite (split_stream_marker _ _ _ Hg) in Hq. simpl in Hq.
    apply forallb_app_r in Hq.
    rewrite (callback_good_prefix st pre r Hg Hq (stream pre)).
    assert (Hs : Py.startswith marker (stream pre) = true).
    { destruct pre as [|b0 r0]; [contradiction|]. simpl. apply startswith_marker_app. }
    rewrite (callback_unfold _ _ Hs).
    unfold split_marker. rewrite (split_stream _ _ Hg), callback_loop_skip.
    destruct (callback_loop_good (stream pre) pre [] st "" Hg) as [_ E2].
    destruct (callback_loop c client (stream pre) pre st "") as [st1 u1|]; [|reflexivity].
    simpl. destruct (E2 st1 u1 eq_refl) as [-> _].
    rewrite sapp_nil_l, (callback_unfold _ _ (startswith_marker_app r)).
    unfold split_marker. rewrite split_marker_cons, callback_loop_skip.
    apply callback_loop_quiet. exact Hq.
  - rewrite !sapp_assoc in *.
    unfold split_marker in Hq.
    rewrite (split_stream_marker _ _ _ Hg) in Hq. simpl in Hq.
    apply forallb_app_r in Hq.
    rewrite (callback_good_prefix st pre (l +:+ p) Hg Hq (stream pre +:+ marker +:+ l)).
    rewrite (callback_unfold _ _ (startswith_stream pre l)).
    unfold split_marker. rewrite (split_stream_marker _ _ _ Hg), callback_loop_skip.
    assert (Hf : marker_free l = true).
    { unfold partial_body in Hl. now apply andb_true_iff in Hl as [_ Hl]. }
    rewrite (split_free _ Hf).
    destruct (callback_loop_good (stream pre +:+ marker +:+ l) pre [l] st "" Hg) as [E1 E2].
    rewrite E1.
    destruct (callback_loop c client _ pre st "") as [st1 u1|]; [|reflexivity].
    cbn [cb_bind]. destruct (E2 st1 u1 eq_refl) as [-> _].
    rewrite (callback_loop_partial _ _ _ _ Hl). cbn [cb_bind].
    rewrite sapp_nil_l, sapp_assoc.
    rewrite (callback_unfold _ _ (startswith_marker_app (l +:+ p))).
    unfold split_marker. rewrite split_marker_cons, callback_loop_skip.
    apply callback_loop_quiet. exact Hq.
Qed.

Lemma feed_all_snoc ps p (s : State * string) :
  feed_all c client (ps ++ [p]) s =
  cb_bind (feed_all c client ps s) (fun st u => feed c client p (st, u)).
Proof.
  revert s. induction ps as [|d ps IH]; intros [st0 u0]; simpl.
  - destruct (feed c client p (st0, u0)); reflexivity.
  - destruct (feed c client d (st0, u0)) as [st u|]; [apply IH|reflexivity].
Qed.

Lemma concat_reads_snoc ps p : concat_reads (ps ++ [p]) = concat_reads ps +:+ p.
Proof.
  induction ps as [|d ps IH]; simpl.
  - now rewrite sapp_nil_r, sapp_nil_l.
  - now rewrite IH, sapp_assoc.
Qed.

(** What has been received up to a safe cut is quiet. *)
Lemma safe_cut_quiet info x p :
  safe_cut info x p -> forallb quiet (split_marker x) = true.
Proof.
  intros [pre Hne Hg -> Hp | pre l Hg Hl ->]; unfold split_marker.
  - rewrite (split_stream _ _ Hg). simpl. exact (good_quiet _ _ Hg).
  - rewrite (split_stream_marker _ _ _ Hg). simpl.
    rewrite forallb_app, (good_quiet _ _ Hg). simpl.
    assert (Hf : marker_free l = true).
    { unfold partial_body in Hl. now apply andb_true_iff in Hl as [_ Hl]. }
    rewrite (split_free _ Hf). simpl.
    unfold partial_body in Hl. apply andb_true_iff in Hl as [Hl _].
    apply andb_true_iff in Hl as [_ Hl]. unfold quiet. rewrite Hl.
    now rewrite orb_true_r.
Qed.

(** Claim C4, with the side conditions it needs. A stream that arrives
    in several reads leaves the supervisor in the state, and with the
    leftover, of the same stream arriving in one read, provided that
    every boundary between two reads is a [safe_cut]: what has been
    received before it is a non-empty run of complete, known,
    authorized commands, followed either by nothing (and the next read
    opens with the marker [aiwc.]) or by a whole marker and a non-empty
    part of the next body that does not end in a closing parenthesis;
    and provided that every fragment of the whole stream is [quiet]
    (empty, incomplete, or of a known kind). *)
Theorem reads_as_one (st : State) (reads : list string) :
  reads <> [] ->
  (forall k, (0 < k < List.length reads)%nat ->
             safe_cut (role_info st) (concat_reads (firstn k reads)) (List.nth k reads "")) ->
  forallb quiet (split_marker (concat_reads reads)) = true ->
  feed_all c client reads (st, "") = feed c client (concat_reads reads) (st, "").
Proof.
  induction reads as [|p ps IH] using rev_ind; intros Hne Hcuts Hq; [contradiction|].
  rewrite feed_all_snoc, concat_reads_snoc.
  destruct ps as [|d ps'] eqn:Eps.
  - simpl. rewrite !sapp_nil_l. destruct (feed c client p (st, "")); reflexivity.
  - rewrite <- Eps in *.
    assert (Hlen : (0 < List.length ps < List.length (ps ++ [p]))%nat).
    { rewrite length_app. subst ps. simpl. lia. }
    pose proof (Hcuts _ Hlen) as Hcut.
    rewrite firstn_app, Nat.sub_diag, firstn_all in Hcut. simpl in Hcut.
    rewrite app_nil_r in Hcut.
    rewrite app_nth2, Nat.sub_diag in Hcut by lia. simpl in Hcut.
    rewrite IH.
    + unfold feed at 1 3. simpl. rewrite !sapp_nil_l.
      rewrite concat_reads_snoc in Hq.
      rewrite <- (feed_two st _ p Hcut Hq).
      destruct (callback c client (concat_reads ps) st); reflexivity.
    + subst ps. discriminate.
    + intros k Hk.
      assert (Hk' : (0 < k < List.length (ps ++ [p]))%nat) by (rewrite length_app; simpl; lia).
      specialize (Hcuts k Hk').
      rewrite firstn_app in Hcuts.
      replace (k - List.length ps)%nat with 0%nat in Hcuts by lia.
      simpl in Hcuts. rewrite app_nil_r in Hcuts.
      rewrite app_nth1 in Hcuts by lia. exact Hcuts.
    + eapply safe_cut_quiet. exact Hcut.
Qed.

End CallbackFacts.

(** Claim C4 fails for arbitrary boundaries: [aiwc.ready("KEYRED")]
    sent in one read sets the ready flag of team red; sent one
    character per read, every read is dropped (the first ones do not
    start with the marker, the later ones are not stitched to it) and
    the flag stays unset. *)
Lemma byte_by_byte_differs :
  let reads := bytes_of (Toy.rpc "ready" "KEYRED" ")") in
  feed_all Toy.consts 7%nat reads (Toy.state0 0, "")
  <> feed Toy.consts 7%nat (concat_reads reads) (Toy.state0 0, "").
Proof.
  intros reads H.
  apply (f_equal (fun r => ready (cb_state r))) in H.
  vm_compute in H. discriminate H.
Qed.

Lemma reads_as_one_witness :
  Toy.three_reads <> []
  /\ forallb quiet (split_marker (concat_reads Toy.three_reads)) = true
  /\ feed_all Toy.consts 7%nat Toy.three_reads (Toy.state0 0, "")
     = feed Toy.consts 7%nat (concat_reads Toy.three_reads) (Toy.state0 0, "").
Proof.
  split; [discriminate|]. split; [vm_compute; reflexivity|].
  apply reads_as_one.
  - discriminate.
  - intros k Hk.
    destruct k as [|[|[|k]]]; simpl in Hk; try lia.
    + apply cut_between with (pre := ["ready(" +:+ dquote +:+ "KEYRED" +:+ dquote +:+ ")"]);
        [discriminate | vm_compute; reflexivity ..].
    + apply cut_inside with (pre := ["ready(" +:+ dquote +:+ "KEYRED" +:+ dquote +:+ ")"])
                            (l := "get_");
        vm_compute; reflexivity.
  - vm_compute. reflexivity.
Defined.

(** Claim C1 does not hold of the code. The key [WRONG] matches no
    role; [get_role] writes its error and returns [-1], and [callback]
    goes on with that role: [aiwc.ready("WRONG")] sets [ready[-1]], the
    ready flag of the reporter, and
    [aiwc.set_speeds("WRONG",1,...,1)] drives the five robots of
    [robot[-1]], team blue. *)
Lemma unregistered_key_is_processed :
  let st := Toy.state0 0 in
  forallb (fun role => negb (key_matches st "WRONG" role)) ROLES = true
  /\ (exists st',
        callback Toy.consts 7%nat (Toy.rpc "ready" "WRONG" ")") st = CbOk st' ""
        /\ ready st = [false; false; false; false]
        /\ ready st' = [false; false; false; true]
        /\ stderr st' = ["Error: get_role: invalid key.";
                         "Error: get_role_name: Invalid role."])
  /\ (exists st',
        callback Toy.consts 7%nat
          (Toy.rpc "set_speeds" "WRONG" ",1,1,1,1,1,1,1,1,1,1)") st = CbOk st' ""
        /\ Toy.custom (world st) = []
        /\ Toy.custom (world st') =
             [(RobotNode TEAM_BLUE 4, "moving"); (RobotNode TEAM_BLUE 3, "moving");
              (RobotNode TEAM_BLUE 2, "moving"); (RobotNode TEAM_BLUE 1, "moving");
              (RobotNode TEAM_BLUE 0, "moving")]).
Proof.
  split; [vm_compute; reflexivity|]. split.
  - eexists. split; [vm_compute; reflexivity|].
    split; [|split]; vm_compute; reflexivity.
  - eexists. split; [vm_compute; reflexivity|].
    split; vm_compute; reflexivity.
Qed.

(** Claim C5 does not hold of the code. [aiwc.ready("KEYRED")] alone
    sets the ready flag of team red. Received in one read behind a
    command that is refused for its role (a [set_speeds] with the
    commentator's key, a [commentate] or a [report] with team red's
    key), it is never looked at: the refusal writes its one warning
    and returns from [callback], and the flag stays unset. *)
Lemma rejected_command_drops_the_rest :
  let st := Toy.state0 0 in
  let ready_red := Toy.rpc "ready" "KEYRED" ")" in
  let after first := callback Toy.consts 7%nat (first +:+ ready_red) st in
  let dropped r :=
    exists st', r = CbOk st' ""
                /\ ready st' = [false; false; false; false]
                /\ List.length (stderr st') = 1%nat in
  (exists st', callback Toy.consts 7%nat ready_red st = CbOk st' ""
               /\ ready st' = [true; false; false; false])
  /\ dropped (after (Toy.rpc "set_speeds" "KEYCOM" ",0,0,0,0,0,0,0,0,0,0)"))
  /\ dropped (after (Toy.rpc "commentate" "KEYRED" ", hello)"))
  /\ dropped (after (Toy.rpc "report" "KEYRED" ", hello)")).
Proof.
  cbv zeta. split; [|split; [|split]]; eexists;
    (split; [vm_compute; reflexivity|]); try split; vm_compute; reflexivity.
Qed.

Section GetInfo.
Context {World SubImage : Type} `{!Backend World SubImage} `{!PyFloat}.
Variable c : Constants.
#[local] Abbreviation State := (State World SubImage).

Lemma resolve_red (info : gmap Z Info) i k :
  info !! TEAM_RED = Some i -> dict_get "key" i = Some (JStr k) ->
  resolve info k = TEAM_RED.
Proof.
  intros Hi Hk. unfold resolve, ROLES. simpl. rewrite Hi, Hk, String.eqb_refl. reflexivity.
Qed.


End GetInfo.


(** * The ownership rule *)

Lemma Qlt_bool_iff a b : Qlt_bool a b = true <-> (a < b)%Q.
Proof.
  unfold Qlt_bool. rewrite negb_true_iff.
  destruct (Qle_bool b a) eqn:E.
  - apply Qle_bool_iff in E. split; [discriminate|]. intros H.
    exfalso. exact (Qlt_not_le _ _ H E).
  - split; [intros _|reflexivity].
    apply Qnot_le_lt. intros H. apply Qle_bool_iff in H. congruence.
Qed.

(** Dividing both sides by the same positive count keeps the order. *)
Lemma Qlt_bool_div a b n :
  (0 < n)%Q -> Qlt_bool (a / n) (b / n) = Qlt_bool a b.
Proof.
  intros Hn. apply eq_true_iff_eq. rewrite !Qlt_bool_iff.
  unfold Qdiv. pose proof (Qinv_lt_0_compat _ Hn) as Hi.
  split; intros H.
  - apply (Qmult_lt_r _ _ (/ n)); assumption.
  - apply Qmult_lt_r; assumption.
Qed.

Lemma foldl_ext_eq {A B} (f g : A -> B -> A) l a :
  (forall a b, f a b = g a b) -> foldl f a l = foldl g a l.
Proof.
  intros E. revert a. induction l as [|x l IH]; intros a; simpl; [reflexivity|].
  now rewrite E, IH.
Qed.

Section Tally.
Variable P : Z -> nat -> bool.
Variable D : Z -> nat -> Q.

Lemma tally_step_red c0 c1 d0 d1 id :
  tally_step P D ((c0, c1), (d0, d1)) (TEAM_RED, id) =
  if P TEAM_RED id then ((Z.succ c0, c1), ((d0 + D TEAM_RED id)%Q, d1))
  else ((c0, c1), (d0, d1)).
Proof. reflexivity. Qed.

Lemma tally_step_blue c0 c1 d0 d1 id :
  tally_step P D ((c0, c1), (d0, d1)) (TEAM_BLUE, id) =
  if P TEAM_BLUE id then ((c0, Z.succ c1), (d0, (d1 + D TEAM_BLUE id)%Q))
  else ((c0, c1), (d0, d1)).
Proof. reflexivity. Qed.

Lemma tally_red ids c0 c1 d0 d1 :
  foldl (tally_step P D) ((c0, c1), (d0, d1)) (List.map (fun id => (TEAM_RED, id)) ids) =
  ((c0 + Z.of_nat (List.length (List.filter (P TEAM_RED) ids)), c1),
   (foldl (fun a id => (a + D TEAM_RED id)%Q) d0 (List.filter (P TEAM_RED) ids), d1)).
Proof.
  revert c0 d0. induction ids as [|id ids IH]; intros c0 d0.
  - cbn. now rewrite Z.add_0_r.
  - cbn [List.map foldl List.filter]. rewrite tally_step_red.
    destruct (P TEAM_RED id); rewrite IH; [|reflexivity].
    cbn [List.length foldl]. f_equal. f_equal. lia.
Qed.

Lemma tally_blue ids c0 c1 d0 d1 :
  foldl (tally_step P D) ((c0, c1), (d0, d1)) (List.map (fun id => (TEAM_BLUE, id)) ids) =
  ((c0, c1 + Z.of_nat (List.length (List.filter (P TEAM_BLUE) ids))),
   (d0, foldl (fun a id => (a + D TEAM_BLUE id)%Q) d1 (List.filter (P TEAM_BLUE) ids))).
Proof.
  revert c1 d1. induction ids as [|id ids IH]; intros c1 d1.
  - cbn. now rewrite Z.add_0_r.
  - cbn [List.map foldl List.filter]. rewrite tally_step_blue.
    destruct (P TEAM_BLUE id); rewrite IH; [|reflexivity].
    cbn [List.length foldl]. f_equal. f_equal. lia.
Qed.

Lemma tally_all :
  foldl (tally_step P D) ((0, 0), (0%Q, 0%Q)) all_robots =
  ((Z.of_nat (List.length (List.filter (P TEAM_RED) (seq 0 NUMBER_OF_ROBOTS))),
    Z.of_nat (List.length (List.filter (P TEAM_BLUE) (seq 0 NUMBER_OF_ROBOTS)))),
   (foldl (fun a id => (a + D TEAM_RED id)%Q) 0%Q
      (List.filter (P TEAM_RED) (seq 0 NUMBER_OF_ROBOTS)),
    foldl (fun a id => (a + D TEAM_BLUE id)%Q) 0%Q
      (List.filter (P TEAM_BLUE) (seq 0 NUMBER_OF_ROBOTS)))).
Proof.
  unfold all_robots, TEAMS. cbn [flat_map]. rewrite app_nil_r, foldl_app.
  rewrite tally_red, tally_blue. reflexivity.
Qed.

End Tally.

Lemma foldl_sum_nil_or_pos (l : list nat) :
  l = [] \/ (0 < inject_Z (Z.of_nat (List.length l)))%Q.
Proof.
  destruct l; [now left|right]. simpl List.length.
  unfold Qlt. simpl. lia.
Qed.

Section Ownership.
Context {World SubImage : Type} `{!Backend World SubImage} `{!PyFloat}.
Variable c : Constants.
#[local] Abbreviation State := (State World SubImage).

(** The decision taken on the sums of distances is the rule taken on
    the averages. *)
Lemma decision_on_sums (region : State -> Q -> Q -> bool) (st : State) (ball_x : Q) :
  (if robot_count c region st TEAM_RED >? robot_count c region st TEAM_BLUE then 0
   else if robot_count c region st TEAM_BLUE >? robot_count c region st TEAM_RED then 1
   else if Qlt_bool (total_distance c region st TEAM_RED) (total_distance c region st TEAM_BLUE) then 0
   else if Qlt_bool (total_distance c region st TEAM_BLUE) (total_distance c region st TEAM_RED) then 1
   else if Qlt_bool 0 ball_x then 0 else 1)
  = ownership_rule (robot_count c region st TEAM_RED) (robot_count c region st TEAM_BLUE)
      (average_distance c region st TEAM_RED) (average_distance c region st TEAM_BLUE) ball_x.
Proof.
  unfold ownership_rule, average_distance.
  destruct (_ >? _) eqn:E1; [reflexivity|].
  destruct (robot_count c region st TEAM_BLUE >? _) eqn:E2; [reflexivity|].
  assert (En : robot_count c region st TEAM_RED = robot_count c region st TEAM_BLUE) by lia.
  rewrite En.
  unfold robot_count in *.
  destruct (foldl_sum_nil_or_pos (members c region st TEAM_BLUE)) as [Hb|Hpos].
  - assert (Hr : members c region st TEAM_RED = []).
    { rewrite Hb in En. simpl in En. destruct (members c region st TEAM_RED); [reflexivity|].
      simpl in En. lia. }
    unfold total_distance. rewrite Hb, Hr. reflexivity.
  - rewrite !(Qlt_bool_div _ _ _ Hpos). reflexivity.
Qed.


End Ownership.

(** * Frame mirroring *)

Lemma Qopp_opp_eq (x : Q) : (- - x)%Q = x.
Proof. destruct x as [n d]. unfold Qopp. simpl. now rewrite Z.opp_involutive. Qed.

Section MirrorFacts.
Context {SubImage : Type}.
Variable c : Constants.

Lemma remap_reason_involutive rr :
  SCORE_RED_TEAM c = Game_SCORE_MYTEAM c ->
  SCORE_BLUE_TEAM c = Game_SCORE_OPPONENT c ->
  remap_reason c (remap_reason c rr) = rr.
Proof.
  intros Hr Hb. unfold remap_reason. rewrite <- Hr, <- Hb.
  destruct (rr =? SCORE_RED_TEAM c) eqn:E1.
  - apply Z.eqb_eq in E1. subst rr.
    destruct (SCORE_BLUE_TEAM c =? SCORE_RED_TEAM c) eqn:E2.
    + now apply Z.eqb_eq in E2.
    + now rewrite Z.eqb_refl.
  - destruct (rr =? SCORE_BLUE_TEAM c) eqn:E2.
    + apply Z.eqb_eq in E2. subst rr. now rewrite Z.eqb_refl.
    + now rewrite E1, E2.
Qed.

Lemma mirror_coord_twice rc :
  coord_shifted (2 * PI c) rc (mirror_coord c (mirror_coord c rc)).
Proof.
  destruct rc as [[[[x y] th] a] t]. simpl.
  rewrite !Qopp_opp_eq. repeat split; try reflexivity. ring.
Qed.

Lemma mirror_block_twice (l : list RobotCoord) :
  Forall2 (coord_shifted (2 * PI c)) l
          (List.map (mirror_coord c) (List.map (mirror_coord c) l)).
Proof.
  induction l as [|rc l IH]; constructor; [apply mirror_coord_twice|exact IH].
Qed.

(** Claim C8, with the headings as the code leaves them. Mirroring a
    frame twice gives back its time, score, reset reason, game state,
    ownership flag, half flag, subimages, ball coordinates and, for
    every robot of both blocks, its x, y and two flags exactly; each
    heading comes back increased by [2 * PI]. The reset reasons are
    recovered when [SCORE_RED_TEAM] and [SCORE_BLUE_TEAM] are the codes
    of [Game.SCORE_MYTEAM] and [Game.SCORE_OPPONENT]. *)
Theorem mirror_twice (f : Frame SubImage) :
  SCORE_RED_TEAM c = Game_SCORE_MYTEAM c ->
  SCORE_BLUE_TEAM c = Game_SCORE_OPPONENT c ->
  let g := mirror_frame c (mirror_frame c f) in
  f_time g = f_time f
  /\ f_score g = f_score f
  /\ f_reset_reason g = f_reset_reason f
  /\ f_game_state g = f_game_state f
  /\ f_ball_ownership g = f_ball_ownership f
  /\ f_half_passed g = f_half_passed f
  /\ f_subimages g = f_subimages f
  /\ f_coord_ball g = f_coord_ball f
  /\ Forall2 (coord_shifted (2 * PI c)) (f_coord_my f) (f_coord_my g)
  /\ Forall2 (coord_shifted (2 * PI c)) (f_coord_op f) (f_coord_op g).
Proof.
  intros Hr Hb g. subst g. destruct f as [t [s1 s2] rr gs own hp sub my op [bx by_] eof].
  simpl. rewrite !Qopp_opp_eq, negb_involutive, (remap_reason_involutive rr Hr Hb).
  repeat split; try reflexivity; apply mirror_block_twice.
Qed.

End MirrorFacts.

Section FrameFacts.
Context {World SubImage : Type} `{!Backend World SubImage} `{!PyFloat}.
Variable c : Constants.
#[local] Abbreviation State := (State World SubImage).

Lemma posture_after_image (st : State) cam t team id :
  images_keep_poses World SubImage ->
  get_robot_posture c (set_world (snd (update_image cam t (world st))) st) team id
  = get_robot_posture c st team id.
Proof.
  intros K. unfold get_robot_posture. simpl.
  destruct (K cam t (world st) (RobotNode team id)) as [-> Ho].
  rewrite !Ho. reflexivity.
Qed.

(** The frame of team blue is the mirror image of the frame of team
    red, with the subimages of its own camera. *)
Lemma blue_frame_is_mirror (st : State) rr :
  images_keep_poses World SubImage ->
  ball_ownership st = TEAM_RED \/ ball_ownership st = TEAM_BLUE ->
  let red := fst (generate_frame c TEAM_RED rr st) in
  let blue := fst (generate_frame c TEAM_BLUE rr st) in
  mirror_frame c red =
  mkFrame (f_time blue) (f_score blue) (f_reset_reason blue) (f_game_state blue)
          (f_ball_ownership blue) (f_half_passed blue) (f_subimages red)
          (f_coord_my blue) (f_coord_op blue) (f_coord_ball blue) (f_EOF blue).
Proof.
  intros K Hown. unfold generate_frame.
  change (TEAM_RED =? TEAM_RED) with true. change (TEAM_BLUE =? TEAM_RED) with false.
  change (TEAM_BLUE =? TEAM_BLUE) with true. change (TEAM_RED =? TEAM_BLUE) with false.
  cbv iota.
  destruct (update_image CamA _ _) as [subA wA] eqn:EA.
  destruct (update_image CamB _ _) as [subB wB] eqn:EB.
  unfold mirror_frame. simpl.
  assert (PA : forall team id, get_robot_posture c (set_world wA st) team id
                               = get_robot_posture c st team id).
  { intros. replace wA with (snd (update_image CamA (getTime (world st)) (world st)))
      by now rewrite EA. now apply posture_after_image. }
  assert (PB : forall team id, get_robot_posture c (set_world wB st) team id
                               = get_robot_posture c st team id).
  { intros. replace wB with (snd (update_image CamB (getTime (world st)) (world st)))
      by now rewrite EB. now apply posture_after_image. }
  rewrite !PA, !PB.
  assert (Eo : negb (ball_ownership st =? TEAM_RED) = (ball_ownership st =? TEAM_BLUE))
    by (destruct Hown as [-> | ->]; reflexivity).
  rewrite Eo. unfold remap_reason.
  repeat match goal with
         | |- context [get_robot_posture c st ?t ?i] =>
             destruct (get_robot_posture c st t i) as [[[? ?] ?] ?]
         end.
  reflexivity.
Qed.

End FrameFacts.


(** * The robot table *)

Lemma in_all_robots team id :
  In (team, id) all_robots <->
  (team = TEAM_RED \/ team = TEAM_BLUE) /\ (id < NUMBER_OF_ROBOTS)%nat.
Proof.
  unfold all_robots, TEAMS, TEAM_RED, TEAM_BLUE, NUMBER_OF_ROBOTS. simpl. split.
  - intros H. repeat (destruct H as [H|H]; [injection H as <- <-; split; [auto|lia]|]).
    contradiction.
  - intros [[-> | ->] Hid];
      destruct id as [|[|[|[|[|id]]]]]; try lia; simpl; tauto.
Qed.

Section Table.
Context {World SubImage : Type} `{!Backend World SubImage} `{!PyFloat}.
#[local] Abbreviation State := (State World SubImage).
#[local] Abbreviation local_body := (@local_body World SubImage).
#[local] Abbreviation pass := (@pass World SubImage).

Lemma robots_ok_row (st : State) team id :
  robots_ok st = true -> In (team, id) all_robots ->
  (Z.to_nat team < List.length (robot st))%nat
  /\ (id < List.length (robot st !!! Z.to_nat team))%nat.
Proof.
  unfold robots_ok. rewrite andb_true_iff, Nat.eqb_eq, forallb_forall.
  intros [Hl Hrows] Hin. apply in_all_robots in Hin as [Ht Hid].
  assert (Hlt : (Z.to_nat team < List.length (robot st))%nat).
  { rewrite Hl. destruct Ht as [-> | ->]; vm_compute; lia. }
  split; [exact Hlt|].
  destruct (lookup_lt_is_Some_2 _ _ Hlt) as [row Hrow].
  rewrite (list_lookup_total_correct _ _ _ Hrow).
  assert (Hr : In row (robot st)).
  { apply list_elem_of_In. eapply list_elem_of_lookup_2. exact Hrow. }
  apply Hrows in Hr. apply Nat.eqb_eq in Hr. rewrite Hr. exact Hid.
Qed.

Lemma robot_at_upd_same (st : State) team id f :
  robots_ok st = true -> In (team, id) all_robots ->
  robot_at (upd_robot team id f st) team id = f (robot_at st team id).
Proof.
  intros Hok Hin. destruct (robots_ok_row st team id Hok Hin) as [H1 H2].
  unfold robot_at, upd_robot. simpl.
  rewrite list_lookup_total_alter_eq by exact H1.
  now rewrite list_lookup_total_alter_eq by exact H2.
Qed.

Lemma robot_at_upd_other (st : State) team id team' id' f :
  In (team, id) all_robots -> In (team', id') all_robots ->
  (team, id) <> (team', id') ->
  robot_at (upd_robot team id f st) team' id' = robot_at st team' id'.
Proof.
  intros Hin Hin' Hne.
  apply in_all_robots in Hin as [Ht _]. apply in_all_robots in Hin' as [Ht' _].
  unfold robot_at, upd_robot. simpl.
  destruct (decide (team = team')) as [<-|Hd].
  - assert (id <> id') by (intros ->; now apply Hne).
    rewrite list_lookup_total_alter. case_decide; [|reflexivity].
    now rewrite list_lookup_total_alter_ne.
  - rewrite list_lookup_total_alter_ne; [reflexivity|].
    destruct Ht as [-> | ->], Ht' as [-> | ->];
      try (exfalso; apply Hd; reflexivity); vm_compute; lia.
Qed.

Lemma robots_ok_upd (st : State) team id f :
  robots_ok (upd_robot team id f st) = robots_ok st.
Proof.
  unfold robots_ok, upd_robot. simpl. rewrite length_alter. f_equal.
  generalize (Z.to_nat team) as n. induction (robot st) as [|row l IH]; intros n.
  - reflexivity.
  - destruct n as [|n]; simpl.
    + now rewrite length_alter.
    + f_equal. apply IH.
Qed.


Lemma pass_local body l (st : State) team id :
  local_body body ->
  (forall p, In p l -> In p all_robots) ->
  In (team, id) all_robots ->
  ~ In (team, id) l ->
  time (pass body l st) = time st
  /\ robots_ok (pass body l st) = robots_ok st
  /\ robot_at (pass body l st) team id = robot_at st team id.
Proof.
  intros Hloc. revert st. induction l as [|[t' i'] l IH]; intros st Hsub Hin Hnot.
  - repeat split.
  - assert (Hin' : In (t', i') all_robots) by (apply Hsub; now left).
    destruct (Hloc t' i' st Hin') as (Ht & Hok & Hr).
    destruct (IH (body t' i' st)) as (Ht2 & Hok2 & Hr2).
    + intros p Hp. apply Hsub. now right.
    + exact Hin.
    + intros Hp. apply Hnot. now right.
    + unfold pass in *. simpl. rewrite Ht2, Hok2, Hr2. repeat split; try assumption.
      apply Hr; [exact Hin|]. intros E. apply Hnot. left. exact E.
Qed.

(** Where a robot stands in the order of a pass. *)
Lemma all_robots_split team id :
  In (team, id) all_robots ->
  all_robots = visited_before team id ++ (team, id) :: visited_after team id
  /\ ~ In (team, id) (visited_before team id)
  /\ ~ In (team, id) (visited_after team id).
Proof.
  intros Hin. apply in_all_robots in Hin as [Ht Hid].
  unfold NUMBER_OF_ROBOTS in Hid.
  destruct Ht as [-> | ->];
    destruct id as [|[|[|[|[|id]]]]]; try lia;
    (split; [reflexivity|]);
    split; vm_compute; intros Hx;
    repeat (destruct Hx as [Hx|Hx]; [discriminate Hx|]); exact Hx.
Qed.

Lemma pass_split body before after team id (st : State) :
  pass body (before ++ (team, id) :: after) st =
  pass body after (body team id (pass body before st)).
Proof. unfold pass. now rewrite foldl_app. Qed.


Lemma robot_at_upd_proj {A} (proj : Robot -> A) f (st : State) team id team' id' :
  (forall r, proj (f r) = proj r) ->
  proj (robot_at (upd_robot team id f st) team' id') = proj (robot_at st team' id').
Proof.
  intros Hf. unfold robot_at, upd_robot. simpl.
  rewrite list_lookup_total_alter. case_decide as Hd; [|reflexivity].
  destruct Hd as [<- _].
  rewrite list_lookup_total_alter. case_decide as Hd; [|reflexivity].
  destruct Hd as [<- _]. apply Hf.
Qed.

End Table.

Section Checks.
Context {World SubImage : Type} `{!Backend World SubImage} `{!PyFloat}.
Variable c : Constants.
#[local] Abbreviation State := (State World SubImage).
#[local] Abbreviation local_body := (@local_body World SubImage).
#[local] Abbreviation pass := (@pass World SubImage).

Lemma teleport_keeps posture team id (st : State) :
  time (teleport c team id posture st) = time st
  /\ robot (teleport c team id posture st) = robot st
  /\ half_passed (teleport c team id posture st) = half_passed st.
Proof. destruct posture as [[px pz] pth]. repeat split. Qed.

Lemma teleport_world posture team id (st : State) f :
  world (teleport c team id posture (upd_robot team id f st))
  = world (teleport c team id posture st).
Proof. destruct posture as [[px pz] pth]. reflexivity. Qed.

Lemma robot_at_teleport posture team id (st : State) team' id' :
  robot_at (teleport c team id posture st) team' id' = robot_at st team' id'.
Proof. destruct posture as [[px pz] pth]. reflexivity. Qed.

Lemma robots_ok_teleport posture team id (st : State) :
  robots_ok (teleport c team id posture st) = robots_ok st.
Proof. destruct posture as [[px pz] pth]. reflexivity. Qed.

Ltac local_tac :=
  repeat first
    [ rewrite robots_ok_upd
    | rewrite robots_ok_teleport
    | rewrite robot_at_teleport
    | rewrite robot_at_upd_other by assumption ];
  try reflexivity.

Lemma fall_check_local : local_body (fall_check_robot c).
Proof.
  intros t' i' st Hin. unfold fall_check_robot, send_to_foulzone.
  destruct (_ && _); [|destruct (snd _)].
  - split; [destruct (ROBOT_FOUL_POSTURE c i') as [[? ?] ?]; reflexivity|].
    split; [local_tac|]. intros team id Hin2 Hne. local_tac.
  - split; [reflexivity|]. split; [local_tac|]. intros team id Hin2 Hne. local_tac.
  - repeat split.
Qed.

Lemma sentout_check_local : local_body (sentout_check_robot c).
Proof.
  intros t' i' st Hin. unfold sentout_check_robot, return_to_field.
  destruct (_ =? 0); [repeat split|].
  destruct (_ <=? _); [|repeat split].
  destruct (ROBOT_FORMATION c FORMATION_DEFAULT i') as [[fx fy] fth] eqn:Ef.
  destruct (negb _); [|repeat split].
  split; [reflexivity|]. split; [local_tac|]. intros team id Hin2 Hne. local_tac.
Qed.



Lemma lock_all_proj {A} (proj : Robot -> A) locked (st : State) team id :
  (forall v r, proj (set_active v r) = proj r) ->
  proj (robot_at (lock_all_robots locked st) team id) = proj (robot_at st team id).
Proof.
  intros Hp. unfold lock_all_robots. generalize all_robots as l. intros l. revert st.
  induction l as [|[t i] l IH]; intros st; [reflexivity|].
  simpl. rewrite IH. apply robot_at_upd_proj. intros r. apply Hp.
Qed.

Lemma lock_all_world locked (st : State) :
  world (lock_all_robots locked st) = world st.
Proof.
  unfold lock_all_robots. generalize all_robots as l. intros l. revert st.
  induction l as [|[t i] l IH]; intros st; [reflexivity|].
  simpl. now rewrite IH.
Qed.

Lemma unlock_sentout (st : State) team id :
  sentout_time (robot_at (unlock st) team id) = sentout_time (robot_at st team id)
  /\ world (unlock st) = world st.
Proof.
  unfold unlock. split.
  - now rewrite (lock_all_proj sentout_time).
  - now rewrite lock_all_world.
Qed.

Lemma world_set_deadlock v (s : State) : world (set_deadlock_time v s) = world s.
Proof. reflexivity. Qed.

Lemma robot_at_set_deadlock v (s : State) team id :
  robot_at (set_deadlock_time v s) team id = robot_at s team id.
Proof. reflexivity. Qed.

Lemma corner_loop_sentout ids (s : State) team id :
  world (foldl (fun st i => if touch (robot_at st (ball_ownership st) i)
                            then unlock st else st) s ids) = world s
  /\ sentout_time (robot_at (foldl (fun st i =>
         if touch (robot_at st (ball_ownership st) i) then unlock st else st) s ids) team id)
     = sentout_time (robot_at s team id).
Proof.
  revert s. induction ids as [|i ids IH]; intros s; [now split|].
  cbn [foldl].
  destruct (touch (robot_at s (ball_ownership s) i)); [|apply IH].
  destruct (IH (unlock s)) as [E1 E2]. rewrite E1, E2.
  destruct (unlock_sentout s team id) as [Hu Hw]. split; assumption.
Qed.

(** The four set-piece phases never look at the sent-out timers. *)
Lemma set_piece_keeps_sentout basicTimeStep deadlock_flag (st : State) team id :
  game_state st <> STATE_DEFAULT ->
  exists st',
    phase_handler c basicTimeStep deadlock_flag st = Next st'
    /\ world st' = world st
    /\ sentout_time (robot_at st' team id) = sentout_time (robot_at st team id).
Proof.
  intros Hgs. unfold phase_handler.
  destruct (unlock_sentout st team id) as [Hu Hw].
  destruct (game_state st) eqn:E; [contradiction| | | |]; eexists; (split; [reflexivity|]).
  - unfold kickoff_phase. rewrite world_set_deadlock, robot_at_set_deadlock.
    destruct (_ <=? _); [split; assumption|].
    destruct (ball_position st) as [bx by_].
    destruct (Qlt_bool _ _); split; solve [assumption | reflexivity].
  - unfold goalkick_phase. rewrite world_set_deadlock, robot_at_set_deadlock.
    destruct (_ <=? _); [split; assumption|].
    destruct (touch _); split; solve [assumption | reflexivity].
  - unfold cornerkick_phase. rewrite world_set_deadlock, robot_at_set_deadlock.
    destruct (_ <=? _); [split; assumption|].
    apply corner_loop_sentout.
  - unfold penaltykick_phase. rewrite world_set_deadlock, robot_at_set_deadlock.
    destruct (_ <=? _); [split; assumption|].
    destruct (touch _); split; solve [assumption | reflexivity].
Qed.


End Checks.

(** * The score never decreases *)

Lemma score_le_refl l : score_le l l.
Proof. intros n. lia. Qed.

Lemma score_le_trans l1 l2 l3 : score_le l1 l2 -> score_le l2 l3 -> score_le l1 l3.
Proof. intros H1 H2 n. specialize (H1 n). specialize (H2 n). lia. Qed.

Lemma score_le_bump (l : list Z) i : score_le l (alter Z.succ i l).
Proof.
  intros n. rewrite list_lookup_total_alter. case_decide as Hd; [|lia].
  destruct Hd as [-> _]. lia.
Qed.

Section Score.
Context {World SubImage : Type} `{!Backend World SubImage} `{!PyFloat}.
Variable c : Constants.
Variable basicTimeStep : Z.
Variable repeat : bool.
Variable deadlock_flag : bool.
#[local] Abbreviation State := (State World SubImage).
#[local] Abbreviation Flow := (@Flow World SubImage).
#[local] Abbreviation mono := (@mono World SubImage).
#[local] Abbreviation keeps := (@keeps World SubImage).
#[local] Abbreviation keeps_opt := (@keeps_opt World SubImage).

Lemma mono_andthen (m k : State -> Flow) : mono m -> mono k -> mono (andthen m k).
Proof.
  intros Hm Hk st. unfold andthen. specialize (Hm st).
  destruct (m st) as [s|s|s|s]; simpl in *; try exact Hm.
  eapply score_le_trans; [exact Hm|apply Hk].
Qed.

Lemma mono_lift (f : State -> State) : keeps f -> mono (lift f).
Proof. intros Hf st. unfold lift. simpl. rewrite Hf. apply score_le_refl. Qed.

Lemma mono_lift_opt (f : State -> option State) : keeps_opt f -> mono (lift_opt f).
Proof.
  intros Hf st. unfold lift_opt. destruct (f st) as [s|] eqn:E; simpl.
  - rewrite (Hf _ _ E). apply score_le_refl.
  - apply score_le_refl.
Qed.

Lemma mono_next (f : State -> State) : keeps f -> mono (fun st => Next (f st)).
Proof. exact (mono_lift f). Qed.

Lemma mono_id : mono (fun st : State => Next st).
Proof. intros st. apply score_le_refl. Qed.

Lemma mono_step ms timer : mono (step basicTimeStep ms timer).
Proof.
  unfold step. generalize (range_len basicTimeStep ms) as n.
  induction n as [|n IH]; intros st; simpl; [apply score_le_refl|].
  destruct (sim_step basicTimeStep (world st)) as [w|]; [|apply score_le_refl].
  eapply score_le_trans; [|apply IH]. destruct timer; apply score_le_refl.
Qed.

Lemma foldl_keeps {A} (f : State -> A -> State) l :
  (forall x, keeps (fun st => f st x)) -> keeps (fun st => foldl f st l).
Proof.
  intros Hf. induction l as [|x l IH]; intros st; simpl; [reflexivity|].
  rewrite IH. apply Hf.
Qed.

Lemma foldl_keeps_opt {A} (f : State -> A -> option State) l :
  (forall x, keeps_opt (fun st => f st x)) ->
  keeps_opt (fun st => foldl (fun acc x => st ← acc; f st x) (Some st) l).
Proof.
  intros Hf.
  assert (G : forall l (acc : option State) (st0 : State),
             (forall s : State, acc = Some s -> score s = score st0) ->
             forall s' : State, foldl (fun acc x => st ← acc; f st x) acc l = Some s' ->
                        score s' = score st0).
  { clear l. induction l as [|x l IH]; intros acc st0 Hacc s' E; simpl in E.
    - now apply Hacc.
    - eapply IH; [|exact E]. intros s Hs. destruct acc as [a|]; simpl in Hs; [|discriminate].
      rewrite (Hf x a s Hs). now apply Hacc. }
  intros st st' E. eapply G; [|exact E]. now intros s [= <-].
Qed.

Lemma score_teleport posture team id (st : State) :
  score (teleport c team id posture st) = score st.
Proof. destruct posture as [[? ?] ?]. reflexivity. Qed.

Lemma keeps_set_speeds team speeds : keeps_opt (set_speeds c team speeds).
Proof.
  unfold set_speeds.
  apply (foldl_keeps_opt
           (fun st id =>
              row ← Py.nth (robot st) team;
              r ← row !! id;
              if active r then
                a ← speeds !! (id * 2)%nat;
                b ← speeds !! (id * 2 + 1)%nat;
                Some (set_world
                        (setSFString (RobotNode (if team =? TEAM_RED then TEAM_RED else TEAM_BLUE) id)
                           "customData"
                           (fmt_speeds (a / WHEEL_RADIUS c id) (b / WHEEL_RADIUS c id))
                           (world st)) st)
              else Some st)).
  intros id st st' E.
  destruct (Py.nth (robot st) team) as [row|]; simpl in E; [|discriminate].
  destruct (row !! id) as [r|]; simpl in E; [|discriminate].
  destruct (active r).
  - destruct (speeds !! (id * 2)%nat); simpl in E; [|discriminate].
    destruct (speeds !! (id * 2 + 1)%nat); simpl in E; [|discriminate].
    now injection E as <-.
  - now injection E as <-.
Qed.

Lemma keeps_stop_robots : keeps_opt (stop_robots c).
Proof.
  unfold stop_robots.
  apply (foldl_keeps_opt (fun st t => set_speeds c t zero_speeds st)).
  intros t. apply keeps_set_speeds.
Qed.

Lemma keeps_flush : keeps flush_touch_ball.
Proof. intros st. reflexivity. Qed.

Lemma keeps_reset_robot team id x y z th : keeps_opt (reset_robot c team id x y z th).
Proof.
  intros st st' E. unfold reset_robot in E.
  apply keeps_stop_robots in E. exact E.
Qed.

Lemma keeps_reset red blue : keeps_opt (reset c red blue).
Proof.
  intros st st' E. unfold reset in E.
  set (st0 := match ball_spot_of_formation c red with
              | Some (x, z) => reset_ball c x z st
              | None => st
              end) in E.
  assert (H0 : score st0 = score st).
  { subst st0. destruct (ball_spot_of_formation c red) as [[x z]|]; reflexivity. }
  destruct (foldl _ (Some st0) all_robots) as [s1|] eqn:E1; simpl in E; [|discriminate].
  injection E as <-. simpl. rewrite <- H0.
  revert E1.
  apply (foldl_keeps_opt
           (fun st '(team, id) =>
              let s : Q := if team =? TEAM_RED then 1%Q else (-1)%Q in
              let a : Q := if team =? TEAM_RED then 0%Q else PI c in
              let formation := if team =? TEAM_RED then red else blue in
              let '(fx, fy, fth) := ROBOT_FORMATION c formation id in
              reset_robot c team id (fx * s)%Q (ROBOT_HEIGHT c id / 2)%Q (fy * s)%Q
                (fth + a - PI c / 2)%Q st) all_robots).
  intros [team id] s s' Es. cbv zeta in Es.
  destruct (ROBOT_FORMATION c _ id) as [[fx fy] fth].
  eapply keeps_reset_robot. exact Es.
Qed.


Lemma keeps_lock locked : keeps (lock_all_robots locked).
Proof.
  unfold lock_all_robots.
  apply (foldl_keeps (fun st '(t, id) => upd_robot t id (set_active (negb locked)) st)).
  intros [t id] st. reflexivity.
Qed.

Lemma keeps_unlock : keeps unlock.
Proof. intros st. unfold unlock. now rewrite keeps_lock. Qed.

Lemma keeps_generate_frame team rr (st : State) :
  score (snd (generate_frame c team rr st)) = score st.
Proof.
  unfold generate_frame. destruct (update_image _ _ _) as [sub w]. reflexivity.
Qed.

Lemma keeps_publish rr : keeps (publish_current_frame c rr).
Proof.
  intros st. unfold publish_current_frame.
  pose proof (keeps_generate_frame TEAM_RED rr st) as H1.
  destruct (generate_frame c TEAM_RED rr st) as [fr st1]. simpl in H1.
  pose proof (keeps_generate_frame TEAM_BLUE rr st1) as H2.
  destruct (generate_frame c TEAM_BLUE rr st1) as [fb st2]. simpl in H2.
  rewrite <- H1, <- H2.
  apply (foldl_keeps
           (fun st role =>
              match role_client st !! role with
              | Some client =>
                  tcp_send client (PFrame (if role =? TEAM_BLUE then fb else fr)) st
              | None => st
              end)).
  intros role s. destruct (role_client s !! role); reflexivity.
Qed.

Lemma keeps_touch_fold touched l :
  keeps (fun st : State =>
           foldl (fun st '(team, id) =>
                    let v := (touched !!! Z.to_nat team) !!! id in
                    let st := upd_robot team id (set_touch v) st in
                    if v then set_recent_touch touched st else st) st l).
Proof.
  apply (foldl_keeps
           (fun st '(team, id) =>
              let v := (touched !!! Z.to_nat team) !!! id in
              let st := upd_robot team id (set_touch v) st in
              if v then set_recent_touch touched st else st)).
  intros [team id] s. cbv zeta. destruct (_ !!! id); reflexivity.
Qed.

Lemma keeps_update_touch : keeps_opt update_touch.
Proof.
  intros st st' E. unfold update_touch in E.
  destruct (get_robot_touch_ball st) as [[touched s1]|] eqn:E1; [|discriminate].
  cbv beta iota delta [mbind option_bind] in E. cbn [fst snd] in E.
  injection E as <-.
  assert (H1 : score s1 = score st).
  { unfold get_robot_touch_ball in E1.
    destruct (touch_loop _ _ _) as [[rc w]|]; [|discriminate].
    cbv beta iota delta [mbind option_bind] in E1. cbn [fst snd] in E1.
    now injection E1 as <- <-. }
  rewrite <- H1. apply (keeps_touch_fold touched all_robots s1).
Qed.

Lemma keeps_fall_check team id : keeps (fall_check_robot c team id).
Proof.
  intros st. unfold fall_check_robot, send_to_foulzone.
  destruct (_ && _); [|destruct (snd _); reflexivity].
  cbn [score upd_robot set_robot]. rewrite score_teleport. reflexivity.
Qed.

Lemma keeps_check_fallen : keeps (check_fallen c).
Proof.
  unfold check_fallen.
  apply (foldl_keeps (fun st '(team, id) => fall_check_robot c team id st)).
  intros [team id]. apply keeps_fall_check.
Qed.

Lemma keeps_check_left_field : keeps (check_left_field c).
Proof.
  unfold check_left_field.
  apply (foldl_keeps (fun st '(team, id) => field_check_robot c team id st)).
  intros [team id] st. unfold field_check_robot, send_to_foulzone.
  destruct (_ && _); [|reflexivity].
  cbn [score upd_robot set_robot]. rewrite score_teleport. reflexivity.
Qed.

Lemma keeps_check_opponent_area : keeps (check_opponent_area c).
Proof.
  unfold check_opponent_area.
  apply (foldl_keeps (fun st '(team, id) => iopa_check_robot c team id st)).
  intros [team id] st. unfold iopa_check_robot, return_to_field.
  destruct (get_robot_posture c st team id) as [[[px py] th] stand].
  destruct (_ || _); [|reflexivity].
  destruct (_ <=? _); [|reflexivity].
  destruct (ROBOT_FORMATION c FORMATION_DEFAULT id) as [[fx fy] fth].
  destruct (negb _); [|reflexivity].
  cbn [score upd_robot set_robot]. rewrite score_teleport. reflexivity.
Qed.

Lemma keeps_check_goalkeepers : keeps (check_goalkeepers c).
Proof.
  unfold check_goalkeepers.
  apply (foldl_keeps (fun st team => gk_check_team c team st)).
  intros team st. unfold gk_check_team, return_to_field.
  destruct (get_robot_posture c st team 0) as [[[px py] th] stand].
  destruct (_ || _); [reflexivity|].
  destruct (_ <=? _); [|reflexivity].
  destruct (ROBOT_FORMATION c FORMATION_DEFAULT 0) as [[fx fy] fth].
  destruct (negb _); [|reflexivity].
  cbn [score upd_robot set_robot]. rewrite score_teleport. reflexivity.
Qed.

Lemma keeps_check_sentout : keeps (check_sentout c).
Proof.
  unfold check_sentout.
  apply (foldl_keeps (fun st '(team, id) => sentout_check_robot c team id st)).
  intros [team id] st. unfold sentout_check_robot, return_to_field.
  destruct (_ =? 0); [reflexivity|].
  destruct (_ <=? _); [|reflexivity].
  destruct (ROBOT_FORMATION c FORMATION_DEFAULT id) as [[fx fy] fth].
  destruct (negb _); [|reflexivity].
  cbn [score upd_robot set_robot]. rewrite score_teleport. reflexivity.
Qed.

Lemma keeps_relocate pos : keeps (relocate_ball c pos).
Proof. intros st. unfold relocate_ball. destruct (BALL_POSTURE c pos). reflexivity. Qed.

Lemma keeps_check_penalty_area (st : State) :
  score (snd (check_penalty_area c st)) = score st.
Proof.
  unfold check_penalty_area. destruct (get_ball_position st) as [bx by_].
  destruct (_ || _); [reflexivity|].
  destruct (Qlt_bool bx 0); repeat (destruct (_ >? _); [reflexivity|]); reflexivity.
Qed.

Ltac mono_tac :=
  repeat first
    [ apply mono_andthen
    | apply mono_step
    | apply mono_lift_opt; first [apply keeps_stop_robots | apply keeps_reset | apply keeps_update_touch]
    | apply mono_lift;
      first [ apply keeps_lock | apply keeps_publish | apply keeps_check_fallen
            | apply keeps_check_left_field | apply keeps_check_opponent_area
            | apply keeps_check_goalkeepers | apply keeps_check_sentout
            | apply keeps_relocate | apply keeps_flush
            | (intros ?; reflexivity) ] ].

Lemma mono_restart_with red blue kicker : mono (restart_with c red blue kicker).
Proof. unfold restart_with. mono_tac. Qed.

Lemma mono_goal_branch ball_x : mono (goal_branch c basicTimeStep ball_x).
Proof.
  unfold goal_branch. apply mono_andthen.
  - intros st. unfold lift. simpl. apply score_le_bump.
  - mono_tac. intros st. destruct (_ =? _); apply mono_restart_with.
Qed.

Lemma mono_out_branch ball_x ball_y : mono (out_branch c basicTimeStep ball_x ball_y).
Proof.
  unfold out_branch. mono_tac.
  - apply mono_lift. intros st.
    repeat (destruct (_ >? _); [reflexivity|]). reflexivity.
  - intros st.
    destruct (Qlt_bool ball_x 0); destruct (_ =? _);
      try destruct (Qlt_bool 0 ball_y);
      revert st; mono_tac; apply mono_restart_with.
Qed.

Lemma mono_penalty_area_restart ball_x : mono (penalty_area_restart c ball_x).
Proof.
  intros st. unfold penalty_area_restart.
  repeat (destruct (_ && _); [revert st; mono_tac; apply mono_restart_with|]).
  revert st; mono_tac; apply mono_restart_with.
Qed.

Lemma mono_penalty_phase : mono (penalty_phase c basicTimeStep).
Proof.
  intros st. unfold penalty_phase.
  pose proof (keeps_check_penalty_area st) as Hk.
  destruct (check_penalty_area c st) as [hit st1]. simpl in Hk.
  rewrite <- Hk. destruct hit; [|apply score_le_refl].
  revert st1 Hk. intros st1 _. revert st1. mono_tac. apply mono_penalty_area_restart.
Qed.

Lemma mono_corner_deadlock ball_x ball_y :
  mono (corner_deadlock c basicTimeStep ball_x ball_y).
Proof.
  unfold corner_deadlock. mono_tac.
  intros st. destruct (Qlt_bool ball_x 0); destruct (Qlt_bool 0 ball_y);
    destruct (_ =? _); apply mono_lift_opt; apply keeps_reset.
Qed.

Lemma mono_general_deadlock ball_x ball_y :
  mono (general_deadlock c basicTimeStep ball_x ball_y).
Proof. unfold general_deadlock. mono_tac. Qed.

Lemma mono_deadlock_phase : mono (deadlock_phase c basicTimeStep deadlock_flag).
Proof.
  intros st. unfold deadlock_phase.
  destruct (_ && _); [|apply score_le_refl].
  destruct (Qle_bool _ _); [apply score_le_refl|].
  destruct (_ <=? _); [|apply score_le_refl].
  destruct (get_ball_position st) as [bx by_].
  destruct (Qlt_bool _ _); [|apply mono_general_deadlock].
  destruct (Qlt_bool _ _); [|apply mono_corner_deadlock].
  revert st. mono_tac. apply mono_penalty_area_restart.
Qed.

Lemma mono_default_phase : mono (default_phase c basicTimeStep deadlock_flag).
Proof.
  intros st. unfold default_phase. destruct (ball_position st) as [bx by_].
  revert st. mono_tac.
  - intros st. destruct (_ && _); [apply mono_goal_branch|].
    destruct (negb _); [apply mono_out_branch|apply score_le_refl].
  - apply mono_penalty_phase.
  - apply mono_deadlock_phase.
Qed.


Lemma keeps_kickoff : keeps (kickoff_phase c).
Proof.
  intros st. unfold kickoff_phase. cbn [score set_deadlock_time].
  destruct (_ <=? _); [apply keeps_unlock|].
  destruct (ball_position st) as [bx by_].
  destruct (Qlt_bool _ _); [apply keeps_unlock|reflexivity].
Qed.

Lemma keeps_goalkick : keeps (goalkick_phase c).
Proof.
  intros st. unfold goalkick_phase. cbn [score set_deadlock_time].
  destruct (_ <=? _); [apply keeps_unlock|].
  destruct (touch _); [apply keeps_unlock|reflexivity].
Qed.

Lemma keeps_cornerkick : keeps (cornerkick_phase c).
Proof.
  intros st. unfold cornerkick_phase. cbn [score set_deadlock_time].
  destruct (_ <=? _); [apply keeps_unlock|].
  apply (foldl_keeps
           (fun st id => if touch (robot_at st (ball_ownership st) id) then unlock st else st)).
  intros id s. destruct (touch _); [apply keeps_unlock|reflexivity].
Qed.

Lemma keeps_penaltykick : keeps (penaltykick_phase c).
Proof.
  intros st. unfold penaltykick_phase. cbn [score set_deadlock_time].
  destruct (_ <=? _); [apply keeps_unlock|].
  destruct (touch _); [apply keeps_unlock|reflexivity].
Qed.

Lemma mono_phase_handler : mono (phase_handler c basicTimeStep deadlock_flag).
Proof.
  intros st. unfold phase_handler. destruct (game_state st).
  - apply mono_default_phase.
  - apply (mono_next _ keeps_kickoff).
  - apply (mono_next _ keeps_goalkick).
  - apply (mono_next _ keeps_cornerkick).
  - apply (mono_next _ keeps_penaltykick).
Qed.

Lemma mono_referee_tick : mono (referee_tick c basicTimeStep deadlock_flag).
Proof. unfold referee_tick. mono_tac. apply mono_phase_handler. Qed.

(** Commands never touch the score. *)
Lemma keeps_get_role rpc (st : State) : score (snd (get_role rpc st)) = score st.
Proof. unfold get_role. destruct (List.find _ ROLES); reflexivity. Qed.

Lemma keeps_get_role_name role (st : State) :
  score (snd (get_role_name role st)) = score st.
Proof.
  unfold get_role_name. repeat (destruct (_ =? _); [reflexivity|]). reflexivity.
Qed.

Lemma keeps_process_command client message command (st : State) :
  score (cmd_state (process_command c client message command st)) = score st.
Proof.
  unfold process_command.
  pose proof (keeps_get_role command st) as Hr.
  destruct (get_role command st) as [role st1]. simpl in Hr. rewrite <- Hr.
  destruct (Py.startswith "get_info(" command).
  { match goal with |- context [get_role_name role ?s] =>
      pose proof (keeps_get_role_name role s) as Hn;
      destruct (get_role_name role s) as [name st2] end.
    simpl in Hn. destruct (role_info _ !! TEAM_RED); simpl; exact Hn. }
  destruct (Py.startswith "ready(" command).
  { destruct (Py.set_nth _ role true) as [flags|]; [|reflexivity].
    match goal with |- context [get_role_name role ?s] =>
      pose proof (keeps_get_role_name role s) as Hn;
      destruct (get_role_name role s) as [name st2] end.
    simpl in Hn |- *. rewrite Hn.
    destruct (role =? TEAM_RED); [reflexivity|]. destruct (role =? TEAM_BLUE); reflexivity. }
  destruct (Py.startswith "set_speeds(" command).
  { destruct (TEAM_BLUE <? role); [reflexivity|].
    destruct (parse_floats _) as [speeds|]; [|reflexivity].
    destruct (set_speeds c role speeds _) as [st2|] eqn:E; [|reflexivity].
    simpl. now rewrite (keeps_set_speeds _ _ _ _ E). }
  destruct (Py.startswith "commentate(" command).
  { destruct (negb _); reflexivity. }
  destruct (Py.startswith "report(" command).
  { destruct (negb _); reflexivity. }
  reflexivity.
Qed.

Lemma keeps_callback_loop client message data :
  forall (st : State) u,
    score (cb_state (callback_loop c client message data st u)) = score st.
Proof.
  induction data as [|command rest IH]; intros st u; [reflexivity|].
  simpl. destruct (String.eqb command ""); [apply IH|].
  destruct (negb _); [apply IH|].
  pose proof (keeps_process_command client message command st) as Hp.
  destruct (process_command c client message command st) as [s|s|s]; simpl in Hp |- *.
  - now rewrite IH.
  - exact Hp.
  - exact Hp.
Qed.

Lemma keeps_callback client message (st : State) :
  score (cb_state (callback c client message st)) = score st.
Proof.
  unfold callback. destruct (negb _); [reflexivity|]. apply keeps_callback_loop.
Qed.

Lemma mono_spin reads : mono (spin c reads).
Proof.
  induction reads as [|[client data] rest IH]; intros st; [apply score_le_refl|].
  simpl.
  pose proof (keeps_callback client (default "" (unprocessedData st !! client) +:+ data) st)
    as Hc.
  destruct (callback c client _ st) as [s u|s]; simpl in Hc.
  - eapply score_le_trans; [|apply IH]. simpl. rewrite Hc. apply score_le_refl.
  - simpl. rewrite Hc. apply score_le_refl.
Qed.

Lemma mono_game_over late_reads : mono (game_over c basicTimeStep repeat late_reads).
Proof.
  unfold game_over. mono_tac.
  - intros st. destruct repeat; simpl.
    + unfold episode_restart. cbn [score upd_world set_world set_half_passed set_reset_reason].
      rewrite keeps_publish. apply score_le_refl.
    + rewrite keeps_publish. apply score_le_refl.
  - apply mono_spin.
  - intros st. destruct repeat; apply score_le_refl.
Qed.

Lemma mono_half_time : mono (half_time c basicTimeStep).
Proof. unfold half_time. mono_tac. Qed.

Lemma mono_waiting : mono (waiting c basicTimeStep).
Proof.
  intros st. unfold waiting. destruct (forallb _ _); [|apply mono_step].
  revert st. mono_tac.
Qed.

Lemma mono_loop_iteration reads late_reads :
  mono (loop_iteration c basicTimeStep repeat deadlock_flag reads late_reads).
Proof.
  unfold loop_iteration. apply mono_andthen; [apply mono_spin|].
  intros st. destruct (negb _); [apply mono_waiting|].
  destruct (Qle_bool _ _).
  - destruct (half_passed _).
    + apply (mono_game_over late_reads (set_ball_position (get_ball_position st) st)).
    + apply (mono_half_time (set_ball_position (get_ball_position st) st)).
  - apply (mono_referee_tick (set_ball_position (get_ball_position st) st)).
Qed.

(** Claim C9. Along any run of the referee loop, whatever the
    clients send, neither team's score ever decreases. *)
Theorem score_never_decreases
    (inputs : list (list (Client * string) * list (Client * string))) (st : State) :
  forall team : Z,
    score_at st team
    <= score_at (flow_state (run_loop c basicTimeStep repeat deadlock_flag inputs st)) team.
Proof.
  revert st. induction inputs as [|[reads late] rest IH]; intros st team.
  - simpl. lia.
  - simpl. pose proof (mono_loop_iteration reads late st) as Hm.
    destruct (loop_iteration _ _ _ _ reads late st) as [s|s|s|s]; simpl in Hm |- *;
      try (apply (Hm (Z.to_nat team))).
    eapply Z.le_trans; [apply (Hm (Z.to_nat team))|apply IH].
Qed.

End Score.

(** * Restarts run to completion *)

Section Totality.
Context {World SubImage : Type} `{!Backend World SubImage} `{!PyFloat}.
Variable c : Constants.
Variable basicTimeStep : Z.
Variable deadlock_flag : bool.
#[local] Abbreviation State := (State World SubImage).
#[local] Abbreviation runs := (@runs World SubImage).

Lemma runs_fold {A} (f : State -> A -> option State) l :
  (forall x, In x l -> runs (fun st => f st x)) ->
  runs (fun st => foldl (fun acc x => st ← acc; f st x) (Some st) l).
Proof.
  induction l as [|x l IH] using rev_ind; intros Hf st Hok.
  - exists st. repeat split; assumption.
  - rewrite foldl_app. simpl.
    destruct (IH (fun y Hy => Hf y (in_or_app _ _ _ (or_introl Hy))) st Hok)
      as (s1 & -> & Hd1 & Hok1).
    assert (Hx : In x (l ++ [x])) by (apply in_or_app; right; now left).
    destruct (Hf x Hx s1 Hok1) as (s2 & E2 & Hd2 & Hok2).
    exists s2. simpl. split; [exact E2|]. split; [congruence|exact Hok2].
Qed.

Lemma py_nth_nonneg {A} (l : list A) (i : Z) :
  0 <= i -> (Z.to_nat i < List.length l)%nat -> Py.nth l i = l !! Z.to_nat i.
Proof.
  intros Hi Hlt. unfold Py.nth, Py.index.
  destruct (i <? 0) eqn:E; [apply Z.ltb_lt in E; lia|].
  assert (E2 : (0 <=? i) && (i <? Z.of_nat (List.length l)) = true).
  { apply andb_true_iff. split; [apply Z.leb_le|apply Z.ltb_lt]; lia. }
  now rewrite E2.
Qed.

Lemma runs_set_speeds team speeds :
  team = TEAM_RED \/ team = TEAM_BLUE ->
  (10 <= List.length speeds)%nat ->
  runs (set_speeds c team speeds).
Proof.
  intros Ht Hlen. unfold set_speeds.
  apply (runs_fold
           (fun st id =>
              row ← Py.nth (robot st) team;
              r ← row !! id;
              if active r then
                a ← speeds !! (id * 2)%nat;
                b ← speeds !! (id * 2 + 1)%nat;
                Some (set_world
                        (setSFString (RobotNode (if team =? TEAM_RED then TEAM_RED else TEAM_BLUE) id)
                           "customData"
                           (fmt_speeds (a / WHEEL_RADIUS c id) (b / WHEEL_RADIUS c id))
                           (world st)) st)
              else Some st)).
  intros id Hid st Hok. apply in_seq in Hid.
  assert (Hin : In (team, id) all_robots) by (apply in_all_robots; split; [exact Ht|lia]).
  destruct (robots_ok_row st team id Hok Hin) as [H1 H2].
  assert (Hnth : Py.nth (robot st) team = Some (robot st !!! Z.to_nat team)).
  { rewrite py_nth_nonneg; [now apply list_lookup_lookup_total_lt| |exact H1].
    destruct Ht as [-> | ->]; unfold TEAM_RED, TEAM_BLUE; lia. }
  rewrite Hnth. simpl.
  rewrite (list_lookup_lookup_total_lt _ _ H2). simpl.
  destruct (active _); [|exists st; repeat split; assumption].
  destruct (lookup_lt_is_Some_2 speeds (id * 2)%nat ltac:(unfold NUMBER_OF_ROBOTS in *; lia))
    as [a ->].
  destruct (lookup_lt_is_Some_2 speeds (id * 2 + 1)%nat ltac:(unfold NUMBER_OF_ROBOTS in *; lia))
    as [b ->].
  simpl. eexists. split; [reflexivity|]. split; [reflexivity|exact Hok].
Qed.

Lemma runs_stop_robots : runs (stop_robots c).
Proof.
  unfold stop_robots.
  apply (runs_fold (fun st t => set_speeds c t zero_speeds st)).
  intros t Ht. apply runs_set_speeds.
  - unfold TEAMS in Ht. destruct Ht as [<-|[<-|[]]]; auto.
  - simpl. lia.
Qed.

Lemma runs_reset_robot team id x y z th : runs (reset_robot c team id x y z th).
Proof.
  intros st Hok. unfold reset_robot.
  match goal with |- context [stop_robots c ?s] =>
    destruct (runs_stop_robots s) as (s' & E & Hd & Hok') end.
  { rewrite robots_ok_upd. exact Hok. }
  exists s'. split; [exact E|]. split; [|exact Hok']. rewrite Hd. reflexivity.
Qed.

Lemma runs_reset red blue : runs (reset c red blue).
Proof.
  intros st Hok. unfold reset.
  set (st0 := match ball_spot_of_formation c red with
              | Some (x, z) => reset_ball c x z st
              | None => st
              end).
  assert (H0 : decisions st0 = decisions st /\ robots_ok st0 = true).
  { subst st0. destruct (ball_spot_of_formation c red) as [[x z]|]; split;
      solve [reflexivity | exact Hok]. }
  destruct H0 as [Hd0 Hok0].
  destruct (runs_fold
              (fun st '(team, id) =>
                 let s : Q := if team =? TEAM_RED then 1%Q else (-1)%Q in
                 let a : Q := if team =? TEAM_RED then 0%Q else PI c in
                 let formation := if team =? TEAM_RED then red else blue in
                 let '(fx, fy, fth) := ROBOT_FORMATION c formation id in
                 reset_robot c team id (fx * s)%Q (ROBOT_HEIGHT c id / 2)%Q (fy * s)%Q
                   (fth + a - PI c / 2)%Q st) all_robots) with (st := st0)
    as (s1 & E1 & Hd1 & Hok1).
  { intros [team id] _ s Hs. cbv zeta.
    destruct (ROBOT_FORMATION c _ id) as [[fx fy] fth]. now apply runs_reset_robot. }
  { exact Hok0. }
  match goal with
  | |- context [foldl ?f (Some st0) all_robots] =>
      assert (E1' : foldl f (Some st0) all_robots = Some s1) by exact E1
  end.
  rewrite E1'. simpl. eexists. split; [reflexivity|]. split.
  - rewrite <- Hd0, <- Hd1. reflexivity.
  - exact Hok1.
Qed.

Lemma decisions_lock locked (st : State) :
  decisions (lock_all_robots locked st) = decisions st
  /\ robots_ok (lock_all_robots locked st) = robots_ok st.
Proof.
  unfold lock_all_robots. generalize all_robots as l. intros l. revert st.
  induction l as [|[t i] l IH]; intros st; [split; reflexivity|].
  simpl. destruct (IH (upd_robot t i (set_active (negb locked)) st)) as [-> ->].
  split; [reflexivity|apply robots_ok_upd].
Qed.

(** A wait that does not run the match clock. *)
Lemma step_runs ms (st : State) :
  sim_alive World SubImage ->
  exists st', step basicTimeStep ms false st = Next st'
              /\ decisions st' = decisions st /\ robots_ok st' = robots_ok st.
Proof.
  intros Ha. unfold step. generalize (range_len basicTimeStep ms) as n. intros n. revert st.
  induction n as [|n IH]; intros st; simpl.
  - exists st. repeat split.
  - destruct (Ha basicTimeStep (world st)) as [w ->].
    destruct (IH (set_world w st)) as (s & -> & Hd & Hok).
    exists s. repeat split; assumption.
Qed.


Lemma andthen_lift f k (st : State) : andthen (lift f) k st = k (f st).
Proof. reflexivity. Qed.

Lemma andthen_next m k (st st' : State) : m st = Next st' -> andthen m k st = k st'.
Proof. intros E. unfold andthen. now rewrite E. Qed.

Lemma andthen_lift_opt f k (st st' : State) :
  f st = Some st' -> andthen (lift_opt f) k st = k st'.
Proof. intros E. unfold andthen, lift_opt. now rewrite E. Qed.

Lemma decisions_upd_robot team id f (st : State) :
  decisions (upd_robot team id f st) = decisions st.
Proof. reflexivity. Qed.

Lemma restart_with_runs red blue kicker (st : State) :
  robots_ok st = true ->
  exists st', restart_with c red blue kicker st = Next st'
              /\ decisions st' = decisions st /\ robots_ok st' = true.
Proof.
  intros Hok. unfold restart_with.
  destruct (runs_reset red blue st Hok) as (s1 & E1 & D1 & Ok1).
  rewrite (andthen_lift_opt _ _ _ _ E1), andthen_lift. unfold lift.
  destruct (decisions_lock true s1) as [D2 Ok2].
  eexists. split; [reflexivity|]. split.
  - rewrite decisions_upd_robot. congruence.
  - rewrite robots_ok_upd. congruence.
Qed.

(** The goal branch runs to its end: one more point for the scorer, a
    kickoff for the other team. *)
Lemma goal_branch_runs ball_x (st : State) :
  sim_alive World SubImage ->
  robots_ok st = true ->
  exists st',
    goal_branch c basicTimeStep ball_x st = Next st'
    /\ decisions st' =
         (alter Z.succ (Z.to_nat (if Qlt_bool 0 ball_x then TEAM_RED else TEAM_BLUE)) (score st),
          STATE_KICKOFF,
          (if Qlt_bool 0 ball_x then TEAM_BLUE else TEAM_RED),
          (if Qlt_bool 0 ball_x then SCORE_RED_TEAM c else SCORE_BLUE_TEAM c),
          time st, half_passed st)
    /\ robots_ok st' = true.
Proof.
  intros Ha Hok. unfold goal_branch.
  rewrite andthen_lift.
  match goal with |- context [andthen (lift_opt (stop_robots c)) _ ?s] =>
    destruct (runs_stop_robots s Hok) as (s2 & E2 & D2 & Ok2) end.
  rewrite (andthen_lift_opt _ _ _ _ E2).
  destruct (step_runs (WAIT_GOAL_MS c) s2 Ha) as (s3 & E3 & D3 & Ok3).
  rewrite (andthen_next _ _ _ _ E3), !andthen_lift.
  rewrite Ok2 in Ok3.
  match goal with |- context [andthen _ _ ?s] => set (s4 := s) end.
  assert (Ok4 : robots_ok s4 = true) by exact Ok3.
  assert (D4 : decisions s4 =
               (score s3, STATE_KICKOFF,
                (if Qlt_bool 0 ball_x then TEAM_BLUE else TEAM_RED),
                reset_reason s3, time s3, half_passed s3)) by reflexivity.
  assert (R : exists s5,
             (if ball_ownership s4 =? TEAM_RED
              then restart_with c FORMATION_KICKOFF FORMATION_DEFAULT 4 s4
              else restart_with c FORMATION_DEFAULT FORMATION_KICKOFF 4 s4) = Next s5
             /\ decisions s5 = decisions s4 /\ robots_ok s5 = true).
  { destruct (_ =? _); now apply restart_with_runs. }
  destruct R as (s5 & E5 & D5 & Ok5).
  rewrite (andthen_next _ _ _ _ E5).
  destruct (step_runs (WAIT_STABLE_MS c) s5 Ha) as (s6 & E6 & D6 & Ok6).
  rewrite (andthen_next _ _ _ _ E6). unfold lift.
  eexists. split; [reflexivity|]. split; [|now rewrite <- Ok5].
  unfold decisions in *. cbn [score game_state ball_ownership reset_reason time half_passed
                               set_reset_reason].
  clearbody s4. cbn [score game_state ball_ownership reset_reason time half_passed
                      set_score] in D2.
  congruence.
Qed.


Lemma decisions_teleport posture team id (st : State) :
  decisions (teleport c team id posture st) = decisions st.
Proof. destruct posture as [[? ?] ?]. reflexivity. Qed.

Lemma decisions_check_sentout (st : State) :
  decisions (check_sentout c st) = decisions st.
Proof.
  unfold check_sentout. generalize all_robots as l. intros l. revert st.
  induction l as [|[team id] l IH]; intros st; [reflexivity|].
  cbn [foldl]. rewrite IH. unfold sentout_check_robot, return_to_field.
  destruct (_ =? 0); [reflexivity|].
  destruct (_ <=? _); [|reflexivity].
  destruct (ROBOT_FORMATION c FORMATION_DEFAULT id) as [[fx fy] fth].
  destruct (negb _); [|reflexivity].
  rewrite decisions_upd_robot, decisions_teleport. reflexivity.
Qed.

Lemma check_penalty_area_miss (st : State) :
  fst (check_penalty_area c st) = false -> snd (check_penalty_area c st) = st.
Proof.
  unfold check_penalty_area. destruct (get_ball_position st) as [bx by_].
  destruct (_ || _); [reflexivity|].
  destruct (Qlt_bool bx 0);
    repeat (destruct (_ >? _); [discriminate|]); reflexivity.
Qed.

(** Claim C3, with the outcome the code gives. In the DEFAULT phase,
    with the ball at [x = FIELD_LENGTH/2 + 1] and [|y| < GOAL_WIDTH/2],
    the goal check comes first and ignores the recent touches: the
    restart runs to its end while the simulation keeps stepping, red's
    score goes up by one, the phase becomes KICKOFF, the ownership
    goes to team blue and the reset reason is [SCORE_RED_TEAM]; the
    rest of the tick keeps those decisions when the penalty-area check
    finds nothing. *)
Theorem goal_mouth_exit_is_a_goal (st : State) :
  sim_alive World SubImage ->
  robots_ok st = true ->
  game_state st = STATE_DEFAULT ->
  (0 <= FIELD_LENGTH c)%Q ->
  (fst (ball_position st) == FIELD_LENGTH c / 2 + 1)%Q ->
  (Qabs (snd (ball_position st)) < GOAL_WIDTH c / 2)%Q ->
  exists st1,
    goal_branch c basicTimeStep (fst (ball_position st)) st = Next st1
    /\ phase_handler c basicTimeStep deadlock_flag st =
       andthen (lift (check_sentout c))
         (andthen (penalty_phase c basicTimeStep)
            (deadlock_phase c basicTimeStep deadlock_flag)) st1
    /\ decisions st1 =
         (alter Z.succ (Z.to_nat TEAM_RED) (score st), STATE_KICKOFF, TEAM_BLUE,
          SCORE_RED_TEAM c, time st, half_passed st)
    /\ (SCORE_RED_TEAM c <> NONE c ->
        fst (check_penalty_area c (check_sentout c st1)) = false ->
        exists st2,
          phase_handler c basicTimeStep deadlock_flag st = Next st2
          /\ decisions st2 = decisions st1).
Proof.
  intros Ha Hok Hgs Hfl Hx Hy.
  assert (Hhalf : (FIELD_LENGTH c / 2 == FIELD_LENGTH c * (1 # 2))%Q) by field.
  assert (Hpos : Qlt_bool 0 (fst (ball_position st)) = true).
  { apply Qlt_bool_iff. lra. }
  assert (Hgoal : Qlt_bool (FIELD_LENGTH c / 2) (Qabs (fst (ball_position st))) = true).
  { apply Qlt_bool_iff. rewrite Qabs_pos; lra. }
  assert (Hmouth : Qlt_bool (Qabs (snd (ball_position st))) (GOAL_WIDTH c / 2) = true)
    by now apply Qlt_bool_iff.
  destruct (goal_branch_runs (fst (ball_position st)) st Ha Hok) as (st1 & E1 & D1 & Ok1).
  rewrite Hpos in D1.
  assert (Hph : phase_handler c basicTimeStep deadlock_flag st =
                andthen (lift (check_sentout c))
                  (andthen (penalty_phase c basicTimeStep)
                     (deadlock_phase c basicTimeStep deadlock_flag)) st1).
  { unfold phase_handler. rewrite Hgs. unfold default_phase.
    destruct (ball_position st) as [bx by_]. cbn [fst snd] in *.
    rewrite Hgoal, Hmouth. cbn [andb].
    apply andthen_next. exact E1. }
  exists st1. split; [exact E1|]. split; [exact Hph|]. split; [exact D1|].
  intros Hne Hmiss. rewrite Hph, andthen_lift.
  pose proof (decisions_check_sentout st1) as Ds.
  set (s := check_sentout c st1) in *.
  unfold andthen, penalty_phase.
  pose proof (check_penalty_area_miss s Hmiss) as Hsnd.
  destruct (check_penalty_area c s) as [hit s']. cbn [fst snd] in Hmiss, Hsnd. subst hit s'.
  unfold deadlock_phase.
  assert (Hrr : reset_reason s = SCORE_RED_TEAM c).
  { unfold decisions in Ds, D1. congruence. }
  rewrite Hrr. apply Z.eqb_neq in Hne. rewrite Hne. cbn [andb].
  exists s. split; [reflexivity|exact Ds].
Qed.

End Totality.

(** * Worked examples on the toy simulator *)

Lemma toy_alive : sim_alive Toy.World unit.
Proof. intros ms w. eexists. reflexivity. Qed.




(** Claim C3 fails as stated: with the ball one metre behind the goal
    line inside the goal mouth and team red the last to touch it, the
    tick ends in the kickoff phase with a goal for red, not in a goal
    kick. *)
Lemma goal_mouth_exit_is_not_a_goal_kick :
  let st := Toy.ball_in_goal_mouth in
  game_state st = STATE_DEFAULT
  /\ (fst (ball_position st) == FIELD_LENGTH Toy.consts / 2 + 1)%Q
  /\ (Qabs (snd (ball_position st)) < GOAL_WIDTH Toy.consts / 2)%Q
  /\ touch_count st TEAM_RED > touch_count st TEAM_BLUE
  /\ exists st',
       referee_tick Toy.consts Toy.bts true st = Next st'
       /\ game_state st' = STATE_KICKOFF
       /\ game_state st' <> STATE_GOALKICK
       /\ reset_reason st' = SCORE_RED_TEAM Toy.consts
       /\ reset_reason st' <> GOALKICK Toy.consts
       /\ score st' = [1; 0].
Proof.
  cbv zeta. split; [reflexivity|]. split; [vm_compute; reflexivity|].
  split; [vm_compute; reflexivity|]. split; [vm_compute; reflexivity|].
  eexists. split; [vm_compute; reflexivity|].
  split; [vm_compute; reflexivity|]. split; [vm_compute; discriminate|].
  split; [vm_compute; reflexivity|]. split; [vm_compute; discriminate|].
  vm_compute; reflexivity.
Qed.

(** On the same state the restart of the goal runs to its end. *)
Lemma goal_mouth_exit_is_a_goal_witness :
  robots_ok Toy.ball_in_goal_mouth = true
  /\ game_state Toy.ball_in_goal_mouth = STATE_DEFAULT
  /\ (fst (ball_position Toy.ball_in_goal_mouth) == FIELD_LENGTH Toy.consts / 2 + 1)%Q
  /\ (Qabs (snd (ball_position Toy.ball_in_goal_mouth)) < GOAL_WIDTH Toy.consts / 2)%Q
  /\ exists st1,
    goal_branch Toy.consts Toy.bts (fst (ball_position Toy.ball_in_goal_mouth))
      Toy.ball_in_goal_mouth
    = Next st1
    /\ decisions st1
       = ([1; 0], STATE_KICKOFF, TEAM_BLUE, SCORE_RED_TEAM Toy.consts, 1000, false).
Proof.
  split; [vm_compute; reflexivity|]. split; [reflexivity|].
  split; [vm_compute; reflexivity|]. split; [vm_compute; reflexivity|].
  destruct (goal_mouth_exit_is_a_goal Toy.consts Toy.bts true Toy.ball_in_goal_mouth)
    as (st1 & E1 & _ & D1 & _).
  - exact toy_alive.
  - vm_compute. reflexivity.
  - reflexivity.
  - vm_compute. discriminate.
  - vm_compute. reflexivity.
  - vm_compute. reflexivity.
  - exists st1. split; [exact E1|exact D1].
Defined.

(** Claim C8 fails on the headings: after two mirrorings the heading
    of the first robot differs from the original by more than 6. *)
Lemma mirror_twice_turns_headings :
  match f_coord_my Toy.frame0,
        f_coord_my (mirror_frame Toy.consts (mirror_frame Toy.consts Toy.frame0)) with
  | (_, _, th, _, _) :: _, (_, _, th', _, _) :: _ => (6 < Qabs (th' - th))%Q
  | _, _ => False
  end.
Proof. vm_compute. reflexivity. Qed.

(** On the toy constants the reset reasons are those of the players. *)
Lemma mirror_twice_witness :
  SCORE_RED_TEAM Toy.consts = Game_SCORE_MYTEAM Toy.consts
  /\ SCORE_BLUE_TEAM Toy.consts = Game_SCORE_OPPONENT Toy.consts
  /\ f_score (mirror_frame Toy.consts (mirror_frame Toy.consts Toy.frame0))
     = f_score Toy.frame0
  /\ f_coord_ball (mirror_frame Toy.consts (mirror_frame Toy.consts Toy.frame0))
     = f_coord_ball Toy.frame0
  /\ Forall2 (coord_shifted (2 * PI Toy.consts)) (f_coord_my Toy.frame0)
       (f_coord_my (mirror_frame Toy.consts (mirror_frame Toy.consts Toy.frame0))).
Proof.
  split; [reflexivity|]. split; [reflexivity|].
  destruct (mirror_twice Toy.consts Toy.frame0 eq_refl eq_refl)
    as (_ & Hs & _ & _ & _ & _ & _ & Hb & Hmy & _).
  split; [exact Hs|]. split; [exact Hb|exact Hmy].
Defined.
